(** * XBee Gateway application: command correlation and transport layer

    A shallow embedding of the Python sources

      - [xbgw/xbee/utils.py]       (address normalisation, transmission ids)
      - [xbgw/xbee/io_sample.py]   (I/O sample decoder)
      - [xbgw/command/rci.py]      (command router)
      - [xbgw/xbee/manager.py]     (serial / telemetry socket manager)
      - [xbgw/xbee/ddo_manager.py] (DDO socket manager)

    Python integers are [Z]; Python lists are [list] with stdpp's lookup and
    insert; dictionaries keyed by strings are [gmap string _]; exceptions are
    explicit results. *)

From Stdlib Require Import ZArith Lia Ascii String List.
From Stdlib.Strings Require Import Byte.
From stdpp Require Import base numbers option list strings gmap fin_maps pretty.

Local Open Scope Z_scope.

(** ** Python results: a value or a raised exception *)

Inductive result (E R : Type) : Type :=
| Raise (e : E)
| Return (r : R).
Arguments Raise {E R} e.
Arguments Return {E R} r.

#[global] Instance result_ret {E} : MRet (result E) := fun _ x => Return x.
#[global] Instance result_bind {E} : MBind (result E) := fun _ _ f m =>
  match m with
  | Raise e => Raise e
  | Return x => f x
  end.

(** ** Python strings *)

(** [c in s] for a character [c]. *)
Definition char_in (c : ascii) (s : string) : bool :=
  existsb (Ascii.eqb c) (list_ascii_of_string s).

(** Keep the characters of [s] that satisfy [p], as the generator
    [''.join(c for c in s if p(c))] does. *)
Definition keep_chars (p : ascii -> bool) (s : string) : string :=
  string_of_list_ascii (List.filter p (list_ascii_of_string s)).

Definition is_lower (c : ascii) : bool :=
  let n := nat_of_ascii c in (97 <=? n)%nat && (n <=? 122)%nat.
Definition is_upper (c : ascii) : bool :=
  let n := nat_of_ascii c in (65 <=? n)%nat && (n <=? 90)%nat.

(** [str.upper] and [str.lower] on one ASCII character, then on strings. *)
Definition upper_char (c : ascii) : ascii :=
  if is_lower c then ascii_of_nat (nat_of_ascii c - 32) else c.
Definition lower_char (c : ascii) : ascii :=
  if is_upper c then ascii_of_nat (nat_of_ascii c + 32) else c.

Definition py_lower (s : string) : string :=
  string_of_list_ascii (map lower_char (list_ascii_of_string s)).

(** The characters [str.strip] and [int] treat as white space in a byte
    string ([unicode.strip] also strips the white space of Unicode, which
    is not modelled). *)
Definition is_space (c : ascii) : bool :=
  let n := nat_of_ascii c in ((9 <=? n)%nat && (n <=? 13)%nat) || (n =? 32)%nat.

Fixpoint lstrip (l : list ascii) : list ascii :=
  match l with
  | c :: l' => if is_space c then lstrip l' else l
  | [] => []
  end.

Definition py_strip (s : string) : string :=
  string_of_list_ascii (rev (lstrip (rev (lstrip (list_ascii_of_string s))))).

Definition is_digit (c : ascii) : bool :=
  let n := nat_of_ascii c in (48 <=? n)%nat && (n <=? 57)%nat.

(** Value of a digit in base 16 (or base 10 for the first ten). *)
Definition digit_value (c : ascii) : Z :=
  let n := Z.of_nat (nat_of_ascii c) in
  if is_digit c then n - 48
  else if is_lower c then n - 97 + 10
  else n - 65 + 10.

(** The value of a string of digits in the given base, most significant
    digit first: [long(s, 16)] on a string of hexadecimal digits. *)
Definition digits_value (base : Z) (l : list ascii) : Z :=
  fold_left (fun acc c => acc * base + digit_value c) l 0.

(** [int(s)] on a byte string ([str]): optional surrounding white space,
    an optional sign, then one or more decimal digits; [None] is Python's
    [ValueError].  On a [unicode] object [int] also reads the decimal
    digits of other scripts, which is not modelled: the text of an element
    is a byte string when it is ASCII. *)
Definition py_int (s : string) : option Z :=
  let body := list_ascii_of_string (py_strip s) in
  let '(sign, ds) :=
    match body with
    | "-"%char :: ds => (-1, ds)
    | "+"%char :: ds => (1, ds)
    | _ => (1, body)
    end in
  match ds with
  | [] => None
  | _ => if forallb is_digit ds then Some (sign * digits_value 10 ds) else None
  end.

(** ['%02x' % n] for a non-negative [n]: lower-case hexadecimal, padded
    with a zero to two digits. *)
Fixpoint hex_digits_of_pos (p : positive) (fuel : nat) (acc : list ascii)
  : list ascii :=
  match fuel with
  | O => acc
  | S fuel' =>
      let d := Z.land (Z.pos p) 15 in
      let c := default "0"%char
                 (list_ascii_of_string "0123456789abcdef" !! Z.to_nat d) in
      match Z.shiftr (Z.pos p) 4 with
      | Z.pos q => hex_digits_of_pos q fuel' (c :: acc)
      | _ => c :: acc
      end
  end.

Definition format_x (n : Z) : string :=
  match n with
  | Z0 => "0"
  | Z.pos p => string_of_list_ascii (hex_digits_of_pos p (Pos.size_nat p) [])
  | Z.neg p =>
      "-" +:+ string_of_list_ascii (hex_digits_of_pos p (Pos.size_nat p) [])
  end.

Definition format_02x (n : Z) : string :=
  let s := format_x n in
  if (String.length s <? 2)%nat then "0" +:+ s else s.

(** ['%d' % n] and [str(n)] for an integer. *)
Definition format_d (n : Z) : string := pretty n.

(** ** xbgw/xbee/utils.py: addresses *)

(** What a caller may pass where an address is expected. *)
Inductive pyobj : Type :=
| PyStr (s : string)
| PyInt (n : Z)
| PyOther.

Inductive addr_exn : Type :=
| ValueError (message : string)
| TypeError (message : string).

(** [string.hexdigits] *)
Definition hexdigits : string := "0123456789abcdefABCDEF".

Definition hexdigit_at (n : Z) : ascii :=
  default "0"%char (list_ascii_of_string hexdigits !! Z.to_nat n).

(** One byte of the address, two upper-case digits. *)
Definition mac_byte (value : Z) (i : Z) : string :=
  String (upper_char (hexdigit_at (Z.land 15 (Z.shiftr value (i * 8 + 4)))))
    (String (upper_char (hexdigit_at (Z.land 15 (Z.shiftr value (i * 8)))))
       EmptyString).

(** The string [[XX:XX:XX:XX:XX:XX:XX:XX]!] of a value. *)
Definition format_mac (value : Z) : string :=
  let mac := String.concat ":" (map (mac_byte value) [7; 6; 5; 4; 3; 2; 1; 0]) in
  "[" +:+ mac +:+ "]!".

Definition normalize_ieee_address (address : pyobj) : result addr_exn string :=
  value ←
    match address with
    | PyStr address =>
        let hexonly := keep_chars (fun c => char_in c hexdigits) address in
        let count := String.length hexonly in
        if (0 <? count)%nat && (count <=? 16)%nat
        then Return (digits_value 16 (list_ascii_of_string hexonly))
        else if (16 <? count)%nat
        then Raise (ValueError
                      ("Address is too long (" +:+ format_d (Z.of_nat count)
                       +:+ " chars)"))
        else Raise (ValueError
                      ("Address is too short (" +:+ format_d (Z.of_nat count)
                       +:+ " chars)"))
    | PyInt address => Return address
    | PyOther =>
        Raise (TypeError
                 "Network address must be given as a string, int or long")
    end;
  Return (format_mac value).

(** The [Address] named tuple; [optionsmask] and [txid] default to 0. *)
Module Address.
Record t : Type := Build {
  address : string;
  endpoint : Z;
  profile : Z;
  cluster : Z;
  optionsmask : Z;
  txid : Z
}.

(** [__new__]: the address is normalised on construction. *)
Definition new (address : pyobj) (endpoint profile cluster optionsmask txid : Z)
  : result addr_exn t :=
  address ← normalize_ieee_address address;
  Return (Build address endpoint profile cluster optionsmask txid).

Definition to_tuple (self : t) : string * list Z :=
  let numbers := [endpoint self; profile self; cluster self] in
  let numbers :=
    if negb (optionsmask self =? 0)%Z || negb (txid self =? 0)%Z
    then numbers ++ [optionsmask self; txid self]
    else numbers in
  (address self, numbers).
End Address.


(** [l[a:b]] for non-negative [a] and [b]. *)
Definition py_slice {A} (l : list A) (a b : nat) : list A :=
  take (b - a)%nat (drop a l).

(** [l.index(None)]: position of the first empty entry, [None] standing for
    the [ValueError] Python raises when there is none. *)
Fixpoint index_of_None {A} (l : list (option A)) : option nat :=
  match l with
  | [] => None
  | None :: _ => Some 0%nat
  | Some _ :: l' => S <$> index_of_None l'
  end.

(** ** xbgw/xbee/utils.py: the transmission-id table *)

Module TxStatusCallbacks.

(** Exceptions raised by the table. *)
Inductive exn : Type :=
| CallbacksFull
| IndexError (txid : Z).

Section Table.
Context {A : Type}.

(** The object's fields; [_maplock] only serialises the operations and is
    not represented. *)
Record t : Type := Build {
  _callbacks : list (option A);
  _baseindex : Z;
  max_id : Z
}.

(** [__init__]: [max_id + 1] empty slots, cursor at 1. *)
Definition init (max_id : Z) : t :=
  {| _callbacks := replicate (Z.to_nat (max_id + 1)) None;
     _baseindex := 1;
     max_id := max_id |}.

Definition _next_index (self : t) : Z :=
  let start := _baseindex self mod (max_id self + 1) in
  let cblist := drop (Z.to_nat start) (_callbacks self)
                ++ py_slice (_callbacks self) 1 (Z.to_nat start) in
  match index_of_None cblist with
  | Some i =>
      let index := Z.of_nat i + start in
      if index >? Z.of_nat (length cblist)
      then index mod Z.of_nat (length cblist)
      else index
  | None => 0
  end.

Definition add_callback (self : t) (listener : A) : result exn Z * t :=
  let txid := _next_index self in
  if txid =? 0 then (Raise CallbacksFull, self)
  else
    let cbs := <[Z.to_nat txid := Some listener]> (_callbacks self) in
    let base := _baseindex self + 1 in
    let base := if base >? max_id self then 1 else base in
    (Return txid,
     {| _callbacks := cbs; _baseindex := base; max_id := max_id self |}).

Definition remove_callback (self : t) (txid : Z) : result exn unit * t :=
  if (txid <=? 0) || (txid >? max_id self)
  then (Raise (IndexError txid), self)
  else (Return tt,
        {| _callbacks := <[Z.to_nat txid := None]> (_callbacks self);
           _baseindex := _baseindex self;
           max_id := max_id self |}).

Definition get_callback (self : t) (txid : Z) : result exn (option A) :=
  if (txid <=? 0) || (txid >? max_id self)
  then Raise (IndexError txid)
  else Return (default None (_callbacks self !! Z.to_nat txid)).

(** The slot of a transmission id. *)
Definition slot (self : t) (i : Z) : option A :=
  default None (_callbacks self !! Z.to_nat i).

(** Shape of every table built by [init] and the three operations. *)
Record wf (self : t) : Prop := {
  wf_max : 1 <= max_id self;
  wf_len : Z.of_nat (length (_callbacks self)) = max_id self + 1;
  wf_base : 1 <= _baseindex self <= max_id self
}.

(** Every id in [1..max_id] holds a callback. *)
Definition full (self : t) : Prop :=
  forall i, 1 <= i <= max_id self -> is_Some (slot self i).

End Table.
Arguments t : clear implicits.

End TxStatusCallbacks.

(** ** xbgw/xbee/io_sample.py *)

(** The values a sample maps its channels to: [bool] for a digital channel,
    an integer for an analog one. *)
Inductive sample_value : Type :=
| VBool (b : bool)
| VInt (n : Z).

Module io_sample.

(** [struct.error]: the buffer has not the size the format asks for. *)
Inductive exn : Type := StructError.

Definition byte_val (b : byte) : Z := Z.of_N (Byte.to_N b).

(** Big-endian 16-bit word. *)
Definition word16 (hi lo : byte) : Z :=
  Z.lor (Z.shiftl (byte_val hi) 8) (byte_val lo).

(** [struct.unpack("!H", d)[0]] *)
Definition unpack_H (d : list byte) : result exn Z :=
  match d with
  | [hi; lo] => Return (word16 hi lo)
  | _ => Raise StructError
  end.

(** [struct.unpack("!BHB", d)] *)
Definition unpack_BHB (d : list byte) : result exn (Z * Z * Z) :=
  match d with
  | [b0; hi; lo; b3] => Return (byte_val b0, word16 hi lo, byte_val b3)
  | _ => Raise StructError
  end.

(** [struct.unpack("!BH", d)] *)
Definition unpack_BH (d : list byte) : result exn (Z * Z) :=
  match d with
  | [b0; hi; lo] => Return (byte_val b0, word16 hi lo)
  | _ => Raise StructError
  end.

(** Number of iterations of [while mask: ...; mask >>= 1] for a
    non-negative mask. *)
Definition bit_length (mask : Z) : nat :=
  match mask with
  | Z.pos p => Pos.size_nat p
  | _ => O
  end.

(** The loop over the digital mask. *)
Fixpoint digital_loop (fuel : nat) (datamask datavals currentDI : Z)
    (retdir : gmap string sample_value) : gmap string sample_value :=
  match fuel with
  | O => retdir
  | S fuel' =>
      if datamask =? 0 then retdir
      else
        let retdir :=
          if negb (Z.land datamask 1 =? 0)
          then <[("DIO" +:+ format_d currentDI) :=
                   VBool (negb (Z.land datavals 1 =? 0))]> retdir
          else retdir in
        digital_loop fuel' (Z.shiftr datamask 1) (Z.shiftr datavals 1)
          (currentDI + 1) retdir
  end.

(** The loop over the analog mask; it consumes one word per set bit. *)
Fixpoint analog_loop (fuel : nat) (analogmask currentAI : Z)
    (data : list byte) (retdir : gmap string sample_value)
  : result exn (gmap string sample_value) :=
  match fuel with
  | O => Return retdir
  | S fuel' =>
      if analogmask =? 0 then Return retdir
      else
        '(data, retdir) ←
          (if negb (Z.land analogmask 1 =? 0)
           then
             aval ← unpack_H (take 2 data);
             Return (drop 2 data,
                     <[("AD" +:+ format_d currentAI) := VInt aval]> retdir)
           else Return (data, retdir));
        analog_loop fuel' (Z.shiftr analogmask 1) (currentAI + 1) data retdir
  end.

Definition parse_is (data : list byte)
  : result exn (gmap string sample_value) :=
  '(datamask, analogmask, data) ←
    (if (length data mod 2 =? 0)%nat
     then
       '(_, datamask, analogmask) ← unpack_BHB (take 4 data);
       Return (datamask, analogmask, drop 4 data)
     else
       '(_, mask) ← unpack_BH (take 3 data);
       Return (mask mod 512, Z.shiftr mask 9, drop 3 data));
  let retdir : gmap string sample_value := ∅ in
  '(data, retdir) ←
    (if negb (datamask =? 0)
     then
       datavals ← unpack_H (take 2 data);
       Return (drop 2 data,
               digital_loop (bit_length datamask) datamask datavals 0 retdir)
     else Return (data, retdir));
  analog_loop (bit_length analogmask) analogmask 0 data retdir.

End io_sample.

(** ** xbgw/command/rci.py *)

(** [xml.etree.ElementTree.Element]: tag, attributes, text and children. *)
#[local] Unset Elimination Schemes.
Inductive Element : Type :=
| Elem (tag : string) (attrib : gmap string string) (text : option string)
       (children : list Element).
#[local] Set Elimination Schemes.

Definition tag (e : Element) : string := let 'Elem t _ _ _ := e in t.
Definition attrib (e : Element) : gmap string string :=
  let 'Elem _ a _ _ := e in a.
Definition text (e : Element) : option string := let 'Elem _ _ x _ := e in x.
Definition children (e : Element) : list Element :=
  let 'Elem _ _ _ c := e in c.

(** [response.tag = name] *)
Definition set_tag (name : string) (e : Element) : Element :=
  Elem name (attrib e) (text e) (children e).

(** [e.append(child)] *)
Definition append (e child : Element) : Element :=
  Elem (tag e) (attrib e) (text e) (children e ++ [child]).

(** What a listener may put on a reply channel once the two markers are
    set apart: an [Element], or any other object, of which the router only
    uses [str]. *)
Inductive reply_value : Type :=
| VElement (e : Element)
| VObject (str : string).

(** The objects on a reply channel: the sentinel [ResponsePending], a
    [DeferredResponse] wrapping a value, or an immediate value. *)
Inductive reply : Type :=
| ResponsePending
| DeferredResponse (response : reply_value)
| Immediate (response : reply_value).

Module rci.
Definition BLOCKING_LIMIT : Z := 30.

Definition errors : gmap string string :=
  <["command.unknown" := "Command not handled"]>
    (<["command.timeout" :=
         "Timeout or unexpected exit waiting for response"]> ∅).

(** [KeyError] of [errdb[errcode]]. *)
Inductive exn : Type := KeyError (key : string).

(** A hint is [None] or a string; the empty string is as false as [None]. *)
Definition truthy (hint : option string) : bool :=
  match hint with
  | Some s => negb (String.eqb s "")
  | None => false
  end.

Definition ErrorResponse (errcode : string) (errdb : gmap string string)
    (hint : option string) : result exn Element :=
  match errdb !! errcode with
  | None => Raise (KeyError errcode)
  | Some desc =>
      let desc_el := Elem "desc" ∅ (Some desc) [] in
      let hint_els :=
        if truthy hint then [Elem "hint" ∅ hint []] else [] in
      let err_el := Elem "error" {[ "id" := errcode ]} None
                      (desc_el :: hint_els) in
      Return (Elem "response" ∅ None [err_el])
  end.

(** State of the loop of [process_command], with what it leaves behind:
    the objects taken from the channel, the lines given to [logger.error]
    and the time spent blocked on the channel. *)
Record collecting : Type := Collecting {
  deferred : Z;
  resp_children : list Element;
  taken : list reply;
  now : Z;
  log : list string
}.

(** The end of the loop body: anything that is not an [Element] becomes
    one holding its [str]; the tag is forced to [response]. *)
Definition as_response (response : reply_value) : Element :=
  let response :=
    match response with
    | VElement e => e
    | VObject str => Elem "response" ∅ (Some str) []
    end in
  set_tag "response" response.

(** One turn of the loop body on the object just taken from the channel. *)
Definition handle (response : reply) (st : collecting) : collecting :=
  match response with
  | ResponsePending =>
      Collecting (deferred st + 1) (resp_children st)
        (taken st ++ [response]) (now st) (log st)
  | DeferredResponse r =>
      Collecting (deferred st - 1) (resp_children st ++ [as_response r])
        (taken st ++ [response]) (now st) (log st)
  | Immediate r =>
      Collecting (deferred st) (resp_children st ++ [as_response r])
        (taken st ++ [response]) (now st) (log st)
  end.

(** [except Queue.Empty]: the wait of [BLOCKING_LIMIT] is over, the stall
    is logged, the loop is left. *)
Definition stop_waiting (tag : string) (st : collecting) : collecting :=
  Collecting (deferred st) (resp_children st) (taken st)
    (now st + BLOCKING_LIMIT)
    (log st ++ ["Unexpected exit/timeout while processing " +:+ tag]).

(** The channel as the router sees it: the objects put on it, in order,
    each with the time of its [put], counted from the return of
    [sendMessage].  An object whose time has passed is in the queue. *)
Definition queue_empty (now : Z) (arrivals : list (Z * reply)) : bool :=
  match arrivals with
  | (t, _) :: _ => negb (t <=? now)
  | [] => true
  end.

(** [while not responses._queue.empty() or deferred > 0]: a [get] on a
    non-empty queue returns at once; on an empty one it blocks until the
    next [put], or gives up after [BLOCKING_LIMIT]. *)
Fixpoint collect (tag : string) (arrivals : list (Z * reply))
    (st : collecting) : collecting :=
  match arrivals with
  | (t, response) :: rest =>
      if t <=? now st then collect tag rest (handle response st)
      else if deferred st >? 0 then
        if t <? now st + BLOCKING_LIMIT
        then collect tag rest
               (handle response
                  (Collecting (deferred st) (resp_children st) (taken st)
                     t (log st)))
        else stop_waiting tag st
      else st
  | [] => if deferred st >? 0 then stop_waiting tag st else st
  end.

Section Router.
(** [pub.sendMessage(topic, element=..., response=...)]: every listener of
    the topic runs before it returns; what they have put on the channel by
    then is its result here. *)
Variable sendMessage : string -> Element -> list reply.

(** What other threads put on the channel afterwards, with the time of
    each [put]. *)
Variable later : list (Z * reply).

(** All that is ever put on the channel of a command. *)
Definition channel_contents (command_element : Element) : list (Z * reply) :=
  map (fun r => (0, r))
    (sendMessage ("command." +:+ tag command_element) command_element)
  ++ later.

Definition process_command (command_element : Element)
  : result exn (Element * collecting) :=
  let responses := channel_contents command_element in
  let resp_xml := Elem "responses" {[ "command" := tag command_element ]}
                    None [] in
  resp_xml ←
    (if queue_empty 0 responses
     then
       response ← ErrorResponse "command.unknown" errors
                    (Some (tag command_element));
       Return (append resp_xml response)
     else Return resp_xml);
  let st := collect (tag command_element) responses
              (Collecting 0 (children resp_xml) [] 0 []) in
  timeouts ←
    (if deferred st >? 0
     then mapM (fun _ => ErrorResponse "command.timeout" errors None)
            (seq 0 (Z.to_nat (deferred st)))
     else Return []);
  Return (Elem (tag resp_xml) (attrib resp_xml) (text resp_xml)
            (resp_children st ++ timeouts), st).
End Router.

(** The children the loop appends for the objects it takes. *)
Definition replies_of (taken : list reply) : list Element :=
  flat_map (fun r =>
              match r with
              | ResponsePending => []
              | DeferredResponse v | Immediate v => [as_response v]
              end) taken.

(** The number of [ResponsePending] among the objects taken, less the
    number of [DeferredResponse]: the deferrals still outstanding. *)
Definition outstanding (taken : list reply) : Z :=
  Z.of_nat (length (List.filter
                      (fun r => match r with ResponsePending => true | _ => false end)
                      taken))
  - Z.of_nat (length (List.filter
                        (fun r => match r with DeferredResponse _ => true | _ => false end)
                        taken)).

(** What the loop keeps true of its state: the counter is the number of
    deferrals outstanding among the objects taken, and the children are
    those it started with, then the replies of the objects taken. *)
Definition collect_inv (first : list Element) (st : collecting) : Prop :=
  deferred st = outstanding (taken st) /\
  resp_children st = first ++ replies_of (taken st).

End rci.

(** ** What the two socket managers share *)

(** A reply channel handed to a listener ([PutOnlyQueue]); the callbacks the
    managers register are closures over one. *)
Definition channel : Type := nat.

(** Exceptions of a send: the managers' own [SocketUnavailable],
    [socket.error] with its [message], [errno] and [str], and any other
    exception, of which only [str] is used. *)
Inductive send_exn : Type :=
| SocketUnavailable (message : string)
| socket_error (message : string) (errno : option Z) (str : string)
| other_exception (str : string).

(** An exception no handler catches; it leaves the listener. *)
Inductive uncaught : Type :=
| Uncaught (what : string).

(** [select.POLLOUT] *)
Definition POLLOUT : Z := 4.

(** The socket and its poll object as a send sees them: the answer of
    [poller.poll(0)], the descriptor, and what [sendto] raises, if
    anything. *)
Record socket_env (dest : Type) : Type := SocketEnv {
  poll : list (Z * Z);
  fileno : Z;
  sendto : list byte -> dest -> option send_exn
}.
Arguments poll {dest} _.
Arguments fileno {dest} _.
Arguments sendto {dest} _ _ _.

(** What a manager does to the outside: objects put on reply channels,
    calls of [sendto], messages published on the bus. *)
Inductive bus_value : Type :=
| BSample (v : sample_value)
| BData (data : list byte).

Record message : Type := Message {
  topic : string;
  ident : list string;
  value : bus_value
}.

Record effects (dest : Type) : Type := Effects {
  puts : list (channel * reply);
  sendto_calls : list (list byte * dest);
  published : list message
}.
Arguments Effects {dest} _ _ _.
Arguments puts {dest} _.
Arguments sendto_calls {dest} _.
Arguments published {dest} _.

Definition no_effects {dest} : effects dest := Effects [] [] [].

(** A method of a manager: from the object and the effects so far to a
    result, or an uncaught exception, and the object and effects after. *)
Definition M (S A : Type) : Type := S -> result uncaught A * S.

Definition ret {S A} (x : A) : M S A := fun s => (Return x, s).
Definition bind {S A B} (m : M S A) (k : A -> M S B) : M S B :=
  fun s =>
    match m s with
    | (Return x, s') => k x s'
    | (Raise e, s') => (Raise e, s')
    end.
Definition throw {S A} (e : uncaught) : M S A := fun s => (Raise e, s).
Definition get {S} : M S S := fun s => (Return s, s).
Definition modify {S} (f : S -> S) : M S unit := fun s => (Return tt, f s).

#[global] Instance M_ret {S} : MRet (M S) := @ret S.
#[global] Instance M_bind {S} : MBind (M S) := fun _ _ k m => bind m k.

(** [ErrorResponse] inside a method; its [KeyError] is caught nowhere. *)
Definition error_response {S} (errcode : string) (errdb : gmap string string)
    (hint : option string) : M S Element :=
  match rci.ErrorResponse errcode errdb hint with
  | Return e => ret e
  | Raise (rci.KeyError k) => throw (Uncaught ("KeyError: " +:+ k))
  end.

(** What the platform and Python's library supply to the managers: the
    constants of the gateway's [socket] module, [os.strerror] ([None] for its
    [ValueError]), [base64.b64decode] on the text of an element ([None] for
    its [TypeError]) and [unicode.encode('utf-8')] ([None] when it raises). *)
Record platform : Type := Platform {
  XBS_OPT_DDO_APPLY : Z;
  XBS_STAT_OK : Z;
  XBS_STAT_ERROR : Z;
  XBS_STAT_BADCMD : Z;
  XBS_STAT_BADPARAM : Z;
  XBS_STAT_TXFAIL : Z;
  strerror : Z -> option string;
  b64decode : option string -> option (list byte);
  encode_utf8 : option string -> option (list byte)
}.

(** The message a failed send is reported with: [e.message], or when that
    is empty [os.strerror(e.errno)], or [str(e)] when [strerror] does not
    know the number.  An exception without a message and without an [errno]
    raises in this computation, and nothing catches that. *)
Definition send_failure_message {S} (pf : platform) (message : string)
    (errno : option Z) (str : string) : M S string :=
  if negb (String.eqb message "") then mret message
  else
    match errno with
    | Some n => mret (default str (strerror pf n))
    | None => throw (Uncaught "TypeError")
    end.

(** ** xbgw/xbee/manager.py *)

Module manager.

Definition DEFAULT_ENDPOINT : Z := 0xe8.
Definition DIGI_PROFILE : Z := 0xc105.
Definition SERIAL_CLUSTER : Z := 0x11.
Definition TX_STATUS_CLUSTER_ZB : Z := 0x8b.
Definition IO_CLUSTER : Z := 0x92.

Definition TX_STATUSES : gmap Z string :=
  list_to_map
    [ (0x00, "Success");
      (0x01, "MAC ACK Failure");
      (0x02, "CCA Failure");
      (0x15, "Invalid destination endpoint");
      (0x21, "Network ACK Failure");
      (0x22, "Not joined to network");
      (0x23, "Self addressed");
      (0x24, "Address not found");
      (0x25, "Route not found");
      (0x26, "Broadcast source failed to hear a neighbor relay the message");
      (0x2b, "Invalid binding table index");
      (0x2c, "Resource error; lack of free buffers, timers, etc");
      (0x2d, "Attempted broadcast with APS transmission");
      (0x2e, "Attempted unicast with APS transmission, but EE=0");
      (0x32, "Resource error; lack of free buffers, times, etc");
      (0x74, "Data payload too large") ].

Definition errors : gmap string string :=
  list_to_map
    [ ("address", "Invalid address");
      ("encoding", "Unrecognized encoding");
      ("base64", "Unable to decode as base64");
      ("invalidattr", "Attribute value is incorrect");
      ("missingattr", "Missing required command attribute");
      ("toomanyattrs", "Too many attributes were given");
      ("txfailed", "Transmit operation failed");
      ("txfull", "Too many outstanding transmits");
      ("txstatus", "TX Status delivery failure");
      ("unexpected", "Unexpected/unclassified error") ].

(** The three settings of the manager, as [get_setting] returns them. *)
Record settings : Type := Settings {
  filter_analog_duplicates : bool;
  minimum_analog_change : Z;
  filter_digital_duplicates : bool
}.

(** A destination as [sendto] takes it: [Address.to_tuple]. *)
Definition dest : Type := string * list Z.

(** The manager: its settings, the table of status callbacks (each the
    closure [lambda a, b, c, d, e=response: status_callback(a, b, c, d, e)],
    kept as the channel it closes over), the last reported values, and
    what it has done to the outside. *)
Record XBeeEventManager : Type := Build {
  get_setting : settings;
  tx_callbacks : TxStatusCallbacks.t channel;
  _last_report : gmap string sample_value;
  out : effects dest
}.

Definition init (cfg : settings) : XBeeEventManager :=
  Build cfg (TxStatusCallbacks.init 255) ∅ no_effects.

Abbreviation method := (M XBeeEventManager).

(** [response.put(item)] *)
Definition put (response : channel) (item : reply) : method unit :=
  modify (fun self =>
    Build (get_setting self) (tx_callbacks self) (_last_report self)
      (Effects (puts (out self) ++ [(response, item)])
         (sendto_calls (out self)) (published (out self)))).

(** [pubsub.pub.sendMessage(topic, ident=..., value=...)] *)
Definition sendMessage (topic : string) (ident : list string)
    (value : bus_value) : method unit :=
  modify (fun self =>
    Build (get_setting self) (tx_callbacks self) (_last_report self)
      (Effects (puts (out self)) (sendto_calls (out self))
         (published (out self) ++ [Message topic ident value]))).

Definition set_last_report (filter_key : string) (value : sample_value)
  : method unit :=
  modify (fun self =>
    Build (get_setting self) (tx_callbacks self)
      (<[filter_key := value]> (_last_report self)) (out self)).

Definition set_tx_callbacks (t : TxStatusCallbacks.t channel) : method unit :=
  modify (fun self =>
    Build (get_setting self) t (_last_report self) (out self)).

(** Python's integers behind the two kinds of value ([True] is 1). *)
Definition as_int (v : sample_value) : Z :=
  match v with
  | VInt n => n
  | VBool b => if b then 1 else 0
  end.

Definition handle_serial (addr : Address.t) (data : list byte) : method unit :=
  sendMessage "xbee.serialIn" [Address.address addr] (BData data).

Definition _process_analog (addr : Address.t) (key : string)
    (value : sample_value) : method unit :=
  self ← get;
  let filtered := filter_analog_duplicates (get_setting self) in
  let filter_key := Address.address addr +:+ " - " +:+ key in
  let difference := minimum_analog_change (get_setting self) in
  let dropped :=
    filtered &&
    match _last_report self !! filter_key with
    | Some old_value => Z.abs (as_int value - as_int old_value) <? difference
    | None => false
    end in
  if dropped then mret tt
  else
    sendMessage "xbee.analog" [Address.address addr; key] (BSample value);;
    set_last_report filter_key value.

Definition _process_digital (addr : Address.t) (key : string)
    (value : sample_value) : method unit :=
  self ← get;
  let filtered := filter_digital_duplicates (get_setting self) in
  let filter_key := Address.address addr +:+ " - " +:+ key in
  let dropped :=
    filtered &&
    match _last_report self !! filter_key with
    | Some old_value => as_int old_value =? as_int value
    | None => false
    end in
  if dropped then mret tt
  else
    sendMessage "xbee.digitalIn" [Address.address addr; key] (BSample value);;
    set_last_report filter_key value.

(** The body of the loop of [handle_io] for one item of the sample. *)
Definition process_item (addr : Address.t) (item : string * sample_value)
  : method unit :=
  let '(key, value) := item in
  if String.prefix "AD" key then _process_analog addr key value
  else if String.prefix "DIO" key then _process_digital addr key value
  else mret tt.

(** The loop [for key, value in items] of [handle_io]. *)
Fixpoint process_items (addr : Address.t) (items : list (string * sample_value))
  : method unit :=
  match items with
  | [] => mret tt
  | item :: items => process_item addr item;; process_items addr items
  end.

(** [handle_io].  The order in which [iteritems] walks the dictionary is
    that of its hash table and is not modelled: the items are taken here
    in the order of [map_to_list], and the properties of [handle_io] are
    stated so that they do not depend on the order. *)
Definition handle_io (addr : Address.t) (data : list byte) : method unit :=
  match io_sample.parse_is data with
  | Raise _ => throw (Uncaught "struct.error")
  | Return iodata => process_items addr (map_to_list iodata)
  end.

(** Callback executed when transmission status information comes in. *)
Definition status_callback (addr : Address.t)
    (retries delivery_status discovery_status : Z) (response : channel)
  : method unit :=
  resp ←
    (if negb (delivery_status =? 0)
     then
       let errmsg := "0x" +:+ format_02x delivery_status +:+ ": " in
       let errmsg :=
         match TX_STATUSES !! delivery_status with
         | Some description => errmsg +:+ description
         | None => errmsg +:+ "Unknown"
         end in
       error_response "txstatus" errors (Some errmsg)
     else mret (Elem "response" ∅ (Some "") []));
  put response (DeferredResponse (VElement resp)).

(** [struct.unpack("2BH3B", data)]: seven bytes, of which the last three
    are the retry count and the two statuses. *)
Definition unpack_tx_status (data : list byte) : option (Z * Z * Z) :=
  match data with
  | [_; _; _; _; retry; delivery_status; discovery_status] =>
      Some (io_sample.byte_val retry, io_sample.byte_val delivery_status,
            io_sample.byte_val discovery_status)
  | _ => None
  end.

Definition handle_tx_status (addr : Address.t) (data : list byte)
  : method unit :=
  let tx_id := Address.txid addr in
  match unpack_tx_status data with
  | None => throw (Uncaught "struct.error")
  | Some (retry, delivery_status, discovery_status) =>
      self ← get;
      match TxStatusCallbacks.get_callback (tx_callbacks self) tx_id with
      | Raise _ => mret tt
      | Return None => mret tt
      | Return (Some callback) =>
          match TxStatusCallbacks.remove_callback (tx_callbacks self) tx_id with
          | (Raise _, _) => throw (Uncaught "IndexError")
          | (Return _, t) =>
              set_tx_callbacks t;;
              status_callback addr retry delivery_status discovery_status
                callback
          end
      end
  end.

(** [handle_read] on the datagram [recvfrom] gave and the [Address] built
    from its source address. *)
Definition handle_read (data : list byte) (addr : Address.t) : method unit :=
  if negb (Address.profile addr =? DIGI_PROFILE) then mret tt
  else if Address.cluster addr =? SERIAL_CLUSTER then handle_serial addr data
  else if Address.cluster addr =? IO_CLUSTER then handle_io addr data
  else if Address.cluster addr =? TX_STATUS_CLUSTER_ZB
  then handle_tx_status addr data
  else mret tt.

Section Send.
Variable pf : platform.
Variable env : socket_env dest.

(** [attempt_send]: the exception it raises, if any, is its result,
    since every caller catches it. *)
Definition attempt_send (payload : list byte) (address : dest)
  : method (result send_exn unit) :=
  let fds := poll env in
  match fds with
  | [] => mret (Raise (SocketUnavailable "No poll events returned"))
  | _ =>
      let sockfd := fileno env in
      if existsb (fun '(fd, event) => (fd =? sockfd) && (event =? POLLOUT)) fds
      then
        modify (fun self =>
          Build (get_setting self) (tx_callbacks self) (_last_report self)
            (Effects (puts (out self))
               (sendto_calls (out self) ++ [(payload, address)])
               (published (out self))));;
        mret (match sendto env payload address with
              | Some e => Raise e
              | None => Return tt
              end)
      else mret (Raise (SocketUnavailable "Socket not available for write"))
  end.

(** The last part of [send_serial_listener]: register the callback,
    send, and reply. *)
Definition send_and_reply (addr : string) (msg : list byte)
    (response : channel) : method unit :=
  self ← get;
  match TxStatusCallbacks.add_callback (tx_callbacks self) response with
  | (Raise _, _) =>
      e ← error_response "txfull" errors None; put response (Immediate (VElement e))
  | (Return txid, t) =>
      set_tx_callbacks t;;
      match Address.new (PyStr addr) DEFAULT_ENDPOINT DIGI_PROFILE
              SERIAL_CLUSTER 0 txid with
      | Raise _ => throw (Uncaught "ValueError")
      | Return dest_addr =>
          sent ← attempt_send msg (Address.to_tuple dest_addr);
          match sent with
          | Return _ => put response ResponsePending
          | Raise e =>
              self ← get;
              match TxStatusCallbacks.remove_callback (tx_callbacks self) txid with
              | (Raise _, _) => throw (Uncaught "IndexError")
              | (Return _, t) =>
                  set_tx_callbacks t;;
                  errmsg ←
                    match e with
                    | SocketUnavailable message =>
                        send_failure_message pf message None message
                    | socket_error message errno str =>
                        send_failure_message pf message errno str
                    | other_exception str => mret str
                    end;
                  e ← error_response "txfailed" errors (Some errmsg);
                  put response (Immediate (VElement e))
              end
          end
      end
  end.

Definition send_serial_listener (element : Element) (response : channel)
  : method unit :=
  let addr := attrib element !! "addr" in
  let encoding := default "base64" (attrib element !! "encoding") in
  let msg := text element in
  match addr with
  | None | Some "" =>
      e ← error_response "missingattr" errors
            (Some "No destination XBee address (attribute 'addr') given.");
      put response (Immediate (VElement e))
  | Some addr =>
      let addr :=
        if String.eqb addr "broadcast" then "[00:00:00:00:00:00:FF:FF]!"
        else addr in
      match normalize_ieee_address (PyStr addr) with
      | Raise (ValueError message) =>
          e ← error_response "address" errors (Some message);
          put response (Immediate (VElement e))
      | Raise (TypeError message) =>
          e ← error_response "unexpected" errors
                (Some ("Problem parsing address: " +:+ message));
          put response (Immediate (VElement e))
      | Return addr =>
          if String.eqb encoding "base64" then
            match b64decode pf msg with
            | None =>
                e ← error_response "base64" errors None;
                put response (Immediate (VElement e))
            | Some msg => send_and_reply addr msg response
            end
          else if String.eqb encoding "utf-8" then
            match encode_utf8 pf msg with
            | None => throw (Uncaught "encode")
            | Some msg => send_and_reply addr msg response
            end
          else
            e ← error_response "encoding" errors (Some encoding);
            put response (Immediate (VElement e))
      end
  end.
End Send.

End manager.

(** ** xbgw/xbee/ddo_manager.py *)

Module ddo_manager.

Definition errors : gmap string string :=
  list_to_map
    [ ("address", "Invalid address");
      ("badoutput", "Invalid digital output value");
      ("invalidattr", "Attribute value is incorrect");
      ("missingattr", "Missing required command attribute");
      ("toomanyattrs", "Too many attributes were given");
      ("ddo_error", "DDO command error");
      ("badcmd", "Invalid DDO command name");
      ("badparam", "Invalid DDO command value");
      ("txfailed", "Transmit operation failed");
      ("txfull", "Too many outstanding transmits");
      ("unexpected", "Unexpected/unclassified error") ].

(** The three tables as the module-level code leaves them: the literal
    [BAD_NAME_MAP], then the loop [for i in xrange(13)]. *)
Record pin_tables : Type := PinTables {
  BAD_NAME_MAP_ : gmap string Z;
  PIN_MAP_ : gmap string Z;
  INVERSE_PIN_MAP_ : gmap Z (list string)
}.

Definition pin_tables_step (tb : pin_tables) (i : Z) : pin_tables :=
  let inverse := <[i := default [] (INVERSE_PIN_MAP_ tb !! i)]> (INVERSE_PIN_MAP_ tb) in
  let pins := <["DIO" +:+ format_d i := i]> (PIN_MAP_ tb) in
  let inverse :=
    <[i := default [] (inverse !! i) ++ ["DIO" +:+ format_d i]]> inverse in
  let '(pins, inverse) :=
    if i <? 10
    then (<["D" +:+ format_d i := i]> pins,
          <[i := default [] (inverse !! i) ++ ["D" +:+ format_d i]]> inverse)
    else (pins, inverse) in
  let bad :=
    if i <? 7 then <["AD" +:+ format_d i := i]> (BAD_NAME_MAP_ tb)
    else BAD_NAME_MAP_ tb in
  PinTables bad pins inverse.

Definition tables : pin_tables :=
  fold_left pin_tables_step (seqZ 0 13)
    (PinTables
       (list_to_map
          [ ("ASSOC", 5); ("RTS", 6); ("CTS", 7);
            ("DTR", 8); ("SLEEP_RQ", 8); ("ON", 9); ("SLEEP", 9);
            ("PWM0", 10); ("RSSI", 10); ("P0", 10);
            ("PWM", 11); ("P1", 11); ("P2", 12) ])
       ∅ ∅).

Definition BAD_NAME_MAP : gmap string Z := BAD_NAME_MAP_ tables.
Definition PIN_MAP : gmap string Z := PIN_MAP_ tables.
Definition INVERSE_PIN_MAP : gmap Z (list string) := INVERSE_PIN_MAP_ tables.

(** [distutils.util.strtobool] of Python's library; [None] is its
    [ValueError]. *)
Definition strtobool (val : string) : option Z :=
  let val := py_lower val in
  if bool_decide (val ∈ ["y"; "yes"; "t"; "true"; "on"; "1"]) then Some 1
  else if bool_decide (val ∈ ["n"; "no"; "f"; "false"; "off"; "0"]) then Some 0
  else None.

(** 4 for low, 5 for high, 0 if the value is invalid. *)
Definition _parse_digital_value (value : string) : Z :=
  let value_l := py_lower value in
  if String.eqb value_l "low" then 4
  else if String.eqb value_l "high" then 5
  else
    match strtobool value with
    | Some b => b + 4
    | None => 0
    end.

Definition _pin_index_to_setting (pin : Z) : string :=
  if pin <? 10 then "D" +:+ format_d pin
  else "P" +:+ format_d (pin - 10).

(** [struct.pack('!I', n)] for [n] of 32 bits. *)
Definition pack_I (n : Z) : list byte :=
  map (fun k => default x00 (Byte.of_N (Z.to_N (Z.land (Z.shiftr n k) 255))))
    [24; 16; 8; 0].

(** A destination as [sendto] takes it: address, setting name, options and
    transmission id. *)
Definition dest : Type := string * string * Z * Z.

(** The source address of a status frame: address, command, two fields
    (the second is the transmission id) and the status. *)
Definition status_addr : Type := string * string * Z * Z * Z.

(** The manager: the table of status callbacks (each the closure
    [lambda data, addr: status_callback(data, addr, response)], kept as the
    channel it closes over) and what it has done to the outside. *)
Record DDOEventManager : Type := Build {
  tx_callbacks : TxStatusCallbacks.t channel;
  out : effects dest
}.

Definition init : DDOEventManager :=
  Build (TxStatusCallbacks.init 255) no_effects.

Abbreviation method := (M DDOEventManager).

(** [response.put(item)] *)
Definition put (response : channel) (item : reply) : method unit :=
  modify (fun self =>
    Build (tx_callbacks self)
      (Effects (puts (out self) ++ [(response, item)])
         (sendto_calls (out self)) (published (out self)))).

Definition set_tx_callbacks (t : TxStatusCallbacks.t channel) : method unit :=
  modify (fun self => Build t (out self)).

(** Reply with an error and return. *)
Definition reply_error (response : channel) (errcode : string)
    (hint : option string) : method unit :=
  e ← error_response errcode errors hint;
  put response (Immediate (VElement e)).

Section Platform.
Variable pf : platform.

Definition TX_STATUSES : gmap Z string :=
  <[XBS_STAT_TXFAIL pf := "Transmit failure"]>
    (<[XBS_STAT_BADPARAM pf := "Invalid DDO command value"]>
       (<[XBS_STAT_BADCMD pf := "Invalid DDO command name"]>
          (<[XBS_STAT_ERROR pf := "Error"]>
             (<[XBS_STAT_OK pf := "Success"]> ∅)))).

Definition status_callback (data : list byte) (addr : status_addr)
    (response : channel) : method unit :=
  let '(address, sent_cmd, _, _, status) := addr in
  match TX_STATUSES !! status with
  | None =>
      resp ← error_response "unexpected" errors
               (Some ("Unexpected status: " +:+ format_d status));
      put response (DeferredResponse (VElement resp))
  | Some _ =>
      resp ←
        (if status =? XBS_STAT_OK pf
         then mret (Elem "response" ∅
                      (Some (string_of_list_byte data)) [])
         else if status =? XBS_STAT_TXFAIL pf
         then error_response "txfailed" errors (Some address)
         else if status =? XBS_STAT_BADCMD pf
         then error_response "badcmd" errors (Some sent_cmd)
         else if status =? XBS_STAT_BADPARAM pf
         then error_response "badparam" errors None
         else if status =? XBS_STAT_ERROR pf
         then error_response "ddo_error" errors None
         else mret (Elem "response" ∅ None []));
      put response (DeferredResponse (VElement resp))
  end.

Definition handle_tx_status (data : list byte) (addr : status_addr)
  : method unit :=
  let '(_, _, _, tx_id, _) := addr in
  self ← get;
  match TxStatusCallbacks.get_callback (tx_callbacks self) tx_id with
  | Raise _ => mret tt
  | Return None => mret tt
  | Return (Some callback) =>
      match TxStatusCallbacks.remove_callback (tx_callbacks self) tx_id with
      | (Raise _, _) => throw (Uncaught "IndexError")
      | (Return _, t) =>
          set_tx_callbacks t;;
          status_callback data addr callback
      end
  end.

Definition handle_read (data : list byte) (addr : status_addr) : method unit :=
  handle_tx_status data addr.

Variable env : socket_env dest.

(** [attempt_send]: the exception it raises, if any, is its result, since
    the caller catches every one. *)
Definition attempt_send (payload : list byte) (address : dest)
  : method (result send_exn unit) :=
  let fds := poll env in
  match fds with
  | [] => mret (Raise (SocketUnavailable "No poll events returned"))
  | _ =>
      let sockfd := fileno env in
      if existsb (fun '(fd, event) => (fd =? sockfd) && (event =? POLLOUT)) fds
      then
        modify (fun self =>
          Build (tx_callbacks self)
            (Effects (puts (out self))
               (sendto_calls (out self) ++ [(payload, address)])
               (published (out self))));;
        mret (match sendto env payload address with
              | Some e => Raise e
              | None => Return tt
              end)
      else mret (Raise (SocketUnavailable "Socket not available for write"))
  end.

(** The part of [digital_out_listener] from the check of pin 9 on. *)
Definition set_pin (addr : string) (index : Z) (value : string)
    (response : channel) : method unit :=
  if index =? 9
  then reply_error response "invalidattr"
         (Some "DIO9 cannot be configured for digital")
  else
    let setting := _pin_index_to_setting index in
    let parsed_value := _parse_digital_value value in
    if parsed_value =? 0 then reply_error response "badoutput" (Some value)
    else
      self ← get;
      match TxStatusCallbacks.add_callback (tx_callbacks self) response with
      | (Raise _, _) => reply_error response "txfull" None
      | (Return txid, t) =>
          set_tx_callbacks t;;
          let dest_addr := (addr, setting, XBS_OPT_DDO_APPLY pf, txid) in
          let dest_value := pack_I parsed_value in
          sent ← attempt_send dest_value dest_addr;
          match sent with
          | Return _ => put response ResponsePending
          | Raise e =>
              self ← get;
              match TxStatusCallbacks.remove_callback (tx_callbacks self) txid with
              | (Raise _, _) => throw (Uncaught "IndexError")
              | (Return _, t) =>
                  set_tx_callbacks t;;
                  errmsg ←
                    match e with
                    | SocketUnavailable message =>
                        send_failure_message pf message None message
                    | socket_error message errno str =>
                        send_failure_message pf message errno str
                    | other_exception str => mret str
                    end;
                  reply_error response "txfailed" (Some errmsg)
              end
          end
      end.

(** A string attribute is false when absent or empty. *)
Definition attr_true (a : option string) : bool := rci.truthy a.

Definition digital_out_listener (element : Element) (response : channel)
  : method unit :=
  let addr := attrib element !! "addr" in
  let index := attrib element !! "index" in
  let name := attrib element !! "name" in
  let value := py_strip (default "" (text element)) in
  if negb (attr_true addr)
  then reply_error response "missingattr"
         (Some "No destination XBee address (attribute 'addr') given.")
  else
    match normalize_ieee_address (PyStr (default "" addr)) with
    | Raise (ValueError message) | Raise (TypeError message) =>
        reply_error response "address" (Some message)
    | Return addr =>
        if negb (attr_true index) && negb (attr_true name)
        then reply_error response "missingattr"
               (Some ("No digital output pin number (attribute 'index') or "
                      +:+ "name alias (attribute 'name') given"))
        else if bool_decide (index ≠ None) && bool_decide (name ≠ None)
        then reply_error response "toomanyattrs"
               (Some "Must specify only an index or a name, not both.")
        else if attr_true index
        then
          let index := default (-1) (py_int (default "" index)) in
          if (index <? 0) || (index >? 12)
          then reply_error response "invalidattr"
                 (Some ("Pin number ('index') must be an integer between "
                        +:+ "0 and 12"))
          else set_pin addr index value response
        else
          let name := default "" name in
          match BAD_NAME_MAP !! name with
          | Some pin =>
              let hint :=
                match INVERSE_PIN_MAP !! pin with
                | Some suggestions =>
                    "Bad digital output name; use "
                    +:+ String.concat " or " suggestions +:+ " instead."
                | None => name
                end in
              reply_error response "invalidattr" (Some hint)
          | None =>
              match PIN_MAP !! name with
              | Some index => set_pin addr index value response
              | None =>
                  reply_error response "invalidattr"
                    (Some ("Unrecognized digital output name: '" +:+ name
                           +:+ "'"))
              end
          end
    end.

End Platform.

End ddo_manager.

(** The constants of the gateway's [socket] module as the tests of the
    repository set them, with a [strerror] that knows two numbers and
    codecs that pass ASCII text through. *)
Definition gateway : platform :=
  {| XBS_OPT_DDO_APPLY := 2;
     XBS_STAT_OK := 0;
     XBS_STAT_ERROR := 1;
     XBS_STAT_BADCMD := 2;
     XBS_STAT_BADPARAM := 3;
     XBS_STAT_TXFAIL := 4;
     strerror := fun n =>
       if n =? 70 then Some "Communication error on send"
       else if n =? 90 then Some "Message too long"
       else None;
     b64decode := fun msg => list_byte_of_string <$> msg;
     encode_utf8 := fun msg => list_byte_of_string <$> msg |}.

(** ** Notions the properties are stated with *)

(** An error reply as [ErrorResponse] builds it. *)
Definition error_element (errcode desc : string) (hint : option string)
  : Element :=
  Elem "response" ∅ None
    [Elem "error" {[ "id" := errcode ]} None
       (Elem "desc" ∅ (Some desc) []
        :: match hint with
           | Some h => [Elem "hint" ∅ (Some h) []]
           | None => []
           end)].

(** The hexadecimal digit [normalize_ieee_address] prints for the four bits
    of [value] from bit [k] up, and the sixteen bit positions in the order
    they are printed. *)
Definition nibble_char (value k : Z) : ascii :=
  upper_char (hexdigit_at (Z.land 15 (Z.shiftr value k))).

Definition nibble_positions : list Z :=
  [60; 56; 52; 48; 44; 40; 36; 32; 28; 24; 20; 16; 12; 8; 4; 0].

(** The hexadecimal digits of a string, as [normalize_ieee_address] keeps
    them, and the number a normalized address stands for. *)
Definition hexonly (address : string) : string :=
  keep_chars (fun c => char_in c hexdigits) address.

Definition address_value (address : string) : Z :=
  digits_value 16 (list_ascii_of_string (hexonly address)).

(** The [id] of the error a reply carries, if it carries one, and its
    hint. *)
Definition error_id (e : Element) : option string :=
  match children e with
  | Elem "error" a _ _ :: _ => a !! "id"
  | _ => None
  end.

Definition error_hint (e : Element) : option string :=
  match children e with
  | Elem "error" _ _ [_; Elem "hint" _ h _] :: _ => h
  | _ => None
  end.

(** A [set_digital_output] element names pin 9: by an index that reads as
    9, by a name of [PIN_MAP] for 9, or by a name of [BAD_NAME_MAP] for 9. *)
Definition names_pin_9 (element : Element) : Prop :=
  (exists s, attrib element !! "index" = Some s /\ py_int s = Some 9) \/
  (exists n, attrib element !! "name" = Some n /\
             (ddo_manager.PIN_MAP !! n = Some 9 \/
              ddo_manager.BAD_NAME_MAP !! n = Some 9)).

(** The element has an address that normalises, and at most one of the
    attributes [index] and [name]. *)
Definition well_addressed (element : Element) : Prop :=
  (exists a n, attrib element !! "addr" = Some a /\ a <> "" /\
               normalize_ieee_address (PyStr a) = Return n) /\
  (attrib element !! "index" = None \/ attrib element !! "name" = None).

(** The DDO manager after one immediate reply on a channel and nothing
    else: no slot taken, nothing sent. *)
Definition ddo_replied (self : ddo_manager.DDOEventManager)
    (response : channel) (e : Element) : ddo_manager.DDOEventManager :=
  ddo_manager.Build (ddo_manager.tx_callbacks self)
    (Effects (puts (ddo_manager.out self) ++ [(response, Immediate (VElement e))])
       (sendto_calls (ddo_manager.out self))
       (published (ddo_manager.out self))).

(** The cache of last reports that a log of published messages accounts
    for: each reading published on [xbee.analog] or [xbee.digitalIn] for
    (address, channel) sets the entry of that pair. *)
Definition record_report (cache : gmap string sample_value) (m : message)
  : gmap string sample_value :=
  match m with
  | Message topic [address; key] (BSample v) =>
      if String.eqb topic "xbee.analog" || String.eqb topic "xbee.digitalIn"
      then <[address +:+ " - " +:+ key := v]> cache
      else cache
  | _ => cache
  end.

Definition reports_of_log (log : list message) : gmap string sample_value :=
  fold_left record_report log ∅.

(** The manager after a series of datagrams, each handled by
    [handle_read] (an exception in one is logged by [handle_error] and the
    loop goes on). *)
Definition after_reads (self : manager.XBeeEventManager)
    (frames : list (list byte * Address.t)) : manager.XBeeEventManager :=
  fold_left (fun self frame => snd (manager.handle_read frame.1 frame.2 self))
    frames self.

(** The manager after a series of readings of one analog channel. *)
Definition after_analog (self : manager.XBeeEventManager) (addr : Address.t)
    (key : string) (readings : list Z) : manager.XBeeEventManager :=
  fold_left (fun self v => snd (manager._process_analog addr key (VInt v) self))
    readings self.

(** ** Concrete inputs *)

(** A table of five ids after five allocations (the callbacks are
    numbers here). *)
Definition five_full : TxStatusCallbacks.t nat :=
  fold_left (fun t cb => snd (TxStatusCallbacks.add_callback t cb))
    (seq 1 5) (TxStatusCallbacks.init 5).

(** The sample of the repository's test: [01 FFF0 0F] and five words
    [FFFF]. *)
Definition test_sample : list byte :=
  [x01; xff; xf0; x0f; xff; xff; xff; xff; xff; xff; xff; xff; xff; xff].

(** The same header with the value words [A5A5 0001 0002 0003 0004]. *)
Definition counting_sample : list byte :=
  [x01; xff; xf0; x0f; xa5; xa5; x00; x01; x00; x02; x00; x03; x00; x04].

(** The two errors of the router as [ErrorResponse] builds them. *)
Definition unknown_error (hint : string) : Element :=
  Elem "response" ∅ None
    [Elem "error" {[ "id" := "command.unknown" ]} None
       [Elem "desc" ∅ (Some "Command not handled") [];
        Elem "hint" ∅ (Some hint) []]].

Definition timeout_error : Element :=
  Elem "response" ∅ None
    [Elem "error" {[ "id" := "command.timeout" ]} None
       [Elem "desc" ∅
          (Some "Timeout or unexpected exit waiting for response") []]].

(** The command [<test/>] and three buses: nobody listens; a listener
    answers [ResponsePending]; a listener answers it twice. *)
Definition test_element : Element := Elem "test" ∅ None [].
Definition nobody : string -> Element -> list reply := fun _ _ => [].
Definition one_pending : string -> Element -> list reply :=
  fun _ _ => [ResponsePending].


(** A radio node, as the source address of an I/O sample frame, and the
    settings of a manager that reports an analog channel only when it has
    moved by ten or more. *)
Definition node : Address.t :=
  Address.Build "[00:13:A2:00:40:00:00:01]!" 0xe8 0xc105 0x92 0 0.

Definition by_tens : manager.settings := manager.Settings true 10 true.

(** That manager after a first reading of 100 on AD0 of the node. *)
Definition reported_100 : manager.XBeeEventManager :=
  after_analog (manager.init by_tens) node "AD0" [100].

(** An operation on the table, and the table after a series of them (an
    operation that raises leaves the table as it is). *)
Inductive table_op (A : Type) : Type :=
| Add (listener : A)
| Remove (txid : Z).
Arguments Add {A} listener.
Arguments Remove {A} txid.

Definition apply_op {A} (self : TxStatusCallbacks.t A) (op : table_op A)
  : TxStatusCallbacks.t A :=
  match op with
  | Add listener => snd (TxStatusCallbacks.add_callback self listener)
  | Remove txid => snd (TxStatusCallbacks.remove_callback self txid)
  end.

Definition after_ops {A} (self : TxStatusCallbacks.t A) (ops : list (table_op A))
  : TxStatusCallbacks.t A :=
  fold_left apply_op ops self.

(** The ids returned by [k] allocations in a row, with the table after. *)
Fixpoint allocate_many {A} (self : TxStatusCallbacks.t A) (listeners : list A)
  : list (result TxStatusCallbacks.exn Z) * TxStatusCallbacks.t A :=
  match listeners with
  | [] => ([], self)
  | listener :: rest =>
      let '(r, t) := TxStatusCallbacks.add_callback self listener in
      let '(rs, t') := allocate_many t rest in
      (r :: rs, t')
  end.

(** The socket is not ready for a write: [poll] reports nothing, or not this
    descriptor with [POLLOUT]. *)
Definition writable {dest} (env : socket_env dest) : bool :=
  existsb (fun '(fd, event) => (fd =? fileno env) && (event =? POLLOUT)) (poll env).

(** An exception of [sendto] that says what went wrong: a message, or for
    [socket.error] an [errno]. *)
Definition described (e : send_exn) : Prop :=
  match e with
  | SocketUnavailable message => message <> ""
  | socket_error message errno _ => message <> "" \/ errno <> None
  | other_exception _ => True
  end.

(** Every [sendto] raises, with such an exception. *)
Definition sendto_raises {dest} (env : socket_env dest) : Prop :=
  forall payload address,
    exists e, sendto env payload address = Some e /\ described e.

(** The three transport failures of a send: no id left, socket not ready,
    [sendto] raising. *)
Definition transport_fails {dest A} (env : socket_env dest)
    (table : TxStatusCallbacks.t A) : Prop :=
  TxStatusCallbacks.full table \/ writable env = false \/ sendto_raises env.

(** The payload [send_serial_listener] sends for an element, when its
    encoding is known and the text decodes. *)
Definition serial_payload (pf : platform) (element : Element)
  : option (list byte) :=
  let encoding := default "base64" (attrib element !! "encoding") in
  if String.eqb encoding "base64" then b64decode pf (text element)
  else if String.eqb encoding "utf-8" then encode_utf8 pf (text element)
  else None.

(** The address [send_serial_listener] normalises for an element. *)
Definition serial_address (element : Element) : option string :=
  match attrib element !! "addr" with
  | None | Some "" => None
  | Some addr =>
      match normalize_ieee_address
              (PyStr (if String.eqb addr "broadcast"
                      then "[00:00:00:00:00:00:FF:FF]!" else addr)) with
      | Return n => Some n
      | Raise _ => None
      end
  end.

(** Two serial managers with the same settings, last reports, slots of the
    table and published messages: they differ at most in the replies put,
    in the calls of [sendto] recorded and in the cursor of the table. *)
Definition serial_same_but_sent (self self' : manager.XBeeEventManager) : Prop :=
  manager.get_setting self' = manager.get_setting self /\
  manager._last_report self' = manager._last_report self /\
  TxStatusCallbacks._callbacks (manager.tx_callbacks self')
  = TxStatusCallbacks._callbacks (manager.tx_callbacks self) /\
  TxStatusCallbacks.max_id (manager.tx_callbacks self')
  = TxStatusCallbacks.max_id (manager.tx_callbacks self) /\
  published (manager.out self') = published (manager.out self).

(** A [send_serial] command for the node, a socket ready for writing, one
    for which [poll] reports nothing, a status frame reporting success and
    the source address it comes from with transmission id 1, and the
    manager that has sent the command and waits for that status. *)
Definition hello_element : Element :=
  Elem "send_serial"
    (<["addr" := "0013A20040000001"]> (<["encoding" := "utf-8"]> ∅))
    (Some "hello") [].

Definition ready_serial : socket_env manager.dest :=
  SocketEnv _ [(5, POLLOUT)] 5 (fun _ _ => None).

Definition silent_serial : socket_env manager.dest :=
  SocketEnv _ [] 5 (fun _ _ => None).

Definition delivered : list byte := [x00; x00; x00; x00; x00; x00; x00].

Definition status_source : Address.t :=
  Address.Build "[00:13:A2:00:40:00:00:01]!" 0xe8 0xc105 0x8b 0 1.

Definition awaiting_status : manager.XBeeEventManager :=
  snd (manager.send_serial_listener gateway ready_serial hello_element 7%nat
         (manager.init by_tens)).

(** The address [digital_out_listener] normalises for an element. *)
Definition ddo_address (element : Element) : option string :=
  match attrib element !! "addr" with
  | None | Some "" => None
  | Some addr =>
      match normalize_ieee_address (PyStr addr) with
      | Return n => Some n
      | Raise _ => None
      end
  end.

(** The pin an element asks for, when it does so in a way the listener
    takes: an index alone that reads as a number from 0 to 12, or a name
    alone that is in [PIN_MAP] and not in [BAD_NAME_MAP]. *)
Definition requested_pin (element : Element) : option Z :=
  match attrib element !! "index", attrib element !! "name" with
  | Some index, None =>
      if String.eqb index "" then None
      else
        match py_int index with
        | Some i => if (i <? 0) || (i >? 12) then None else Some i
        | None => None
        end
  | None, Some name =>
      if String.eqb name "" then None
      else
        match ddo_manager.BAD_NAME_MAP !! name with
        | Some _ => None
        | None => ddo_manager.PIN_MAP !! name
        end
  | _, _ => None
  end.

(** The body of the element, stripped. *)
Definition requested_value (element : Element) : string :=
  py_strip (default "" (text element)).

(** A [set_digital_output] element that is in order: address, pin other
    than 9, and a value that parses. *)
Definition ddo_request (element : Element) (n : string) (pin : Z) : Prop :=
  ddo_address element = Some n /\
  requested_pin element = Some pin /\
  pin <> 9 /\
  ddo_manager._parse_digital_value (requested_value element) <> 0.

(** A [set_digital_output] command for pin 4 of the node, a DDO socket
    ready for writing and one for which [poll] reports nothing. *)
Definition pin4_high : Element :=
  Elem "set_digital_output"
    (<["addr" := "0013A20040000001"]> (<["name" := "DIO4"]> ∅))
    (Some " High ") [].

Definition ready_ddo : socket_env ddo_manager.dest :=
  SocketEnv _ [(6, POLLOUT)] 6 (fun _ _ => None).

Definition silent_ddo : socket_env ddo_manager.dest :=
  SocketEnv _ [] 6 (fun _ _ => None).

(** The same command for pin 9, named by index, and the DDO manager that
    has sent the command for pin 4 and waits for its status. *)
Definition pin9_by_index : Element :=
  Elem "set_digital_output"
    (<["addr" := "0013A20040000001"]> (<["index" := " 9"]> ∅))
    (Some "low") [].

Definition awaiting_ddo_status : ddo_manager.DDOEventManager :=
  snd (ddo_manager.digital_out_listener gateway ready_ddo pin4_high 7%nat
         ddo_manager.init).

(** The keys [parse_is] gives a digital and an analog channel. *)
Definition dio_key (i : Z) : string := "DIO" +:+ format_d i.
Definition ad_key (i : Z) : string := "AD" +:+ format_d i.

(** How many of the [i] lowest bits of a mask are set, and how many of all
    its bits. *)
Definition set_bits_below (mask : Z) (i : nat) : nat :=
  length (List.filter (fun k => Z.testbit mask (Z.of_nat k)) (seq 0 i)).

Definition set_bits (mask : Z) : nat :=
  set_bits_below mask (io_sample.bit_length mask).

(** The big-endian word at an offset of a buffer (0 past its end). *)
Definition word_at (data : list byte) (offset : nat) : Z :=
  match drop offset data with
  | hi :: lo :: _ => io_sample.word16 hi lo
  | _ => 0
  end.

(** The bytes a sample holds after its header: one word for the digital
    channels when one of them is enabled, then one word for each analog
    channel that is enabled. *)
Definition digital_size (datamask : Z) : nat :=
  if datamask =? 0 then 0%nat else 2%nat.

Definition channels_size (datamask analogmask : Z) : nat :=
  (digital_size datamask + 2 * set_bits analogmask)%nat.

(** What a sample with these masks says of the bytes [body] after its
    header: bit [i] of the digital word for each enabled DIO[i], the words
    that follow for the enabled AD[i] from the lowest up, and nothing
    else. *)
Definition sample_reads (datamask analogmask : Z) (body : list byte)
    (retdir : gmap string sample_value) : Prop :=
  (forall i, 0 <= i ->
     retdir !! dio_key i
     = if Z.testbit datamask i
       then Some (VBool (Z.testbit (word_at body 0) i))
       else None) /\
  (forall i, 0 <= i ->
     retdir !! ad_key i
     = if Z.testbit analogmask i
       then Some (VInt (word_at body
                          (digital_size datamask
                           + 2 * set_bits_below analogmask (Z.to_nat i))))
       else None) /\
  (forall key,
     (forall i, 0 <= i -> key <> dio_key i /\ key <> ad_key i) ->
     retdir !! key = None).

(** A series 1 sample: DIO0 and DIO3 enabled and AD1, two words. *)
Definition series_1_sample : list byte :=
  [x01; x04; x09; x00; x08; x02; x9a].

(** The key of the cache for a channel of a node, and the message a
    reading of a channel is published with. *)
Definition filter_key (addr : Address.t) (key : string) : string :=
  Address.address addr +:+ " - " +:+ key.

Definition report_message (addr : Address.t) (item : string * sample_value)
  : message :=
  Message (if String.prefix "AD" item.1 then "xbee.analog"
           else "xbee.digitalIn")
    [Address.address addr; item.1] (BSample item.2).

(** Whether the manager drops a reading instead of publishing it. *)
Definition drops (self : manager.XBeeEventManager) (addr : Address.t)
    (item : string * sample_value) : bool :=
  let cfg := manager.get_setting self in
  let old := manager._last_report self !! filter_key addr item.1 in
  if String.prefix "AD" item.1
  then manager.filter_analog_duplicates cfg &&
       match old with
       | Some old =>
           Z.abs (manager.as_int item.2 - manager.as_int old)
           <? manager.minimum_analog_change cfg
       | None => false
       end
  else if String.prefix "DIO" item.1
  then manager.filter_digital_duplicates cfg &&
       match old with
       | Some old => manager.as_int old =? manager.as_int item.2
       | None => false
       end
  else true.

(** Both filters are on, and the least analog change is above 0. *)
Definition filters_on (cfg : manager.settings) : Prop :=
  manager.filter_analog_duplicates cfg = true /\
  manager.filter_digital_duplicates cfg = true /\
  0 < manager.minimum_analog_change cfg.

(** The manager with the settings [by_tens] after the sample
    [counting_sample] of the node. *)
Definition sampled_once : manager.XBeeEventManager :=
  (manager.handle_io node counting_sample (manager.init by_tens)).2.

(** What [counting_sample] decodes to. *)
Definition counting_readings : gmap string sample_value :=
  list_to_map
    [ ("DIO4", VBool false); ("DIO5", VBool true); ("DIO6", VBool false);
      ("DIO7", VBool true); ("DIO8", VBool true); ("DIO9", VBool false);
      ("DIO10", VBool true); ("DIO11", VBool false); ("DIO12", VBool false);
      ("DIO13", VBool true); ("DIO14", VBool false); ("DIO15", VBool true);
      ("AD0", VInt 1); ("AD1", VInt 2); ("AD2", VInt 3); ("AD3", VInt 4) ].

(** The serial manager after one immediate reply on a channel and nothing
    else: no slot taken, nothing sent, nothing published. *)
Definition serial_replied (self : manager.XBeeEventManager)
    (response : channel) (e : Element) : manager.XBeeEventManager :=
  manager.Build (manager.get_setting self) (manager.tx_callbacks self)
    (manager._last_report self)
    (Effects (puts (manager.out self) ++ [(response, Immediate (VElement e))])
       (sendto_calls (manager.out self))
       (published (manager.out self))).

(** A [send_serial] element the listener turns down before any send: its
    address is missing or does not normalise, or its encoding is not
    [utf-8] and gives no payload (text that is not base64, or an encoding
    that is not known). *)
Definition serial_turned_down (pf : platform) (element : Element) : Prop :=
  serial_address element = None \/
  (serial_payload pf element = None /\
   default "base64" (attrib element !! "encoding") <> "utf-8").

(** A [send_serial] element with an encoding that is not known. *)
Definition rot13_element : Element :=
  Elem "send_serial"
    {[ "addr" := "00:13:a2:00:40:52:db:ae"; "encoding" := "rot13" ]}
    (Some "uryyb") [].

(** The place of id [i] in the order [_next_index] scans: how many slots
    lie before it going up from the cursor and wrapping from [max_id]
    to 1. *)
Definition steps_from_cursor {A} (self : TxStatusCallbacks.t A) (i : Z) : Z :=
  (i - TxStatusCallbacks._baseindex self) mod TxStatusCallbacks.max_id self.

(** The cursor after one more allocation. *)
Definition next_cursor {A} (self : TxStatusCallbacks.t A) : Z :=
  if TxStatusCallbacks._baseindex self + 1 >? TxStatusCallbacks.max_id self
  then 1 else TxStatusCallbacks._baseindex self + 1.

(** A fresh table of [n] ids after one allocation for each listener. *)
Definition filled {A} (n : Z) (listeners : list A) : TxStatusCallbacks.t A :=
  fold_left (fun t cb => snd (TxStatusCallbacks.add_callback t cb))
    listeners (TxStatusCallbacks.init n).

(** The table after the release of [a] and then of [b]. *)
Definition released {A} (self : TxStatusCallbacks.t A) (a b : Z)
  : TxStatusCallbacks.t A :=
  snd (TxStatusCallbacks.remove_callback
         (snd (TxStatusCallbacks.remove_callback self a)) b).

(** A table of five ids filled in the same way, with the cursor moved on
    to 2 by one release and one more allocation. *)
Definition five_full_at_2 : TxStatusCallbacks.t nat :=
  snd (TxStatusCallbacks.add_callback
         (snd (TxStatusCallbacks.remove_callback five_full 4)) 8%nat).



(** * Properties *)

(** ** The transmission-id table *)

Section TableFacts.
Context {A : Type}.
Implicit Types (l : list (option A)) (self : TxStatusCallbacks.t A).

Lemma index_of_None_first l i :
  l !! i = Some None ->
  (forall j, (j < i)%nat -> exists x, l !! j = Some (Some x)) ->
  index_of_None l = Some i.
Proof.
  revert i. induction l as [|o l IH]; intros i Hi Hlt; [done|].
  destruct i as [|i].
  - simpl in Hi. by inversion Hi.
  - destruct (Hlt 0%nat ltac:(lia)) as [x Hx]. simpl in Hx. inversion Hx; subst.
    simpl. rewrite (IH i); [done|done|].
    intros j Hj. apply (Hlt (S j)). lia.
Qed.

Lemma index_of_None_occupied l :
  (forall j o, l !! j = Some o -> is_Some o) -> index_of_None l = None.
Proof.
  induction l as [|o l IH]; intros H; [done|].
  destruct (H 0%nat o eq_refl) as [x ->]. simpl.
  rewrite IH; [done|]. intros j o' Hj. by apply (H (S j)).
Qed.

(** The list [_next_index] scans, when the cursor is at [b >= 1]. *)
Local Abbreviation scan_list l b := (drop b l ++ py_slice l 1 b) (only parsing).

Lemma scan_list_length l b :
  (1 <= b < length l)%nat -> length (scan_list l b) = (length l - 1)%nat.
Proof.
  intros Hb. unfold py_slice.
  rewrite length_app, length_drop, length_take, length_drop. lia.
Qed.

(** An entry of the scanned list is an entry of a slot [>= 1]. *)
Lemma scan_list_lookup l b j o :
  (1 <= b)%nat -> scan_list l b !! j = Some o ->
  exists i, (1 <= i)%nat /\ l !! i = Some o.
Proof.
  intros Hb. unfold py_slice. intros H.
  apply lookup_app_Some in H as [H|[_ H]].
  - rewrite lookup_drop in H. exists (b + j)%nat. split; [lia|done].
  - apply lookup_take_Some in H as [H _]. rewrite lookup_drop in H.
    eexists. split; [|exact H]. lia.
Qed.

Lemma scan_list_front l b j :
  (b + j < length l)%nat -> scan_list l b !! j = l !! (b + j)%nat.
Proof.
  intros H.
  rewrite lookup_app_l by (rewrite length_drop; lia).
  by rewrite lookup_drop.
Qed.

Lemma scan_list_back l b j :
  (1 <= b < length l)%nat -> (j < b - 1)%nat ->
  scan_list l b !! (length l - b + j)%nat = l !! (1 + j)%nat.
Proof.
  intros Hb Hj. unfold py_slice.
  rewrite lookup_app_r by (rewrite length_drop; lia).
  rewrite length_drop.
  replace (length l - b + j - (length l - b))%nat with j by lia.
  rewrite lookup_take_lt by lia. by rewrite lookup_drop.
Qed.

Lemma wf_start self :
  TxStatusCallbacks.wf self ->
  TxStatusCallbacks._baseindex self mod (TxStatusCallbacks.max_id self + 1)
  = TxStatusCallbacks._baseindex self.
Proof. intros [? ? ?]. apply Z.mod_small. lia. Qed.

Lemma full_lookup self i :
  TxStatusCallbacks.wf self -> TxStatusCallbacks.full self ->
  (1 <= i)%nat -> forall o, TxStatusCallbacks._callbacks self !! i = Some o ->
  is_Some o.
Proof.
  intros [? Hlen ?] Hfull Hi o Ho.
  assert (i < length (TxStatusCallbacks._callbacks self))%nat
    by (eapply lookup_lt_Some; eauto).
  specialize (Hfull (Z.of_nat i) ltac:(lia)).
  unfold TxStatusCallbacks.slot in Hfull.
  rewrite Nat2Z.id, Ho in Hfull. exact Hfull.
Qed.

Lemma next_index_full self :
  TxStatusCallbacks.wf self -> TxStatusCallbacks.full self ->
  TxStatusCallbacks._next_index self = 0.
Proof.
  intros Hwf Hfull. unfold TxStatusCallbacks._next_index.
  rewrite (wf_start _ Hwf).
  rewrite index_of_None_occupied; [done|].
  intros j o Hj. destruct Hwf as [? ? ?].
  apply scan_list_lookup in Hj as (i & Hi & Hio); [|lia].
  eapply full_lookup; eauto. by constructor.
Qed.

End TableFacts.

Section TableRelease.
Context {A : Type}.
Implicit Types (self : TxStatusCallbacks.t A).

(** Releasing a slot of a full table leaves that slot as the only empty
    one, and the next index found is that slot. *)
Lemma next_index_released self k :
  TxStatusCallbacks.wf self -> TxStatusCallbacks.full self ->
  1 <= k <= TxStatusCallbacks.max_id self ->
  TxStatusCallbacks._next_index
    (snd (TxStatusCallbacks.remove_callback self k)) = k.
Proof.
  intros Hwf Hfull Hk. pose proof Hwf as [Hmax Hlen Hbase].
  unfold TxStatusCallbacks.remove_callback.
  replace ((k <=? 0) || (k >? TxStatusCallbacks.max_id self)) with false
    by (symmetry; apply orb_false_intro; lia).
  cbn [snd]. unfold TxStatusCallbacks._next_index.
  cbn [TxStatusCallbacks._callbacks TxStatusCallbacks._baseindex
       TxStatusCallbacks.max_id].
  rewrite (wf_start _ Hwf).
  set (cbs := TxStatusCallbacks._callbacks self) in *.
  set (b := TxStatusCallbacks._baseindex self) in *.
  set (n := TxStatusCallbacks.max_id self) in *.
  set (cbs' := <[Z.to_nat k := None]> cbs).
  assert (Hlen' : length cbs' = S (Z.to_nat n))
    by (unfold cbs'; rewrite length_insert; lia).
  assert (Hk' : cbs' !! Z.to_nat k = Some None)
    by (unfold cbs'; apply list_lookup_insert_eq; lia).
  assert (Hother : forall i, (1 <= i)%nat -> (i < length cbs')%nat ->
            i <> Z.to_nat k -> exists x, cbs' !! i = Some (Some x)).
  { intros i Hi Hlt Hne. unfold cbs'.
    rewrite list_lookup_insert_ne by done.
    destruct (lookup_lt_is_Some_2 cbs i) as [o Ho];
      [unfold cbs' in Hlt; rewrite length_insert in Hlt; lia|].
    destruct (full_lookup self i Hwf Hfull Hi o Ho) as [x ->]. eauto. }
  assert (Hscan : length (drop (Z.to_nat b) cbs' ++ py_slice cbs' 1 (Z.to_nat b))
                  = Z.to_nat n)
    by (rewrite scan_list_length; lia).
  destruct (Z_le_gt_dec b k) as [Hbk|Hbk].
  - (* the released slot is at or after the cursor *)
    rewrite (index_of_None_first _ (Z.to_nat k - Z.to_nat b)%nat).
    + rewrite Hscan.
      replace (Z.of_nat (Z.to_nat k - Z.to_nat b) + b) with k by lia.
      destruct (Z.gtb_spec k (Z.of_nat (Z.to_nat n))); [lia|done].
    + rewrite scan_list_front by lia.
      replace (Z.to_nat b + (Z.to_nat k - Z.to_nat b))%nat with (Z.to_nat k)
        by lia. done.
    + intros j Hj. rewrite scan_list_front by lia. apply Hother; lia.
  - (* it is before the cursor: the scan wraps around *)
    rewrite (index_of_None_first _
               (length cbs' - Z.to_nat b + (Z.to_nat k - 1))%nat).
    + rewrite Hscan, Hlen'.
      replace (Z.of_nat (S (Z.to_nat n) - Z.to_nat b + (Z.to_nat k - 1)) + b)
        with (n + k) by lia.
      destruct (Z.gtb_spec (n + k) (Z.of_nat (Z.to_nat n))); [|lia].
      rewrite Z2Nat.id by lia.
      rewrite <- (Z.mul_1_l n) at 1. rewrite Z.add_comm, Z.mod_add by lia.
      apply Z.mod_small. lia.
    + rewrite scan_list_back by lia.
      replace (1 + (Z.to_nat k - 1))%nat with (Z.to_nat k) by lia. done.
    + intros j Hj.
      destruct (Nat.lt_ge_cases j (length cbs' - Z.to_nat b)) as [Hj'|Hj'].
      * rewrite scan_list_front by lia. apply Hother; lia.
      * replace j with (length cbs' - Z.to_nat b
                        + (j - (length cbs' - Z.to_nat b)))%nat by lia.
        rewrite scan_list_back by lia. apply Hother; lia.
Qed.

End TableRelease.

Section TableClaims.
Context {A : Type}.
Implicit Types (self : TxStatusCallbacks.t A).

Lemma release_allocate self k listener :
  TxStatusCallbacks.wf self -> TxStatusCallbacks.full self ->
  1 <= k <= TxStatusCallbacks.max_id self ->
  exists s1 s2,
    TxStatusCallbacks.remove_callback self k = (Return tt, s1) /\
    TxStatusCallbacks.slot s1 k = None /\
    TxStatusCallbacks.add_callback s1 listener = (Return k, s2) /\
    TxStatusCallbacks.slot s2 k = Some listener /\
    TxStatusCallbacks.wf s2 /\ TxStatusCallbacks.full s2.
Proof.
  intros Hwf Hfull Hk. pose proof Hwf as [Hmax Hlen Hbase].
  pose proof (next_index_released self k Hwf Hfull Hk) as Hnext.
  unfold TxStatusCallbacks.remove_callback in *.
  replace ((k <=? 0) || (k >? TxStatusCallbacks.max_id self)) with false in *
    by (symmetry; apply orb_false_intro; lia).
  cbn [snd] in Hnext. eexists _, _. split; [reflexivity|].
  unfold TxStatusCallbacks.add_callback. rewrite Hnext.
  replace (k =? 0) with false by (symmetry; apply Z.eqb_neq; lia).
  cbn [TxStatusCallbacks._callbacks TxStatusCallbacks._baseindex
       TxStatusCallbacks.max_id].
  split; [|split; [reflexivity|split; [|split]]].
  - unfold TxStatusCallbacks.slot; cbn.
    rewrite list_lookup_insert_eq by lia. done.
  - unfold TxStatusCallbacks.slot; cbn.
    rewrite list_lookup_insert_eq by (rewrite length_insert; lia). done.
  - constructor; cbn; [done|by rewrite !length_insert|].
    destruct (Z.gtb_spec (TxStatusCallbacks._baseindex self + 1)
                (TxStatusCallbacks.max_id self)); lia.
  - intros i Hi. unfold TxStatusCallbacks.slot; cbn in *.
    destruct (decide (Z.to_nat k = Z.to_nat i)) as [->|Hne].
    + rewrite list_lookup_insert_eq by (rewrite length_insert; lia). by eexists.
    + rewrite !list_lookup_insert_ne by done. apply Hfull. done.
Qed.

(** C6: when every slot [1..max_id] holds a callback, [add_callback] raises
    [CallbacksFull] (the scan finds no empty slot) and leaves the table as it
    was. *)
Theorem add_callback_full self listener :
  TxStatusCallbacks.wf self -> TxStatusCallbacks.full self ->
  TxStatusCallbacks._next_index self = 0 /\
  TxStatusCallbacks.add_callback self listener
  = (Raise TxStatusCallbacks.CallbacksFull, self).
Proof.
  intros Hwf Hfull. pose proof (next_index_full self Hwf Hfull) as H.
  split; [done|]. unfold TxStatusCallbacks.add_callback. by rewrite H.
Qed.

End TableClaims.

Lemma five_full_wf : TxStatusCallbacks.wf five_full.
Proof. constructor; vm_compute; done. Qed.

Lemma five_full_full : TxStatusCallbacks.full five_full.
Proof.
  intros i Hi. change (TxStatusCallbacks.max_id five_full) with 5 in Hi.
  assert (i = 1 \/ i = 2 \/ i = 3 \/ i = 4 \/ i = 5) as H by lia.
  destruct H as [->|[->|[->|[->| ->]]]]; vm_compute; by eexists.
Qed.

Lemma add_callback_full_witness :
  TxStatusCallbacks.add_callback five_full 6%nat
  = (Raise TxStatusCallbacks.CallbacksFull, five_full).
Proof.
  apply (add_callback_full five_full 6%nat five_full_wf five_full_full).
Defined.

(** C1 as stated fails: after filling five slots, with id 2 and then id 1
    both released before anything is allocated, the next two allocations
    return 1 and then 2: the scan starts at the cursor, which is back at 1. *)
Lemma release_2_1_allocate_twice :
  let s1 := snd (TxStatusCallbacks.remove_callback five_full 2) in
  let s2 := snd (TxStatusCallbacks.remove_callback s1 1) in
  let r1 := TxStatusCallbacks.add_callback s2 6%nat in
  let r2 := TxStatusCallbacks.add_callback (snd r1) 7%nat in
  (fst r1, fst r2) = (Return 1, Return 2) /\
  ~ (fst r1 = Return 2 /\ fst r2 = Return 1).
Proof. vm_compute. split; [done|]. intros [H _]. discriminate H. Qed.

(** ** The I/O sample decoder *)

(** C7: the sample [01 FFF0 0F FFFF FFFF FFFF FFFF FFFF] decodes to a
    mapping with exactly the keys DIO4..DIO15 and AD0..AD3: the digital
    channels hold the bits of the first value word, the analog channels the
    following words. *)
Theorem parse_is_test_sample :
  exists retdir,
    io_sample.parse_is test_sample = Return retdir /\
    retdir
    = list_to_map
        [ ("DIO4", VBool true); ("DIO5", VBool true); ("DIO6", VBool true);
          ("DIO7", VBool true); ("DIO8", VBool true); ("DIO9", VBool true);
          ("DIO10", VBool true); ("DIO11", VBool true); ("DIO12", VBool true);
          ("DIO13", VBool true); ("DIO14", VBool true); ("DIO15", VBool true);
          ("AD0", VInt 0xFFFF); ("AD1", VInt 0xFFFF); ("AD2", VInt 0xFFFF);
          ("AD3", VInt 0xFFFF) ] /\
    dom retdir
    = list_to_set
        [ "DIO4"; "DIO5"; "DIO6"; "DIO7"; "DIO8"; "DIO9"; "DIO10"; "DIO11";
          "DIO12"; "DIO13"; "DIO14"; "DIO15"; "AD0"; "AD1"; "AD2"; "AD3" ].
Proof.
  eexists. split; [|split; [reflexivity|]].
  - vm_compute. reflexivity.
  - vm_compute. reflexivity.
Qed.

(** With distinct value words the order shows: bit [n] of the first word
    goes to DIO[n], and the analog words follow from the low mask bit up. *)
Lemma parse_is_counting_sample :
  io_sample.parse_is counting_sample
  = Return (list_to_map
      [ ("DIO4", VBool false); ("DIO5", VBool true); ("DIO6", VBool false);
        ("DIO7", VBool true); ("DIO8", VBool true); ("DIO9", VBool false);
        ("DIO10", VBool true); ("DIO11", VBool false); ("DIO12", VBool false);
        ("DIO13", VBool true); ("DIO14", VBool false); ("DIO15", VBool true);
        ("AD0", VInt 1); ("AD1", VInt 2); ("AD2", VInt 3); ("AD3", VInt 4) ]).
Proof. vm_compute. reflexivity. Qed.

(** A truncated sample raises instead of decoding. *)
Lemma parse_is_truncated :
  io_sample.parse_is (take 12 test_sample) = Raise io_sample.StructError.
Proof. by vm_compute. Qed.

(** ** The command router *)

Section RouterFacts.
Variable sendMessage : string -> Element -> list reply.
Variable later : list (Z * reply).

Lemma ErrorResponse_unknown (hint : string) :
  hint <> "" ->
  rci.ErrorResponse "command.unknown" rci.errors (Some hint)
  = Return (unknown_error hint).
Proof.
  intros Hne. unfold rci.ErrorResponse.
  change (rci.errors !! "command.unknown") with (Some "Command not handled").
  cbn [rci.truthy]. apply String.eqb_neq in Hne. by rewrite Hne.
Qed.

Lemma ErrorResponse_timeout :
  rci.ErrorResponse "command.timeout" rci.errors None = Return timeout_error.
Proof. reflexivity. Qed.

Lemma mapM_timeouts (l : list nat) :
  mapM (fun _ => rci.ErrorResponse "command.timeout" rci.errors None) l
  = Return (replicate (length l) timeout_error).
Proof.
  induction l as [|x l IH]; [done|].
  cbn [mapM]. rewrite IH, ErrorResponse_timeout. done.
Qed.

Lemma outstanding_app (l : list reply) (r : reply) :
  rci.outstanding (l ++ [r])
  = rci.outstanding l
    + match r with
      | ResponsePending => 1
      | DeferredResponse _ => -1
      | Immediate _ => 0
      end.
Proof.
  unfold rci.outstanding. rewrite !List.filter_app, !length_app.
  destruct r; cbn; lia.
Qed.

Lemma handle_inv first r st :
  rci.collect_inv first st -> rci.collect_inv first (rci.handle r st).
Proof.
  intros [Hd Hc]. unfold rci.collect_inv, rci.replies_of.
  destruct r; cbn; rewrite outstanding_app, flat_map_app, Hc;
    cbn; rewrite ?app_nil_r, ?app_assoc; split; (lia || done).
Qed.

(** How the loop ends: either it leaves with nothing outstanding and
    nothing logged, or it gave up a wait with a positive counter. *)
Lemma collect_end tag first arrivals st :
  rci.collect_inv first st ->
  let st' := rci.collect tag arrivals st in
  rci.collect_inv first st' /\
  ((rci.log st' = rci.log st /\ rci.deferred st' <= 0)
   \/ (rci.log st'
       = rci.log st ++ ["Unexpected exit/timeout while processing " +:+ tag]
       /\ 0 < rci.deferred st'
       /\ rci.now st + rci.BLOCKING_LIMIT <= rci.now st')).
Proof.
  revert st. induction arrivals as [|[t r] rest IH]; intros st Hinv; cbn.
  - destruct (Z.gtb_spec (rci.deferred st) 0); cbn.
    + split; [done|]. right. repeat split; [lia|lia].
    + split; [done|]. left. done.
  - destruct (Z.leb_spec t (rci.now st)).
    + destruct (IH (rci.handle r st) (handle_inv _ _ _ Hinv)) as [Hi Hc].
      split; [done|]. destruct r; exact Hc.
    + destruct (Z.gtb_spec (rci.deferred st) 0).
      * destruct (Z.ltb_spec t (rci.now st + rci.BLOCKING_LIMIT)).
        -- set (st1 := rci.Collecting _ _ _ t _).
           assert (Hinv1 : rci.collect_inv first st1) by exact Hinv.
           destruct (IH (rci.handle r st1) (handle_inv _ _ _ Hinv1))
             as [Hi Hc].
           split; [done|].
           destruct Hc as [Hc|(Hl & Hd & Hn)]; [left|right].
           ++ destruct r; exact Hc.
           ++ repeat split; [destruct r; exact Hl|done|].
              assert (rci.now (rci.handle r st1) = t) by (by destruct r).
              lia.
        -- cbn. split; [done|]. right. repeat split; [lia|lia].
      * split; [done|]. left. done.
Qed.

End RouterFacts.

Section RouterClaims.
Variable sendMessage : string -> Element -> list reply.
Variable later : list (Z * reply).

(** C8: when the channel is empty after the publish, the aggregate reply
    has exactly one child, the [command.unknown] error with the tag of the
    command as hint, and the router has taken nothing from the channel and
    has not waited. *)
Theorem unhandled_command (command_element : Element) :
  rci.queue_empty 0 (rci.channel_contents sendMessage later command_element)
  = true ->
  tag command_element <> "" ->
  exists st,
    rci.process_command sendMessage later command_element
    = Return (Elem "responses" {[ "command" := tag command_element ]} None
                [unknown_error (tag command_element)], st) /\
    rci.taken st = [] /\ rci.now st = 0 /\ rci.log st = [].
Proof.
  intros Hempty Htag. unfold rci.process_command.
  rewrite Hempty, (ErrorResponse_unknown _ Htag). cbn [mbind result_bind].
  destruct (rci.channel_contents _ _ _) as [|[t r] rest].
  - cbn. eexists. split; [reflexivity|done].
  - cbn in Hempty. cbn. destruct (t <=? 0); [done|].
    cbn. eexists. split; [reflexivity|done].
Qed.


End RouterClaims.

Lemma unhandled_command_witness :
  exists st,
    rci.process_command nobody [] test_element
    = Return (Elem "responses" {[ "command" := "test" ]} None
                [unknown_error "test"], st) /\
    rci.taken st = [] /\ rci.now st = 0 /\ rci.log st = [].
Proof.
  apply (unhandled_command nobody [] test_element); [reflexivity|].
  vm_compute. discriminate.
Defined.


(** ** The cache of last reports *)

(** Unfold the operations of the method monad. *)
Ltac run_method :=
  unfold mbind, M_bind, bind, mret, M_ret, ret, get, modify, throw; cbn beta iota.

Section ReportFacts.
Implicit Types (self : manager.XBeeEventManager).

(** The cache is the one the log of published messages accounts for. *)
Local Abbreviation cache_ok self :=
  (manager._last_report self = reports_of_log (published (manager.out self))).

Lemma reports_of_log_snoc log m :
  reports_of_log (log ++ [m]) = record_report (reports_of_log log) m.
Proof. unfold reports_of_log. by rewrite fold_left_app. Qed.

Lemma process_analog_eq addr key v self :
  manager._process_analog addr key v self
  = let fk := Address.address addr +:+ " - " +:+ key in
    if manager.filter_analog_duplicates (manager.get_setting self) &&
       match manager._last_report self !! fk with
       | Some old => Z.abs (manager.as_int v - manager.as_int old)
                     <? manager.minimum_analog_change (manager.get_setting self)
       | None => false
       end
    then (Return tt, self)
    else (Return tt,
          manager.Build (manager.get_setting self) (manager.tx_callbacks self)
            (<[fk := v]> (manager._last_report self))
            (Effects (puts (manager.out self))
               (sendto_calls (manager.out self))
               (published (manager.out self)
                ++ [Message "xbee.analog" [Address.address addr; key]
                      (BSample v)]))).
Proof.
  unfold manager._process_analog, manager.sendMessage,
    manager.set_last_report. run_method. cbn zeta.
  destruct (_ && _); reflexivity.
Qed.

Lemma process_digital_eq addr key v self :
  manager._process_digital addr key v self
  = let fk := Address.address addr +:+ " - " +:+ key in
    if manager.filter_digital_duplicates (manager.get_setting self) &&
       match manager._last_report self !! fk with
       | Some old => manager.as_int old =? manager.as_int v
       | None => false
       end
    then (Return tt, self)
    else (Return tt,
          manager.Build (manager.get_setting self) (manager.tx_callbacks self)
            (<[fk := v]> (manager._last_report self))
            (Effects (puts (manager.out self))
               (sendto_calls (manager.out self))
               (published (manager.out self)
                ++ [Message "xbee.digitalIn" [Address.address addr; key]
                      (BSample v)]))).
Proof.
  unfold manager._process_digital, manager.sendMessage,
    manager.set_last_report. run_method. cbn zeta.
  destruct (_ && _); reflexivity.
Qed.

Lemma process_analog_ok addr key v self :
  cache_ok self -> cache_ok (snd (manager._process_analog addr key v self)).
Proof.
  intros H. rewrite process_analog_eq. cbn zeta.
  destruct (_ && _); cbn [snd manager._last_report manager.out published];
    [done|].
  rewrite reports_of_log_snoc, <- H. reflexivity.
Qed.

Lemma process_digital_ok addr key v self :
  cache_ok self -> cache_ok (snd (manager._process_digital addr key v self)).
Proof.
  intros H. rewrite process_digital_eq. cbn zeta.
  destruct (_ && _); cbn [snd manager._last_report manager.out published];
    [done|].
  rewrite reports_of_log_snoc, <- H. reflexivity.
Qed.

Lemma process_items_ok addr items self :
  cache_ok self -> cache_ok (snd (manager.process_items addr items self)).
Proof.
  revert self. induction items as [|[key v] items IH]; intros self H; [done|].
  cbn [manager.process_items]. unfold mbind, M_bind, bind.
  assert (Hitem : exists self',
            manager.process_item addr (key, v) self = (Return tt, self') /\
            cache_ok self').
  { unfold manager.process_item.
    destruct (String.prefix "AD" key).
    - pose proof (process_analog_ok addr key v self H) as H'.
      rewrite process_analog_eq in *. cbn zeta in *.
      destruct (_ && _); eexists; (split; [reflexivity|exact H']).
    - destruct (String.prefix "DIO" key).
      + pose proof (process_digital_ok addr key v self H) as H'.
        rewrite process_digital_eq in *. cbn zeta in *.
        destruct (_ && _); eexists; (split; [reflexivity|exact H']).
      + eexists; split; [reflexivity|exact H]. }
  destruct Hitem as (self' & -> & H'). by apply IH.
Qed.

Lemma error_response_state {S} code errdb hint (s : S) :
  snd (error_response code errdb hint s) = s.
Proof.
  unfold error_response. destruct (rci.ErrorResponse _ _ _) as [[k]|e]; done.
Qed.

Lemma status_callback_ok addr r d q response self :
  cache_ok self ->
  cache_ok (snd (manager.status_callback addr r d q response self)).
Proof.
  intros H. unfold manager.status_callback, mbind, M_bind, bind.
  destruct (negb (d =? 0)); [|exact H].
  pose proof (error_response_state "txstatus" manager.errors
                (Some match manager.TX_STATUSES !! d with
                      | Some description =>
                          ("0x" +:+ format_02x d +:+ ": ") +:+ description
                      | None => ("0x" +:+ format_02x d +:+ ": ") +:+ "Unknown"
                      end) self) as Hs.
  destruct (error_response _ _ _ self) as [[e|x] s']; cbn in Hs; subst s';
    exact H.
Qed.

Lemma handle_read_ok data addr self :
  cache_ok self -> cache_ok (snd (manager.handle_read data addr self)).
Proof.
  intros H. unfold manager.handle_read.
  destruct (negb _); [exact H|].
  destruct (_ =? manager.SERIAL_CLUSTER).
  { unfold manager.handle_serial, manager.sendMessage. run_method.
    cbn [snd manager._last_report manager.out published].
    rewrite reports_of_log_snoc. exact H. }
  destruct (_ =? manager.IO_CLUSTER).
  { unfold manager.handle_io.
    destruct (io_sample.parse_is data); [exact H|].
    by apply process_items_ok. }
  destruct (_ =? manager.TX_STATUS_CLUSTER_ZB); [|exact H].
  unfold manager.handle_tx_status.
  destruct (manager.unpack_tx_status data) as [[[r d] q]|]; [|exact H].
  unfold mbind, M_bind, bind; cbn [get].
  destruct (TxStatusCallbacks.get_callback _ _) as [|[cb|]]; [exact H| |exact H].
  destruct (TxStatusCallbacks.remove_callback _ _) as [[|] t]; [exact H|].
  cbn. by apply status_callback_ok.
Qed.

End ReportFacts.

(** C10: the cache of last reports is at all times the one the published
    messages account for: per (address, channel) the last value published,
    not the last received.  With the filter on, readings of an analog
    channel that stay closer than the minimum change to the cached value
    change nothing, however many they are, and the first reading that is
    at least the minimum change away from that same cached value is
    published and becomes the cached value. *)
Theorem last_report_is_last_published
    (cfg : manager.settings) (frames : list (list byte * Address.t))
    (self : manager.XBeeEventManager) (addr : Address.t) (key : string)
    (base : sample_value) (readings : list Z) (v : Z) :
  manager._last_report (after_reads (manager.init cfg) frames)
  = reports_of_log (published (manager.out (after_reads (manager.init cfg) frames)))
  /\
  (manager.filter_analog_duplicates (manager.get_setting self) = true ->
   manager._last_report self !! (Address.address addr +:+ " - " +:+ key)
   = Some base ->
   Forall (fun r => Z.abs (r - manager.as_int base)
                    < manager.minimum_analog_change (manager.get_setting self))
     readings ->
   manager.minimum_analog_change (manager.get_setting self)
   <= Z.abs (v - manager.as_int base) ->
   after_analog self addr key readings = self /\
   manager._process_analog addr key (VInt v)
     (after_analog self addr key readings)
   = (Return tt,
      manager.Build (manager.get_setting self) (manager.tx_callbacks self)
        (<[Address.address addr +:+ " - " +:+ key := VInt v]>
           (manager._last_report self))
        (Effects (puts (manager.out self)) (sendto_calls (manager.out self))
           (published (manager.out self)
            ++ [Message "xbee.analog" [Address.address addr; key]
                  (BSample (VInt v))])))).
Proof.
  split.
  - assert (Hgen : forall s,
              manager._last_report s
              = reports_of_log (published (manager.out s)) ->
              manager._last_report (after_reads s frames)
              = reports_of_log (published (manager.out (after_reads s frames)))).
    { induction frames as [|[data a] fs IH]; intros s Hs; [done|].
      cbn [after_reads fold_left]. apply IH. by apply handle_read_ok. }
    by apply Hgen.
  - intros Hf Hbase Hclose Hfar.
    assert (Hrun : after_analog self addr key readings = self).
    { induction Hclose as [|r rs Hr _ IH]; [done|].
      cbn [after_analog fold_left]. rewrite process_analog_eq. cbn zeta.
      rewrite Hf, Hbase. cbn [manager.as_int andb].
      destruct (Z.ltb_spec (Z.abs (r - manager.as_int base))
                  (manager.minimum_analog_change (manager.get_setting self)));
        [exact IH|lia]. }
    split; [exact Hrun|]. rewrite Hrun, process_analog_eq. cbn zeta.
    rewrite Hf, Hbase. cbn [manager.as_int andb].
    destruct (Z.ltb_spec (Z.abs (v - manager.as_int base))
                (manager.minimum_analog_change (manager.get_setting self)));
      [lia|reflexivity].
Qed.

Lemma last_report_is_last_published_witness :
  after_analog reported_100 node "AD0" [103; 106; 109] = reported_100 /\
  published
    (manager.out
       (snd (manager._process_analog node "AD0" (VInt 112)
               (after_analog reported_100 node "AD0" [103; 106; 109]))))
  = [Message "xbee.analog" ["[00:13:A2:00:40:00:00:01]!"; "AD0"]
       (BSample (VInt 100));
     Message "xbee.analog" ["[00:13:A2:00:40:00:00:01]!"; "AD0"]
       (BSample (VInt 112))].
Proof.
  destruct (proj2 (last_report_is_last_published by_tens [] reported_100 node
                     "AD0" (VInt 100) [103; 106; 109] 112))
    as [Hrun Hlast].
  - reflexivity.
  - vm_compute. reflexivity.
  - repeat constructor.
  - vm_compute. discriminate.
  - split; [exact Hrun|]. rewrite Hlast. reflexivity.
Defined.

(** ** Status frames with an unrecognized status *)

Section StatusFacts.

Lemma string_app_assoc (a b c : string) : (a +:+ b) +:+ c = a +:+ (b +:+ c).
Proof.
  induction a as [|x a IH]; [done|].
  change (String x ((a +:+ b) +:+ c) = String x (a +:+ (b +:+ c))).
  by rewrite IH.
Qed.

Lemma error_response_eq {S} (errdb : gmap string string) code desc hint (s : S) :
  errdb !! code = Some desc -> hint <> "" ->
  error_response code errdb (Some hint) s
  = (Return (error_element code desc (Some hint)), s).
Proof.
  intros Hdesc Hhint. unfold error_response, rci.ErrorResponse.
  rewrite Hdesc. cbn [rci.truthy].
  apply String.eqb_neq in Hhint. rewrite Hhint. reflexivity.
Qed.

Lemma error_response_nohint {S} (errdb : gmap string string) code desc (s : S) :
  errdb !! code = Some desc ->
  error_response code errdb None s
  = (Return (error_element code desc None), s).
Proof.
  intros Hdesc. unfold error_response, rci.ErrorResponse.
  rewrite Hdesc. reflexivity.
Qed.

(** C2 (amended): a status outside the recognized set gives one deferred
    reply in both managers: in the DDO manager the [unexpected] error with
    the hint [Unexpected status: <code>], in the serial manager the
    [txstatus] error with the hint [0x<code, two hex digits>: Unknown]. *)
Theorem unrecognized_status (pf : platform)
    (data : list byte) (address sent_cmd : string) (f2 f3 status : Z)
    (response : channel) (ddo : ddo_manager.DDOEventManager)
    (addr : Address.t) (retries delivery_status discovery_status : Z)
    (self : manager.XBeeEventManager) :
  ddo_manager.TX_STATUSES pf !! status = None ->
  manager.TX_STATUSES !! delivery_status = None ->
  ddo_manager.status_callback pf data (address, sent_cmd, f2, f3, status)
    response ddo
  = (Return tt,
     ddo_manager.Build (ddo_manager.tx_callbacks ddo)
       (Effects
          (puts (ddo_manager.out ddo)
           ++ [(response,
                DeferredResponse
                  (VElement
                     (error_element "unexpected"
                        "Unexpected/unclassified error"
                        (Some ("Unexpected status: " +:+ format_d status)))))])
          (sendto_calls (ddo_manager.out ddo))
          (published (ddo_manager.out ddo)))) /\
  manager.status_callback addr retries delivery_status discovery_status
    response self
  = (Return tt,
     manager.Build (manager.get_setting self) (manager.tx_callbacks self)
       (manager._last_report self)
       (Effects
          (puts (manager.out self)
           ++ [(response,
                DeferredResponse
                  (VElement
                     (error_element "txstatus" "TX Status delivery failure"
                        (Some ("0x" +:+ format_02x delivery_status
                               +:+ ": Unknown")))))])
          (sendto_calls (manager.out self))
          (published (manager.out self)))).
Proof.
  intros Hddo Hserial. split.
  - unfold ddo_manager.status_callback. rewrite Hddo. run_method.
    rewrite (error_response_eq ddo_manager.errors "unexpected"
               "Unexpected/unclassified error");
      [reflexivity|reflexivity|discriminate].
  - unfold manager.status_callback. rewrite Hserial.
    assert (Hnz : (delivery_status =? 0) = false).
    { apply Z.eqb_neq. intros ->. vm_compute in Hserial. discriminate. }
    rewrite Hnz. run_method. cbn [negb].
    rewrite !string_app_assoc.
    rewrite (error_response_eq manager.errors "txstatus"
               "TX Status delivery failure");
      [reflexivity|reflexivity|discriminate].
Qed.

End StatusFacts.

Lemma unrecognized_status_witness :
  puts (ddo_manager.out
          (snd (ddo_manager.status_callback gateway []
                  ("[00:00:00:00:00:AB:CD:EF]!", "D0", 0, 1, 80) 7%nat
                  ddo_manager.init)))
  = [(7%nat,
      DeferredResponse
        (VElement (error_element "unexpected" "Unexpected/unclassified error"
                     (Some "Unexpected status: 80"))))] /\
  puts (manager.out
          (snd (manager.status_callback node 0 3 0 7%nat
                  (manager.init by_tens))))
  = [(7%nat,
      DeferredResponse
        (VElement (error_element "txstatus" "TX Status delivery failure"
                     (Some "0x03: Unknown"))))].
Proof.
  destruct (unrecognized_status gateway [] "[00:00:00:00:00:AB:CD:EF]!" "D0"
              0 1 80 7%nat ddo_manager.init node 0 3 0 (manager.init by_tens))
    as [Hd Hs]; [reflexivity|reflexivity|].
  rewrite Hd, Hs. split; reflexivity.
Defined.

(** C2 as stated fails for the serial manager: the unrecognized delivery
    status 3 is answered with the [txstatus] error, not with
    [unexpected]. *)
Lemma serial_unknown_status_is_txstatus :
  manager.TX_STATUSES !! 3 = None /\
  exists e,
    puts (manager.out
            (snd (manager.status_callback node 0 3 0 7%nat
                    (manager.init by_tens))))
    = [(7%nat, DeferredResponse (VElement e))] /\
    error_id e = Some "txstatus" /\
    error_id e <> Some "unexpected" /\
    error_hint e = Some "0x03: Unknown".
Proof.
  split; [reflexivity|]. eexists. split; [by vm_compute|].
  split; [by vm_compute|]. split; [|by vm_compute].
  vm_compute. discriminate.
Qed.

(** ** Address normalisation *)

Section AddressFacts.

Lemma hex_char_facts n :
  0 <= n < 16 ->
  char_in (upper_char (hexdigit_at n)) hexdigits = true /\
  digit_value (upper_char (hexdigit_at n)) = n.
Proof.
  intros H.
  assert (Hall : forallb
                   (fun k => char_in (upper_char (hexdigit_at k)) hexdigits
                             && (digit_value (upper_char (hexdigit_at k)) =? k))
                   (seqZ 0 16) = true) by (vm_compute; reflexivity).
  rewrite forallb_forall in Hall.
  assert (Hin : In n (seqZ 0 16)) by (apply list_elem_of_In, elem_of_seqZ; lia).
  apply Hall, andb_true_iff in Hin as [H1 H2].
  split; [exact H1|by apply Z.eqb_eq].
Qed.

Lemma land15_range x : 0 <= Z.land 15 x < 16.
Proof.
  rewrite Z.land_comm. change 15 with (Z.ones 4). rewrite Z.land_ones by lia.
  apply Z.mod_pos_bound. lia.
Qed.

Lemma filter_keep {A} (p : A -> bool) x l :
  p x = true -> List.filter p (x :: l) = x :: List.filter p l.
Proof. intros H. cbn. by rewrite H. Qed.

Lemma filter_drop {A} (p : A -> bool) x l :
  p x = false -> List.filter p (x :: l) = List.filter p l.
Proof. intros H. cbn. by rewrite H. Qed.

Lemma format_mac_digits v :
  hexonly (format_mac v)
  = string_of_list_ascii (map (nibble_char v) nibble_positions).
Proof.
  assert (Hn : forall k, char_in (nibble_char v k) hexdigits = true)
    by (intros k; apply hex_char_facts, land15_range).
  unfold hexonly, format_mac, mac_byte, nibble_positions.
  lazy [map String.concat String.append keep_chars list_ascii_of_string].
  change (7 * 8 + 4) with 60. change (7 * 8) with 56.
  change (6 * 8 + 4) with 52. change (6 * 8) with 48.
  change (5 * 8 + 4) with 44. change (5 * 8) with 40.
  change (4 * 8 + 4) with 36. change (4 * 8) with 32.
  change (3 * 8 + 4) with 28. change (3 * 8) with 24.
  change (2 * 8 + 4) with 20. change (2 * 8) with 16.
  change (1 * 8 + 4) with 12. change (1 * 8) with 8.
  change (0 * 8 + 4) with 4. change (0 * 8) with 0.
  repeat match goal with
  | |- context [upper_char (hexdigit_at (Z.land 15 (Z.shiftr v ?k)))] =>
      change (upper_char (hexdigit_at (Z.land 15 (Z.shiftr v k))))
        with (nibble_char v k)
  end.
  repeat match goal with
  | |- context [nibble_char v ?k] =>
      let c := fresh "c" in
      let H := fresh "H" in
      pose proof (Hn k : (fun c => char_in c hexdigits) (nibble_char v k) = true) as H;
      set (c := nibble_char v k) in *; clearbody c
  end.
  clear Hn.
  repeat first
    [ rewrite (filter_keep (fun c => char_in c hexdigits)) by assumption
    | rewrite (filter_drop (fun c => char_in c hexdigits)) by reflexivity ].
  reflexivity.
Qed.

Lemma digit_nibble_char v k : 0 <= k -> digit_value (nibble_char v k) = (v / 2 ^ k) mod 2 ^ 4.
Proof.
  intros Hk. unfold nibble_char.
  rewrite (proj2 (hex_char_facts _ (land15_range _))).
  rewrite Z.land_comm. change 15 with (Z.ones 4).
  rewrite Z.land_ones by lia. by rewrite Z.shiftr_div_pow2.
Qed.

Lemma horner v k k' m m' :
  0 <= k -> 0 <= m -> k' = k + 4 -> m' = m + 4 ->
  (v / 2 ^ k') mod 2 ^ m * 16 + (v / 2 ^ k) mod 2 ^ 4
  = (v / 2 ^ k) mod 2 ^ m'.
Proof.
  intros Hk Hm -> ->.
  rewrite Z.pow_add_r, <- Z.div_div by lia.
  rewrite (Z.add_comm m 4), (Z.pow_add_r 2 4 m) by lia.
  rewrite (Z.rem_mul_r (v / 2 ^ k) (2 ^ 4) (2 ^ m)) by lia.
  change (2 ^ 4) with 16. lia.
Qed.

Lemma format_mac_value v :
  digits_value 16 (map (nibble_char v) nibble_positions)
  = v mod 2 ^ 64.
Proof.
  unfold digits_value, nibble_positions. cbn [map fold_left].
  rewrite !digit_nibble_char by lia. rewrite Z.mul_0_l, Z.add_0_l.
  rewrite (horner v 56 60 4 8) by lia.
  rewrite (horner v 52 56 8 12) by lia.
  rewrite (horner v 48 52 12 16) by lia.
  rewrite (horner v 44 48 16 20) by lia.
  rewrite (horner v 40 44 20 24) by lia.
  rewrite (horner v 36 40 24 28) by lia.
  rewrite (horner v 32 36 28 32) by lia.
  rewrite (horner v 28 32 32 36) by lia.
  rewrite (horner v 24 28 36 40) by lia.
  rewrite (horner v 20 24 40 44) by lia.
  rewrite (horner v 16 20 44 48) by lia.
  rewrite (horner v 12 16 48 52) by lia.
  rewrite (horner v 8 12 52 56) by lia.
  rewrite (horner v 4 8 56 60) by lia.
  rewrite (horner v 0 4 60 64) by lia.
  by rewrite Z.pow_0_r, Z.div_1_r.
Qed.

Lemma format_mac_low64 v : format_mac (v mod 2 ^ 64) = format_mac v.
Proof.
  assert (H : forall k, 0 <= k -> k + 4 <= 64 ->
            Z.land 15 (Z.shiftr (v mod 2 ^ 64) k) = Z.land 15 (Z.shiftr v k)).
  { intros k Hk Hk4. rewrite !(Z.land_comm 15). change 15 with (Z.ones 4).
    rewrite !Z.land_ones by lia. rewrite !Z.shiftr_div_pow2 by lia.
    replace 64 with (k + (64 - k)) by lia.
    rewrite Z.pow_add_r by lia.
    rewrite Z.rem_mul_r by lia.
    rewrite (Z.add_comm (v mod 2 ^ k)), Z.mul_comm, Z.div_add_l by lia.
    rewrite (Z.div_small (v mod 2 ^ k)) by (apply Z.mod_pos_bound; lia).
    rewrite Z.add_0_r.
    replace (64 - k) with (4 + (64 - k - 4)) by lia.
    rewrite (Z.pow_add_r 2 4) by lia.
    rewrite Z.rem_mul_r by lia.
    rewrite (Z.mul_comm (2 ^ 4)), Z.mod_add by lia.
    apply Z.mod_mod. lia. }
  unfold format_mac, mac_byte. cbn [map].
  rewrite !H by lia. reflexivity.
Qed.

Lemma list_ascii_roundtrip (l : list ascii) :
  list_ascii_of_string (string_of_list_ascii l) = l.
Proof. apply list_ascii_of_string_of_list_ascii. Qed.

Lemma address_value_format_mac v : address_value (format_mac v) = v mod 2 ^ 64.
Proof.
  unfold address_value. rewrite format_mac_digits, list_ascii_roundtrip.
  apply format_mac_value.
Qed.

Lemma hexonly_format_mac_length v : String.length (hexonly (format_mac v)) = 16%nat.
Proof. rewrite format_mac_digits. reflexivity. Qed.

(** Normalising a normalized address gives it back. *)
Lemma normalize_format_mac v :
  normalize_ieee_address (PyStr (format_mac v)) = Return (format_mac v).
Proof.
  unfold normalize_ieee_address.
  change (keep_chars _ (format_mac v)) with (hexonly (format_mac v)).
  rewrite hexonly_format_mac_length. cbn [Nat.ltb Nat.leb andb].
  change (digits_value 16 (list_ascii_of_string (hexonly (format_mac v))))
    with (address_value (format_mac v)).
  rewrite address_value_format_mac. cbn. by rewrite format_mac_low64.
Qed.

Lemma normalize_inv x a :
  normalize_ieee_address x = Return a -> exists v, a = format_mac v.
Proof.
  unfold normalize_ieee_address.
  destruct x as [s|n|]; [|cbn; intros [= <-]; by eexists|done].
  destruct (_ && _); [cbn; intros [= <-]; by eexists|].
  destruct (_ <? _)%nat; done.
Qed.

End AddressFacts.

(** C3 (amended): a string is accepted exactly when 1 to 16 hexadecimal
    digits are left once every other character is dropped (none, or more
    than 16, raise [ValueError]); every integer is accepted, without any
    check of sign or width, and is reduced to its low 64 bits (two's
    complement for a negative one).  An address that is returned stands
    for a number from 0 up to [2^64 - 1], and normalising it again returns
    it unchanged. *)
Theorem normalize_ieee_address_total (s : string) (n : Z) (x : pyobj)
    (a : string) :
  ((1 <= String.length (hexonly s) <= 16)%nat ->
   normalize_ieee_address (PyStr s) = Return (format_mac (address_value s))) /\
  (String.length (hexonly s) = 0%nat ->
   normalize_ieee_address (PyStr s)
   = Raise (ValueError "Address is too short (0 chars)")) /\
  ((16 < String.length (hexonly s))%nat ->
   exists message, normalize_ieee_address (PyStr s) = Raise (ValueError message)) /\
  normalize_ieee_address (PyInt n) = Return (format_mac (n mod 2 ^ 64)) /\
  (normalize_ieee_address x = Return a ->
   0 <= address_value a < 2 ^ 64 /\
   normalize_ieee_address (PyStr a) = Return a).
Proof.
  repeat split.
  - intros [H1 H2]. unfold normalize_ieee_address.
    change (keep_chars _ s) with (hexonly s).
    destruct (Nat.ltb_spec 0 (String.length (hexonly s))); [|lia].
    destruct (Nat.leb_spec (String.length (hexonly s)) 16); [|lia].
    reflexivity.
  - intros H0. unfold normalize_ieee_address.
    change (keep_chars _ s) with (hexonly s). rewrite H0. reflexivity.
  - intros H. unfold normalize_ieee_address.
    change (keep_chars _ s) with (hexonly s).
    destruct (Nat.ltb_spec 0 (String.length (hexonly s))); [|lia].
    destruct (Nat.leb_spec (String.length (hexonly s)) 16); [lia|].
    destruct (Nat.ltb_spec 16 (String.length (hexonly s))); [|lia].
    cbn. by eexists.
  - cbn. by rewrite format_mac_low64.
  - apply normalize_inv in H as [v ->]. rewrite address_value_format_mac.
    apply Z.mod_pos_bound. lia.
  - apply normalize_inv in H as [v ->]. rewrite address_value_format_mac.
    apply Z.mod_pos_bound. lia.
  - apply normalize_inv in H as [v ->]. apply normalize_format_mac.
Qed.

Lemma normalize_ieee_address_total_witness :
  normalize_ieee_address (PyStr "FEED:CAFE") = Return "[00:00:00:00:FE:ED:CA:FE]!" /\
  normalize_ieee_address (PyStr "NONHX")
  = Raise (ValueError "Address is too short (0 chars)") /\
  (exists message,
     normalize_ieee_address (PyStr "11223344556677889900")
     = Raise (ValueError message)) /\
  0 <= address_value "[00:00:00:00:FE:ED:CA:FE]!" < 2 ^ 64 /\
  normalize_ieee_address (PyStr "[00:00:00:00:FE:ED:CA:FE]!")
  = Return "[00:00:00:00:FE:ED:CA:FE]!".
Proof.
  pose proof (normalize_ieee_address_total "FEED:CAFE" 0 (PyStr "FEED:CAFE")
                "[00:00:00:00:FE:ED:CA:FE]!") as (H1 & _ & _ & _ & H5).
  pose proof (normalize_ieee_address_total "NONHX" 0 PyOther "")
    as (_ & H2 & _).
  pose proof (normalize_ieee_address_total "11223344556677889900" 0 PyOther "")
    as (_ & _ & H3 & _).
  split; [apply H1; vm_compute; lia|].
  split; [apply H2; reflexivity|].
  split; [apply H3; vm_compute; lia|].
  apply H5. reflexivity.
Defined.

(** C3 as stated fails: the negative integer -1 is normalised to the
    all-ones address, and an integer of more than 64 bits to its low 64
    bits; neither raises. *)
Lemma normalize_negative_integer :
  normalize_ieee_address (PyInt (-1)) = Return "[FF:FF:FF:FF:FF:FF:FF:FF]!" /\
  normalize_ieee_address (PyInt (2 ^ 64 + 1))
  = Return "[00:00:00:00:00:00:00:01]!".
Proof. split; reflexivity. Qed.

(** ** Allocation in general *)

Section TableAllocation.
Context {A : Type}.
Implicit Types (l : list (option A)) (self : TxStatusCallbacks.t A).

Lemma index_of_None_lookup l p : index_of_None l = Some p -> l !! p = Some None.
Proof.
  revert p. induction l as [|[x|] l IH]; intros p; cbn; [done| |].
  - destruct (index_of_None l) as [q|]; [|done].
    intros [= <-]. by apply IH.
  - by intros [= <-].
Qed.

(** An index [_next_index] finds is a transmission id whose slot is
    empty. *)
Lemma next_index_range self i :
  TxStatusCallbacks.wf self ->
  TxStatusCallbacks._next_index self = i -> i <> 0 ->
  1 <= i <= TxStatusCallbacks.max_id self /\
  TxStatusCallbacks._callbacks self !! Z.to_nat i = Some None.
Proof.
  intros Hwf. pose proof Hwf as [Hmax Hlen Hbase].
  unfold TxStatusCallbacks._next_index. rewrite (wf_start _ Hwf).
  set (cbs := TxStatusCallbacks._callbacks self) in *.
  set (b := TxStatusCallbacks._baseindex self) in *.
  set (n := TxStatusCallbacks.max_id self) in *.
  destruct (index_of_None _) as [p|] eqn:Hp; [|by intros <-].
  apply index_of_None_lookup in Hp.
  assert (Hscan : length (drop (Z.to_nat b) cbs ++ py_slice cbs 1 (Z.to_nat b))
                  = Z.to_nat n) by (rewrite scan_list_length; lia).
  rewrite Hscan. pose proof (lookup_lt_Some _ _ _ Hp) as Hlt.
  rewrite Hscan in Hlt.
  destruct (Z.gtb_spec (Z.of_nat p + b) (Z.of_nat (Z.to_nat n))) as [Hgt|Hle];
    intros <- _.
  - assert (Hmod : (Z.of_nat p + b) mod Z.of_nat (Z.to_nat n)
                   = Z.of_nat p + b - n).
    { rewrite Z2Nat.id by lia. symmetry.
      apply (Z.mod_unique_pos _ _ 1); lia. }
    rewrite Hmod. split; [lia|].
    replace p with (length cbs - Z.to_nat b
                    + (p - (length cbs - Z.to_nat b)))%nat in Hp by lia.
    rewrite scan_list_back in Hp by lia.
    replace (Z.to_nat (Z.of_nat p + b - n))
      with (1 + (p - (length cbs - Z.to_nat b)))%nat by lia.
    exact Hp.
  - split; [lia|].
    rewrite scan_list_front in Hp by lia.
    replace (Z.to_nat (Z.of_nat p + b)) with (Z.to_nat b + p)%nat by lia.
    exact Hp.
Qed.

(** An allocation and the release of the id it returned leave every slot as
    it was; only the cursor has moved. *)
Lemma add_then_remove self listener txid t :
  TxStatusCallbacks.wf self ->
  TxStatusCallbacks.add_callback self listener = (Return txid, t) ->
  exists t',
    TxStatusCallbacks.remove_callback t txid = (Return tt, t') /\
    TxStatusCallbacks._callbacks t' = TxStatusCallbacks._callbacks self /\
    TxStatusCallbacks.max_id t' = TxStatusCallbacks.max_id self /\
    TxStatusCallbacks.wf t'.
Proof.
  intros Hwf. pose proof Hwf as [Hmax Hlen Hbase].
  unfold TxStatusCallbacks.add_callback.
  destruct (Z.eqb_spec (TxStatusCallbacks._next_index self) 0) as [|Hnz];
    [done|].
  intros [= <- <-].
  destruct (next_index_range self _ Hwf eq_refl Hnz) as [Hr Hempty].
  unfold TxStatusCallbacks.remove_callback.
  cbn [TxStatusCallbacks.max_id TxStatusCallbacks._callbacks
       TxStatusCallbacks._baseindex].
  replace ((_ <=? 0) || (_ >? TxStatusCallbacks.max_id self)) with false
    by (symmetry; apply orb_false_intro; lia).
  eexists. split; [reflexivity|]. cbn.
  rewrite list_insert_insert_eq, list_insert_id by done.
  split; [done|]. split; [done|].
  constructor; cbn; [done|done|].
  destruct (Z.gtb_spec (TxStatusCallbacks._baseindex self + 1)
              (TxStatusCallbacks.max_id self)); lia.
Qed.

Lemma init_wf (n : Z) : 1 <= n -> TxStatusCallbacks.wf (TxStatusCallbacks.init (A:=A) n).
Proof.
  intros Hn. constructor; cbn; [done| |lia].
  rewrite length_replicate. lia.
Qed.

End TableAllocation.

(** ** set_digital_output: pin 9 *)

Section Pin9.
Variable pf : platform.
Variable env : socket_env ddo_manager.dest.
Implicit Types (self : ddo_manager.DDOEventManager).

Lemma error_id_error_element code desc hint :
  error_id (error_element code desc hint) = Some code.
Proof. unfold error_id, error_element. cbn. apply lookup_singleton_eq. Qed.

Lemma error_response_some {S} (errdb : gmap string string) code desc hint (s : S) :
  errdb !! code = Some desc ->
  error_response code errdb hint s
  = (Return (error_element code desc
               (if rci.truthy hint then hint else None)), s).
Proof.
  intros Hdesc. unfold error_response, rci.ErrorResponse. rewrite Hdesc.
  destruct (rci.truthy hint) eqn:Ht; [|reflexivity].
  destruct hint; [reflexivity|discriminate].
Qed.

Lemma ddo_reply_error response code desc hint self :
  ddo_manager.errors !! code = Some desc ->
  exists e,
    ddo_manager.reply_error response code hint self
    = (Return tt, ddo_replied self response e) /\
    error_id e = Some code.
Proof.
  intros Hdesc. unfold ddo_manager.reply_error. run_method.
  rewrite (error_response_some _ _ _ _ _ Hdesc).
  eexists. split; [reflexivity|apply error_id_error_element].
Qed.

Lemma set_pin_9 addr value response self :
  exists e,
    ddo_manager.set_pin pf env addr 9 value response self
    = (Return tt, ddo_replied self response e) /\
    error_id e = Some "invalidattr".
Proof.
  unfold ddo_manager.set_pin. cbn [Z.eqb Pos.eqb].
  by eapply ddo_reply_error.
Qed.

Lemma py_int_nonempty s n : py_int s = Some n -> s <> "".
Proof. by intros H ->. Qed.

Lemma pin_name_nonempty n :
  ddo_manager.PIN_MAP !! n = Some 9 \/ ddo_manager.BAD_NAME_MAP !! n = Some 9 ->
  n <> "".
Proof. intros [H|H] ->; vm_compute in H; discriminate. Qed.

(** C9: however a [set_digital_output] element names pin 9 (an index
    that reads as 9, the valid names DIO9 and D9, the deprecated names ON
    and SLEEP), the listener answers with exactly one immediate error
    reply, takes no transmission id and sends nothing; when the element is
    otherwise in order (an address that normalises, only one of index and
    name) the error is [invalidattr]. *)
Theorem pin_9_rejected (element : Element) (response : channel) self :
  names_pin_9 element ->
  exists e code,
    ddo_manager.digital_out_listener pf env element response self
    = (Return tt, ddo_replied self response e) /\
    error_id e = Some code /\
    In code ["missingattr"; "address"; "toomanyattrs"; "invalidattr"] /\
    (well_addressed element -> code = "invalidattr").
Proof.
  intros Hpin. unfold names_pin_9 in Hpin.
  unfold ddo_manager.digital_out_listener.
  set (addr := attrib element !! "addr").
  set (index := attrib element !! "index") in *.
  set (name := attrib element !! "name") in *.
  assert (Hidx : forall s, index = Some s -> py_int s = Some 9 ->
                 ddo_manager.attr_true index = true).
  { intros s -> Hs. cbn. apply py_int_nonempty in Hs.
    apply String.eqb_neq in Hs. by rewrite Hs. }
  assert (Hname : forall n, name = Some n ->
                  ddo_manager.PIN_MAP !! n = Some 9 \/
                  ddo_manager.BAD_NAME_MAP !! n = Some 9 ->
                  ddo_manager.attr_true name = true).
  { intros n -> Hn. cbn. apply pin_name_nonempty in Hn.
    apply String.eqb_neq in Hn. by rewrite Hn. }
  destruct (ddo_manager.attr_true addr) eqn:Haddr; cbn [negb].
  2:{ destruct (ddo_reply_error response "missingattr" _
                  (Some "No destination XBee address (attribute 'addr') given.")
                  self eq_refl) as (e & He & Hid).
      exists e, "missingattr". repeat split; [exact He|exact Hid|cbn; tauto|].
      intros [(a & n & Ha & Hne & _) _]. unfold addr in Haddr.
      rewrite Ha in Haddr. cbn in Haddr. apply String.eqb_neq in Hne.
      by rewrite Hne in Haddr. }
  destruct (normalize_ieee_address (PyStr (default "" addr)))
    as [[m|m]|a] eqn:Hnorm.
  1,2: destruct (ddo_reply_error response "address" _ (Some m) self eq_refl)
         as (e & He & Hid);
       exists e, "address"; (repeat split; [exact He|exact Hid|cbn; tauto|]);
       intros [(a & n & Ha & _ & Hn) _]; unfold addr in Hnorm;
       rewrite Ha in Hnorm; change (default "" (Some a)) with a in Hnorm;
       congruence.
  destruct (negb (ddo_manager.attr_true index)
            && negb (ddo_manager.attr_true name)) eqn:Hnone.
  { exfalso. apply andb_true_iff in Hnone as [H1 H2].
    apply negb_true_iff in H1, H2.
    destruct Hpin as [(s0 & Hs & H9)|(n & Hn & H9)].
    - pose proof (Hidx _ Hs H9). congruence.
    - pose proof (Hname _ Hn H9). congruence. }
  destruct (bool_decide (index ≠ None) && bool_decide (name ≠ None)) eqn:Hboth.
  { destruct (ddo_reply_error response "toomanyattrs" _
                (Some "Must specify only an index or a name, not both.")
                self eq_refl) as (e & He & Hid).
    exists e, "toomanyattrs". repeat split; [exact He|exact Hid|cbn; tauto|].
    intros [_ Hone]. apply andb_true_iff in Hboth as [H1 H2].
    apply bool_decide_eq_true in H1, H2. by destruct Hone. }
  destruct (ddo_manager.attr_true index) eqn:Hgiven.
  - (* the pin is given by index *)
    assert (H9 : py_int (default "" index) = Some 9).
    { destruct Hpin as [(s0 & Hs & H9)|(n & Hn & H9)]; [by rewrite Hs|].
      exfalso. apply andb_false_iff in Hboth as [H|H];
        apply bool_decide_eq_false in H; apply H.
      - intros Hi. rewrite Hi in Hgiven. discriminate.
      - by rewrite Hn. }
    rewrite H9. change (default (-1) (Some 9)) with 9.
    change ((9 <? 0) || (9 >? 12)) with false. cbn iota.
    destruct (set_pin_9 a (py_strip (default "" (text element))) response self)
      as (e & He & Hid).
    exists e, "invalidattr". repeat split; [exact He|exact Hid|cbn; tauto].
  - (* the pin is given by name *)
    destruct Hpin as [(s0 & Hs & H9)|(n & Hn & H9)].
    { pose proof (Hidx _ Hs H9). congruence. }
    rewrite Hn. change (default "" (Some n)) with n.
    destruct (ddo_manager.BAD_NAME_MAP !! n) as [pin|] eqn:Hbad.
    + destruct (ddo_reply_error response "invalidattr" _
                  (Some match ddo_manager.INVERSE_PIN_MAP !! pin with
                        | Some suggestions =>
                            "Bad digital output name; use "
                            +:+ String.concat " or " suggestions
                            +:+ " instead."
                        | None => n
                        end) self eq_refl) as (e & He & Hid).
      exists e, "invalidattr". repeat split; [exact He|exact Hid|cbn; tauto].
    + destruct H9 as [H9|H9]; [|discriminate]. rewrite H9.
      destruct (set_pin_9 a (py_strip (default "" (text element))) response
                  self) as (e & He & Hid).
      exists e, "invalidattr". repeat split; [exact He|exact Hid|cbn; tauto].
Qed.

End Pin9.

Section TableExtras.
Context {A : Type}.
Implicit Types (l : list (option A)) (self : TxStatusCallbacks.t A).

Lemma slot_lookup self i :
  TxStatusCallbacks.wf self -> 0 <= i <= TxStatusCallbacks.max_id self ->
  TxStatusCallbacks._callbacks self !! Z.to_nat i
  = Some (TxStatusCallbacks.slot self i).
Proof.
  intros [? Hlen ?] Hi. unfold TxStatusCallbacks.slot.
  destruct (lookup_lt_is_Some_2 (TxStatusCallbacks._callbacks self) (Z.to_nat i))
    as [o Ho]; [lia|]. by rewrite Ho.
Qed.

Lemma add_callback_spec self listener txid t :
  TxStatusCallbacks.wf self ->
  TxStatusCallbacks.add_callback self listener = (Return txid, t) ->
  1 <= txid <= TxStatusCallbacks.max_id self /\
  TxStatusCallbacks.slot self txid = None /\
  TxStatusCallbacks.slot t txid = Some listener /\
  (forall j, j <> txid -> TxStatusCallbacks.slot t j = TxStatusCallbacks.slot self j) /\
  TxStatusCallbacks.max_id t = TxStatusCallbacks.max_id self /\
  TxStatusCallbacks._baseindex t
  = (if TxStatusCallbacks._baseindex self + 1 >? TxStatusCallbacks.max_id self
     then 1 else TxStatusCallbacks._baseindex self + 1) /\
  TxStatusCallbacks.wf t.
Proof.
  intros Hwf. pose proof Hwf as [Hmax Hlen Hbase].
  unfold TxStatusCallbacks.add_callback.
  destruct (Z.eqb_spec (TxStatusCallbacks._next_index self) 0) as [|Hnz];
    [done|].
  intros [= <- <-].
  destruct (next_index_range self _ Hwf eq_refl Hnz) as [Hr Hempty].
  split; [done|]. unfold TxStatusCallbacks.slot. cbn.
  split; [by rewrite Hempty|].
  split; [by rewrite list_lookup_insert_eq by lia|].
  split.
  { intros j Hj.
    destruct (decide (Z.to_nat j = Z.to_nat (TxStatusCallbacks._next_index self)))
      as [He|Hne]; [|by rewrite list_lookup_insert_ne].
    assert (j <= 0) by lia. replace (Z.to_nat j) with 0%nat in * by lia. lia. }
  split; [done|]. split; [done|].
  constructor; cbn; [done|by rewrite length_insert|].
  destruct (Z.gtb_spec (TxStatusCallbacks._baseindex self + 1)
              (TxStatusCallbacks.max_id self)); lia.
Qed.

Lemma index_of_None_exists l j :
  l !! j = Some None -> exists p, index_of_None l = Some p.
Proof.
  revert j. induction l as [|[x|] l IH]; intros j Hj; [done| |by eexists].
  destruct j as [|j]; [done|]. cbn in Hj. destruct (IH _ Hj) as [p Hp].
  exists (S p). cbn. by rewrite Hp.
Qed.

(** The index found, from the position of the first empty entry in the
    list scanned. *)
Lemma next_index_found self p :
  TxStatusCallbacks.wf self ->
  index_of_None
    (drop (Z.to_nat (TxStatusCallbacks._baseindex self))
       (TxStatusCallbacks._callbacks self)
     ++ py_slice (TxStatusCallbacks._callbacks self) 1
          (Z.to_nat (TxStatusCallbacks._baseindex self))) = Some p ->
  1 <= TxStatusCallbacks._next_index self <= TxStatusCallbacks.max_id self.
Proof.
  intros Hwf Hp. pose proof Hwf as [Hmax Hlen Hbase].
  unfold TxStatusCallbacks._next_index. rewrite (wf_start _ Hwf), Hp.
  apply index_of_None_lookup, lookup_lt_Some in Hp.
  rewrite scan_list_length in * by lia.
  set (b := TxStatusCallbacks._baseindex self) in *.
  set (n := TxStatusCallbacks.max_id self) in *.
  replace (Z.of_nat (length (TxStatusCallbacks._callbacks self) - 1)) with n by lia.
  destruct (Z.gtb_spec (Z.of_nat p + b) n); [|lia].
  replace ((Z.of_nat p + b) mod n) with (Z.of_nat p + b - n); [lia|].
  apply (Z.mod_unique_pos _ _ 1); lia.
Qed.

Lemma add_callback_total self listener i :
  TxStatusCallbacks.wf self ->
  1 <= i <= TxStatusCallbacks.max_id self ->
  TxStatusCallbacks.slot self i = None ->
  exists txid t,
    TxStatusCallbacks.add_callback self listener = (Return txid, t).
Proof.
  intros Hwf Hi Hfree. pose proof Hwf as [Hmax Hlen Hbase].
  pose proof (slot_lookup self i Hwf ltac:(lia)) as Hl. rewrite Hfree in Hl.
  set (b := TxStatusCallbacks._baseindex self) in *.
  set (cbs := TxStatusCallbacks._callbacks self) in *.
  assert (exists p, index_of_None (drop (Z.to_nat b) cbs
                                   ++ py_slice cbs 1 (Z.to_nat b)) = Some p)
    as [p Hp].
  { destruct (Z_le_gt_dec b i).
    - apply (index_of_None_exists _ (Z.to_nat i - Z.to_nat b)).
      rewrite scan_list_front by lia.
      by replace (Z.to_nat b + (Z.to_nat i - Z.to_nat b))%nat
        with (Z.to_nat i) by lia.
    - apply (index_of_None_exists _ (length cbs - Z.to_nat b + (Z.to_nat i - 1))).
      rewrite scan_list_back by lia.
      by replace (1 + (Z.to_nat i - 1))%nat with (Z.to_nat i) by lia. }
  pose proof (next_index_found self p Hwf Hp) as Hr.
  unfold TxStatusCallbacks.add_callback.
  destruct (Z.eqb_spec (TxStatusCallbacks._next_index self) 0); [lia|].
  by eexists _, _.
Qed.

Lemma add_callback_cursor self listener :
  TxStatusCallbacks.wf self ->
  TxStatusCallbacks.slot self (TxStatusCallbacks._baseindex self) = None ->
  fst (TxStatusCallbacks.add_callback self listener)
  = Return (TxStatusCallbacks._baseindex self).
Proof.
  intros Hwf Hfree. pose proof Hwf as [Hmax Hlen Hbase].
  pose proof (slot_lookup self (TxStatusCallbacks._baseindex self) Hwf
                ltac:(lia)) as Hl.
  rewrite Hfree in Hl.
  assert (Hn : TxStatusCallbacks._next_index self
               = TxStatusCallbacks._baseindex self).
  { unfold TxStatusCallbacks._next_index. rewrite (wf_start _ Hwf).
    rewrite (index_of_None_first _ 0).
    - rewrite scan_list_length by lia.
      destruct (Z.gtb_spec (Z.of_nat 0 + TxStatusCallbacks._baseindex self)
                  (Z.of_nat (length (TxStatusCallbacks._callbacks self) - 1)));
        lia.
    - rewrite scan_list_front by lia. by rewrite Nat.add_0_r.
    - intros j Hj. lia. }
  unfold TxStatusCallbacks.add_callback. rewrite Hn.
  destruct (Z.eqb_spec (TxStatusCallbacks._baseindex self) 0); [lia|done].
Qed.

(** From a table whose slots above [k] are empty and whose cursor is at
    [k + 1], allocations in a row return [k + 1], [k + 2], ... and fill
    these slots. *)
Lemma allocate_many_in_order self (listeners : list A) k :
  TxStatusCallbacks.wf self -> 0 <= k ->
  k + Z.of_nat (length listeners) <= TxStatusCallbacks.max_id self ->
  (listeners = [] \/ TxStatusCallbacks._baseindex self = k + 1) ->
  (forall j, k < j <= TxStatusCallbacks.max_id self ->
             TxStatusCallbacks.slot self j = None) ->
  fst (allocate_many self listeners)
  = map (fun i => Return (k + Z.of_nat i)) (seq 1 (length listeners)) /\
  TxStatusCallbacks.wf (snd (allocate_many self listeners)) /\
  TxStatusCallbacks.max_id (snd (allocate_many self listeners))
  = TxStatusCallbacks.max_id self /\
  (forall j, k < j <= k + Z.of_nat (length listeners) ->
             is_Some (TxStatusCallbacks.slot (snd (allocate_many self listeners)) j)) /\
  (forall j, j <= k ->
             TxStatusCallbacks.slot (snd (allocate_many self listeners)) j
             = TxStatusCallbacks.slot self j).
Proof.
  revert self k. induction listeners as [|x rest IH];
    intros self k Hwf Hk Hlen Hcur Hfree.
  { cbn. split; [done|split; [done|split; [done|split; [intros j Hj; lia|done]]]]. }
  destruct Hcur as [|Hcur]; [done|]. cbn [length] in Hlen.
  pose proof (add_callback_cursor self x Hwf) as Hat.
  rewrite Hcur in Hat. specialize (Hat (Hfree (k + 1) ltac:(lia))).
  cbn [allocate_many].
  destruct (TxStatusCallbacks.add_callback self x) as [r t] eqn:Hadd.
  cbn in Hat; subst r.
  destruct (add_callback_spec self x _ t Hwf Hadd)
    as (_ & _ & Hnew & Hothers & Hmax & Hbase & Hwft).
  specialize (IH t (k + 1) Hwft ltac:(lia)).
  destruct (allocate_many t rest) as [rs t'] eqn:Hrest. cbn [fst snd] in *.
  destruct IH as (Hids & Hwf' & Hmax' & Hfilled & Hsame).
  - lia.
  - destruct rest as [|y rest']; [by left|right]. cbn [length] in Hlen.
    rewrite Hbase, Hcur.
    destruct (Z.gtb_spec (k + 1 + 1) (TxStatusCallbacks.max_id self)); lia.
  - intros j Hj. rewrite Hothers by lia. apply Hfree. lia.
  - split; [|split; [done|split; [lia|split]]].
    + rewrite Hids. cbn [length seq map].
      assert (Htail : map (fun i => Return (k + 1 + Z.of_nat i))
                        (seq 1 (length rest))
                      = map (fun i => (Return (k + Z.of_nat i)
                                       : result TxStatusCallbacks.exn Z))
                          (seq 2 (length rest))).
      { rewrite <- (seq_shift _ 1), map_map. apply map_ext. intros i.
        f_equal. lia. }
      rewrite Htail. f_equal; f_equal; lia.
    + intros j Hj. cbn [length] in Hj.
      destruct (decide (j = k + 1)) as [->|Hne].
      * rewrite Hsame by lia. rewrite Hnew. by eexists.
      * apply Hfilled. lia.
    + intros j Hj. rewrite Hsame by lia. apply Hothers. lia.
Qed.

(** a fresh table of [n] ids hands out 1, 2, ..., [n] in this order,
    and then refuses. *)
Theorem fresh_table_counts_up (n : Z) (listeners : list A) (extra : A) :
  1 <= n -> Z.of_nat (length listeners) = n ->
  fst (allocate_many (TxStatusCallbacks.init n) listeners)
  = map (fun i => Return (Z.of_nat i)) (seq 1 (length listeners)) /\
  fst (TxStatusCallbacks.add_callback
         (snd (allocate_many (TxStatusCallbacks.init n) listeners)) extra)
  = Raise TxStatusCallbacks.CallbacksFull.
Proof.
  intros Hn Hlen.
  destruct (allocate_many_in_order (TxStatusCallbacks.init n) listeners 0)
    as (Hids & Hwf & Hmax & Hfilled & _).
  - by apply init_wf.
  - lia.
  - cbn. lia.
  - by right.
  - intros j Hj. unfold TxStatusCallbacks.slot.
    cbn [TxStatusCallbacks.init TxStatusCallbacks.max_id
         TxStatusCallbacks._callbacks] in *.
    rewrite lookup_replicate_2 by lia. done.
  - split; [exact Hids|].
    unfold TxStatusCallbacks.add_callback.
    rewrite next_index_full; [done|exact Hwf|].
    intros j Hj. apply Hfilled. rewrite Hmax in Hj. cbn in Hj. lia.
Qed.

(** what has been registered is found, and gone once removed; ids
    outside [1..max_id] are refused by both operations and leave the table
    alone. *)
Theorem get_after_add_and_remove self listener txid t (bad : Z) :
  TxStatusCallbacks.wf self ->
  TxStatusCallbacks.add_callback self listener = (Return txid, t) ->
  (bad <= 0 \/ TxStatusCallbacks.max_id self < bad) ->
  TxStatusCallbacks.get_callback t txid = Return (Some listener) /\
  (exists t',
     TxStatusCallbacks.remove_callback t txid = (Return tt, t') /\
     TxStatusCallbacks.get_callback t' txid = Return None) /\
  TxStatusCallbacks.get_callback t bad
  = Raise (TxStatusCallbacks.IndexError bad) /\
  TxStatusCallbacks.remove_callback t bad
  = (Raise (TxStatusCallbacks.IndexError bad), t).
Proof.
  intros Hwf Hadd Hbad.
  destruct (add_callback_spec self listener txid t Hwf Hadd)
    as (Hr & _ & Hnew & _ & Hmax & _ & Hwft).
  pose proof Hwft as [? Hlen ?].
  assert (Hin : (txid <=? 0) || (txid >? TxStatusCallbacks.max_id t) = false)
    by (apply orb_false_intro; lia).
  assert (Hout : (bad <=? 0) || (bad >? TxStatusCallbacks.max_id t) = true)
    by (apply orb_true_iff; lia).
  unfold TxStatusCallbacks.get_callback, TxStatusCallbacks.remove_callback.
  rewrite Hin, Hout. repeat split.
  - f_equal. exact Hnew.
  - eexists. split; [reflexivity|]. cbn. rewrite Hin.
    rewrite list_lookup_insert_eq by lia. done.
Qed.

(** whatever is done to a table made by [init], its length stays
    [max_id + 1], its cursor stays within [1..max_id], and slot 0 stays
    empty. *)
Theorem table_invariant (n : Z) (ops : list (table_op A)) :
  1 <= n ->
  TxStatusCallbacks.wf (after_ops (TxStatusCallbacks.init n) ops) /\
  TxStatusCallbacks.max_id (after_ops (TxStatusCallbacks.init n) ops) = n /\
  TxStatusCallbacks.slot (after_ops (TxStatusCallbacks.init n) ops) 0 = None.
Proof.
  intros Hn.
  assert (Hgen : forall self,
            TxStatusCallbacks.wf self /\ TxStatusCallbacks.max_id self = n /\
            TxStatusCallbacks.slot self 0 = None ->
            TxStatusCallbacks.wf (after_ops self ops) /\
            TxStatusCallbacks.max_id (after_ops self ops) = n /\
            TxStatusCallbacks.slot (after_ops self ops) 0 = None).
  { induction ops as [|op ops IH]; intros self Hself; [done|].
    cbn [after_ops fold_left]. apply IH. clear IH.
    destruct Hself as (Hwf & Hmax & H0). destruct op as [listener|txid]; cbn.
    - destruct (TxStatusCallbacks.add_callback self listener) as [[e|txid] t]
        eqn:Hadd.
      + unfold TxStatusCallbacks.add_callback in Hadd.
        destruct (_ =? 0); by inversion Hadd; subst.
      + destruct (add_callback_spec self listener txid t Hwf Hadd)
          as (Hr & _ & _ & Hothers & Hmax' & _ & Hwft).
        cbn. split; [done|]. split; [lia|]. rewrite Hothers by lia. done.
    - unfold TxStatusCallbacks.remove_callback.
      destruct (Z.leb_spec txid 0); [done|].
      destruct (Z.gtb_spec txid (TxStatusCallbacks.max_id self)); [done|].
      cbn. destruct Hwf as [? Hlen ?]. split; [|split; [done|]].
      + constructor; cbn; [done|by rewrite length_insert|done].
      + unfold TxStatusCallbacks.slot in *. cbn.
        rewrite list_lookup_insert_ne by lia. done. }
  apply Hgen. split; [by apply init_wf|]. split; [done|].
  unfold TxStatusCallbacks.slot. cbn. rewrite lookup_replicate_2 by lia. done.
Qed.

(** An allocation that succeeds returns an id of [1..max_id] whose slot
    was empty, puts the listener there, touches no other slot and moves the
    cursor on by one, back to 1 after [max_id]. *)
Theorem add_callback_allocates self listener txid t :
  TxStatusCallbacks.wf self ->
  TxStatusCallbacks.add_callback self listener = (Return txid, t) ->
  1 <= txid <= TxStatusCallbacks.max_id self /\
  TxStatusCallbacks.slot self txid = None /\
  TxStatusCallbacks.slot t txid = Some listener /\
  (forall j, j <> txid -> TxStatusCallbacks.slot t j = TxStatusCallbacks.slot self j) /\
  TxStatusCallbacks.max_id t = TxStatusCallbacks.max_id self /\
  TxStatusCallbacks._baseindex t
  = (if TxStatusCallbacks._baseindex self + 1 >? TxStatusCallbacks.max_id self
     then 1 else TxStatusCallbacks._baseindex self + 1) /\
  TxStatusCallbacks.wf t.
Proof. apply add_callback_spec. Qed.

(** An allocation succeeds as soon as one slot of [1..max_id] is empty. *)
Theorem add_callback_succeeds self listener i :
  TxStatusCallbacks.wf self ->
  1 <= i <= TxStatusCallbacks.max_id self ->
  TxStatusCallbacks.slot self i = None ->
  exists txid t,
    TxStatusCallbacks.add_callback self listener = (Return txid, t).
Proof. apply add_callback_total. Qed.

(** When the slot at the cursor is empty, that is the id allocated. *)
Theorem add_callback_at_cursor self listener :
  TxStatusCallbacks.wf self ->
  TxStatusCallbacks.slot self (TxStatusCallbacks._baseindex self) = None ->
  fst (TxStatusCallbacks.add_callback self listener)
  = Return (TxStatusCallbacks._baseindex self).
Proof. apply add_callback_cursor. Qed.

End TableExtras.

Lemma init_5_wf : TxStatusCallbacks.wf (TxStatusCallbacks.init (A:=nat) 5).
Proof. apply init_wf. lia. Qed.

Lemma add_callback_allocates_witness :
  TxStatusCallbacks.slot (TxStatusCallbacks.init (A:=nat) 5) 1 = None /\
  TxStatusCallbacks.slot
    (snd (TxStatusCallbacks.add_callback (TxStatusCallbacks.init 5) 7%nat)) 1
  = Some 7%nat.
Proof.
  pose proof (add_callback_allocates (TxStatusCallbacks.init 5) 7%nat 1 _
                init_5_wf eq_refl) as (_ & H1 & H2 & _).
  split; [exact H1|exact H2].
Defined.

Lemma add_callback_succeeds_witness :
  exists txid t,
    TxStatusCallbacks.add_callback
      (snd (TxStatusCallbacks.remove_callback five_full 3)) 7%nat
    = (Return txid, t).
Proof.
  apply (add_callback_succeeds _ 7%nat 3).
  - constructor; vm_compute; done.
  - vm_compute. split; discriminate.
  - reflexivity.
Defined.

Lemma add_callback_at_cursor_witness :
  fst (TxStatusCallbacks.add_callback (TxStatusCallbacks.init 5) 7%nat)
  = Return 1.
Proof.
  apply (add_callback_at_cursor (TxStatusCallbacks.init 5) 7%nat init_5_wf).
  reflexivity.
Defined.

Lemma fresh_table_counts_up_witness :
  fst (allocate_many (TxStatusCallbacks.init 3) [10; 20; 30]%nat)
  = [Return 1; Return 2; Return 3] /\
  fst (TxStatusCallbacks.add_callback
         (snd (allocate_many (TxStatusCallbacks.init 3) [10; 20; 30]%nat))
         40%nat)
  = Raise TxStatusCallbacks.CallbacksFull.
Proof.
  apply (fresh_table_counts_up 3 [10; 20; 30]%nat 40%nat); [lia|reflexivity].
Defined.

Lemma get_after_add_and_remove_witness :
  TxStatusCallbacks.get_callback
    (snd (TxStatusCallbacks.add_callback (TxStatusCallbacks.init 5) 7%nat)) 1
  = Return (Some 7%nat) /\
  TxStatusCallbacks.get_callback
    (snd (TxStatusCallbacks.add_callback (TxStatusCallbacks.init 5) 7%nat)) 6
  = Raise (TxStatusCallbacks.IndexError 6).
Proof.
  pose proof (get_after_add_and_remove (TxStatusCallbacks.init 5) 7%nat 1 _ 6
                init_5_wf eq_refl) as H.
  destruct H as (H1 & _ & H3 & _); [right; vm_compute; reflexivity|].
  split; [exact H1|exact H3].
Defined.

Lemma table_invariant_witness :
  TxStatusCallbacks.slot
    (after_ops (TxStatusCallbacks.init 5) [Add 7%nat; Remove 1; Remove 9; Add 8%nat])
    0 = None.
Proof.
  apply (table_invariant 5 [Add 7%nat; Remove 1; Remove 9; Add 8%nat]). lia.
Defined.

Section SendFailure.
Variable pf : platform.

Lemma send_failure_message_described {S} message errno str (s : S) :
  message <> "" \/ errno <> None ->
  exists m, send_failure_message pf message errno str s = (Return m, s).
Proof.
  intros H. unfold send_failure_message.
  destruct (String.eqb_spec message "") as [->|Hne]; cbn [negb];
    [|by eexists].
  destruct errno as [n|]; [by eexists|]. by destruct H.
Qed.

Lemma failure_message {S} (e : send_exn) (s : S) :
  described e ->
  exists m,
    match e with
    | SocketUnavailable message => send_failure_message pf message None message
    | socket_error message errno str => send_failure_message pf message errno str
    | other_exception str => fun s0 : S => (Return str, s0)
    end s = (Return m, s).
Proof.
  destruct e as [message|message errno str|str]; cbn [described]; intros H.
  - apply send_failure_message_described. by left.
  - by apply send_failure_message_described.
  - by eexists.
Qed.

End SendFailure.

Section SerialSend.
Variable pf : platform.
Variable env : socket_env manager.dest.
Implicit Types (self : manager.XBeeEventManager).

(** What [attempt_send] does when the transport is down. *)
Lemma serial_attempt_send_fails payload address self :
  writable env = false \/ sendto_raises env ->
  exists e self',
    manager.attempt_send env payload address self = (Return (Raise e), self') /\
    described e /\
    manager.get_setting self' = manager.get_setting self /\
    manager.tx_callbacks self' = manager.tx_callbacks self /\
    manager._last_report self' = manager._last_report self /\
    puts (manager.out self') = puts (manager.out self) /\
    published (manager.out self') = published (manager.out self).
Proof.
  intros H. unfold manager.attempt_send, writable in *.
  destruct (poll env) as [|fd fds] eqn:Hpoll.
  { eexists _, self. split; [reflexivity|]. by repeat split. }
  destruct (existsb _ (fd :: fds)) eqn:Hw.
  - destruct H as [H|H]; [done|].
    destruct (H payload address) as (e & He & Hd). run_method. rewrite He.
    eexists e, _. split; [reflexivity|]. by repeat split.
  - eexists _, self. split; [reflexivity|]. by repeat split.
Qed.

Lemma full_add_raises {A} (t : TxStatusCallbacks.t A) listener txid t' :
  TxStatusCallbacks.wf t -> TxStatusCallbacks.full t ->
  TxStatusCallbacks.add_callback t listener = (Return txid, t') -> False.
Proof.
  intros Hwf Hfull. unfold TxStatusCallbacks.add_callback.
  by rewrite (next_index_full t Hwf Hfull).
Qed.

Lemma add_raises_full {A} (t : TxStatusCallbacks.t A) listener ex t' :
  TxStatusCallbacks.wf t ->
  TxStatusCallbacks.add_callback t listener = (Raise ex, t') ->
  TxStatusCallbacks.full t /\ t' = t.
Proof.
  intros Hwf Hadd. split.
  - intros i Hi.
    destruct (TxStatusCallbacks.slot t i) as [x|] eqn:Hs; [by eexists|].
    destruct (add_callback_total t listener i Hwf Hi Hs) as (txid & t2 & H).
    rewrite H in Hadd. discriminate Hadd.
  - unfold TxStatusCallbacks.add_callback in Hadd.
    destruct (_ =? 0); by inversion Hadd.
Qed.

Lemma serial_send_and_reply_fails addr msg response self v :
  TxStatusCallbacks.wf (manager.tx_callbacks self) ->
  transport_fails env (manager.tx_callbacks self) ->
  addr = format_mac v ->
  exists e code self',
    manager.send_and_reply pf env addr msg response self = (Return tt, self') /\
    puts (manager.out self')
    = puts (manager.out self) ++ [(response, Immediate (VElement e))] /\
    error_id e = Some code /\
    serial_same_but_sent self self' /\
    ((TxStatusCallbacks.full (manager.tx_callbacks self) /\
      code = "txfull" /\
      TxStatusCallbacks._baseindex (manager.tx_callbacks self')
      = TxStatusCallbacks._baseindex (manager.tx_callbacks self) /\
      sendto_calls (manager.out self') = sendto_calls (manager.out self)) \/
     (~ TxStatusCallbacks.full (manager.tx_callbacks self) /\
      code = "txfailed" /\
      TxStatusCallbacks._baseindex (manager.tx_callbacks self')
      = next_cursor (manager.tx_callbacks self))).
Proof.
  intros Hwf Hfail ->. unfold manager.send_and_reply. run_method.
  destruct (TxStatusCallbacks.add_callback (manager.tx_callbacks self) response)
    as [[ex|txid] t] eqn:Hadd.
  - destruct (add_raises_full _ _ _ _ Hwf Hadd) as [Hfull _].
    rewrite (error_response_some manager.errors "txfull"
               "Too many outstanding transmits" None _ eq_refl).
    unfold manager.put. run_method.
    eexists _, "txfull", _. split; [reflexivity|]. cbn.
    split; [reflexivity|]. split; [apply error_id_error_element|].
    split; [by repeat split|]. left. by repeat split.
  - destruct Hfail as [Hfull|Hfail];
      [destruct (full_add_raises _ _ _ _ Hwf Hfull Hadd)|].
    assert (Hnotfull : ~ TxStatusCallbacks.full (manager.tx_callbacks self)).
    { intros Hfull. by destruct (full_add_raises _ _ _ _ Hwf Hfull Hadd). }
    destruct (add_callback_spec _ _ _ _ Hwf Hadd)
      as (_ & _ & _ & _ & _ & Hcursor & _).
    unfold manager.set_tx_callbacks at 1. run_method.
    unfold Address.new. rewrite normalize_format_mac. cbn [mbind result_bind mret result_ret].
    match goal with
    | |- context [manager.attempt_send env ?p ?a ?s] =>
        destruct (serial_attempt_send_fails p a s Hfail)
          as (e & self2 & Hatt & Hd & Hset & Htx & Hrep & Hputs & Hpub);
        rewrite Hatt
    end.
    cbn [manager.tx_callbacks] in Htx.
    destruct (add_then_remove _ _ _ _ Hwf Hadd) as (t' & Hrem & Hcbs & Hmax & _).
    assert (Hcursor' : TxStatusCallbacks._baseindex t'
                       = next_cursor (manager.tx_callbacks self)).
    { unfold next_cursor. rewrite <- Hcursor.
      unfold TxStatusCallbacks.remove_callback in Hrem.
      destruct (_ || _); by inversion Hrem. }
    rewrite Htx, Hrem. unfold manager.set_tx_callbacks. run_method.
    match goal with
    | |- context [match e with
                  | SocketUnavailable _ => _
                  | socket_error _ _ _ => _
                  | other_exception _ => _ end ?s] =>
        destruct (failure_message pf e s Hd) as [m Hm]; rewrite Hm
    end.
    rewrite (error_response_some manager.errors "txfailed"
               "Transmit operation failed" (Some m) _ eq_refl).
    unfold manager.put. run_method.
    eexists _, "txfailed", _. split; [reflexivity|]. cbn.
    split; [by rewrite Hputs|]. split; [apply error_id_error_element|].
    split; [|right; by repeat split].
    unfold serial_same_but_sent. cbn.
    by rewrite Hset, Hrep, Hpub.
Qed.

Lemma serial_address_inv element n :
  serial_address element = Some n ->
  exists a,
    attrib element !! "addr" = Some a /\ a <> "" /\
    normalize_ieee_address
      (PyStr (if String.eqb a "broadcast"
              then "[00:00:00:00:00:00:FF:FF]!" else a)) = Return n.
Proof.
  unfold serial_address.
  destruct (attrib element !! "addr") as [[|c a]|]; [done| |done].
  destruct (normalize_ieee_address _) as [|n'] eqn:Hn; [done|].
  intros [= <-]. by eexists.
Qed.

(** The listener, for an element whose address and payload are in order,
    is its last part on the normalised address and the payload. *)
Lemma send_serial_listener_valid element response self n msg :
  serial_address element = Some n ->
  serial_payload pf element = Some msg ->
  manager.send_serial_listener pf env element response self
  = manager.send_and_reply pf env n msg response self.
Proof.
  intros Haddr Hmsg. apply serial_address_inv in Haddr as (a & Ha & Hne & Hn).
  unfold manager.send_serial_listener, serial_payload in *. rewrite Ha.
  destruct a as [|c a]; [done|]. rewrite Hn.
  destruct (String.eqb _ "base64"); [by rewrite Hmsg|].
  destruct (String.eqb _ "utf-8"); [by rewrite Hmsg|done].
Qed.

(** When the transport fails under a request that is in order, the listener
    puts exactly one immediate error reply and no [ResponsePending]; every
    slot of the table, the settings, the last reports and the published
    messages are as before.  On a full table the error is [txfull], the
    cursor stays and nothing is sent.  Otherwise an id was allocated and
    released again: the error is [txfailed] and the cursor has moved on by
    one, back to 1 after [max_id]. *)
Theorem send_serial_transport_failure element response self n msg :
  TxStatusCallbacks.wf (manager.tx_callbacks self) ->
  transport_fails env (manager.tx_callbacks self) ->
  serial_address element = Some n ->
  serial_payload pf element = Some msg ->
  exists e code self',
    manager.send_serial_listener pf env element response self
    = (Return tt, self') /\
    puts (manager.out self')
    = puts (manager.out self) ++ [(response, Immediate (VElement e))] /\
    error_id e = Some code /\
    serial_same_but_sent self self' /\
    ((TxStatusCallbacks.full (manager.tx_callbacks self) /\
      code = "txfull" /\
      TxStatusCallbacks._baseindex (manager.tx_callbacks self')
      = TxStatusCallbacks._baseindex (manager.tx_callbacks self) /\
      sendto_calls (manager.out self') = sendto_calls (manager.out self)) \/
     (~ TxStatusCallbacks.full (manager.tx_callbacks self) /\
      code = "txfailed" /\
      TxStatusCallbacks._baseindex (manager.tx_callbacks self')
      = next_cursor (manager.tx_callbacks self))).
Proof.
  intros Hwf Hfail Haddr Hmsg.
  rewrite (send_serial_listener_valid _ _ _ _ _ Haddr Hmsg).
  apply serial_address_inv in Haddr as (a & _ & _ & Hn).
  apply normalize_inv in Hn as [v ->].
  by eapply serial_send_and_reply_fails.
Qed.

Lemma serial_attempt_send_ok payload address self :
  writable env = true -> sendto env payload address = None ->
  manager.attempt_send env payload address self
  = (Return (Return tt),
     manager.Build (manager.get_setting self) (manager.tx_callbacks self)
       (manager._last_report self)
       (Effects (puts (manager.out self))
          (sendto_calls (manager.out self) ++ [(payload, address)])
          (published (manager.out self)))).
Proof.
  intros Hw Hs. unfold manager.attempt_send, writable in *.
  destruct (poll env) as [|fd fds]; [done|]. rewrite Hw. run_method.
  by rewrite Hs.
Qed.

(** With a request in order, an empty slot and a socket that takes the
    datagram, the listener registers the channel under a new id, sends the
    payload once to the normalised address with that id, and answers
    [ResponsePending]. *)
Theorem send_serial_pending element response self n msg i :
  TxStatusCallbacks.wf (manager.tx_callbacks self) ->
  writable env = true ->
  (forall payload address, sendto env payload address = None) ->
  1 <= i <= TxStatusCallbacks.max_id (manager.tx_callbacks self) ->
  TxStatusCallbacks.slot (manager.tx_callbacks self) i = None ->
  serial_address element = Some n ->
  serial_payload pf element = Some msg ->
  exists txid t,
    TxStatusCallbacks.add_callback (manager.tx_callbacks self) response
    = (Return txid, t) /\
    TxStatusCallbacks.slot t txid = Some response /\
    manager.send_serial_listener pf env element response self
    = (Return tt,
       manager.Build (manager.get_setting self) t (manager._last_report self)
         (Effects
            (puts (manager.out self) ++ [(response, ResponsePending)])
            (sendto_calls (manager.out self)
             ++ [(msg, (n, [manager.DEFAULT_ENDPOINT; manager.DIGI_PROFILE;
                            manager.SERIAL_CLUSTER; 0; txid]))])
            (published (manager.out self)))).
Proof.
  intros Hwf Hw Hs Hi Hfree Haddr Hmsg.
  rewrite (send_serial_listener_valid _ _ _ _ _ Haddr Hmsg).
  apply serial_address_inv in Haddr as (a & _ & _ & Hn).
  apply normalize_inv in Hn as [v ->].
  destruct (add_callback_total (manager.tx_callbacks self) response i Hwf Hi Hfree)
    as (txid & t & Hadd).
  destruct (add_callback_spec _ _ _ _ Hwf Hadd) as (Hr & _ & Hnew & _).
  exists txid, t. split; [exact Hadd|]. split; [exact Hnew|].
  unfold manager.send_and_reply. run_method. rewrite Hadd.
  unfold manager.set_tx_callbacks. run_method.
  unfold Address.new. rewrite normalize_format_mac.
  cbn [mbind result_bind mret result_ret].
  rewrite serial_attempt_send_ok by done.
  unfold manager.put, Address.to_tuple. run_method. cbn.
  destruct (Z.eqb_spec txid 0); [lia|]. reflexivity.
Qed.

(** [status_callback] always puts exactly one [DeferredResponse]: the empty
    response for status 0, a [txstatus] error otherwise. *)
Lemma serial_status_callback_reply addr r d q ch self :
  exists resp,
    manager.status_callback addr r d q ch self
    = (Return tt,
       manager.Build (manager.get_setting self) (manager.tx_callbacks self)
         (manager._last_report self)
         (Effects
            (puts (manager.out self)
             ++ [(ch, DeferredResponse (VElement resp))])
            (sendto_calls (manager.out self))
            (published (manager.out self)))) /\
    (d = 0 -> resp = Elem "response" ∅ (Some "") []) /\
    (d <> 0 -> error_id resp = Some "txstatus").
Proof.
  unfold manager.status_callback. run_method.
  destruct (Z.eqb_spec d 0) as [->|Hd]; cbn [negb].
  - eexists. split; [reflexivity|]. split; [done|by intros []].
  - rewrite (error_response_some manager.errors "txstatus"
               "TX Status delivery failure" _ _ eq_refl).
    unfold manager.put. run_method.
    eexists. split; [reflexivity|]. split; [done|].
    intros _. apply error_id_error_element.
Qed.

(** A status frame for an id that holds a callback releases the id and
    puts exactly one [DeferredResponse] on the channel registered under it;
    the same frame once more changes nothing. *)
Theorem serial_status_resolves addr data self r d q ch :
  TxStatusCallbacks.wf (manager.tx_callbacks self) ->
  manager.unpack_tx_status data = Some (r, d, q) ->
  1 <= Address.txid addr <= TxStatusCallbacks.max_id (manager.tx_callbacks self) ->
  TxStatusCallbacks.slot (manager.tx_callbacks self) (Address.txid addr)
  = Some ch ->
  exists resp self',
    manager.handle_tx_status addr data self = (Return tt, self') /\
    puts (manager.out self')
    = puts (manager.out self) ++ [(ch, DeferredResponse (VElement resp))] /\
    (d = 0 -> resp = Elem "response" ∅ (Some "") []) /\
    (d <> 0 -> error_id resp = Some "txstatus") /\
    TxStatusCallbacks.slot (manager.tx_callbacks self') (Address.txid addr)
    = None /\
    (forall j, j <> Address.txid addr ->
               TxStatusCallbacks.slot (manager.tx_callbacks self') j
               = TxStatusCallbacks.slot (manager.tx_callbacks self) j) /\
    manager.handle_tx_status addr data self' = (Return tt, self').
Proof.
  intros Hwf Hdata Hr Hslot. pose proof Hwf as [? Hlen ?].
  assert (Hin : (Address.txid addr <=? 0)
                || (Address.txid addr
                    >? TxStatusCallbacks.max_id (manager.tx_callbacks self))
                = false) by (apply orb_false_intro; lia).
  unfold manager.handle_tx_status. rewrite Hdata. run_method.
  unfold TxStatusCallbacks.get_callback, TxStatusCallbacks.remove_callback.
  rewrite Hin. fold (TxStatusCallbacks.slot (manager.tx_callbacks self)
                       (Address.txid addr)).
  rewrite Hslot. unfold manager.set_tx_callbacks. run_method.
  match goal with
  | |- context [manager.status_callback addr r d q ch ?s] =>
      destruct (serial_status_callback_reply addr r d q ch s)
        as (resp & Hcb & H0 & Hne); rewrite Hcb
  end.
  eexists resp, _. split; [reflexivity|]. cbn.
  split; [done|]. split; [done|]. split; [done|].
  unfold TxStatusCallbacks.slot. cbn.
  split; [by rewrite list_lookup_insert_eq by lia|].
  split.
  { intros j Hj.
    destruct (decide (Z.to_nat j = Z.to_nat (Address.txid addr))) as [He|Hn];
      [|by rewrite list_lookup_insert_ne].
    assert (j <= 0) by lia. replace (Z.to_nat j) with 0%nat in * by lia. lia. }
  rewrite Hin. rewrite list_lookup_insert_eq by lia. reflexivity.
Qed.

(** A frame of another profile, or of a cluster the manager does not know,
    and a status frame for an id that is out of range or holds no callback,
    are dropped: nothing changes. *)
Theorem serial_frame_dropped data addr self :
  Address.profile addr <> manager.DIGI_PROFILE \/
  (Address.cluster addr <> manager.SERIAL_CLUSTER /\
   Address.cluster addr <> manager.IO_CLUSTER /\
   Address.cluster addr <> manager.TX_STATUS_CLUSTER_ZB) \/
  (Address.cluster addr = manager.TX_STATUS_CLUSTER_ZB /\
   is_Some (manager.unpack_tx_status data) /\
   (Address.txid addr <= 0 \/
    TxStatusCallbacks.max_id (manager.tx_callbacks self) < Address.txid addr \/
    TxStatusCallbacks.slot (manager.tx_callbacks self) (Address.txid addr)
    = None)) ->
  manager.handle_read data addr self = (Return tt, self).
Proof.
  intros H. unfold manager.handle_read.
  destruct (Z.eqb_spec (Address.profile addr) manager.DIGI_PROFILE)
    as [Hp|Hp]; cbn [negb]; [|done].
  destruct H as [H|[(H1 & H2 & H3)|(Hc & [[[r d] q] Hdata] & Hid)]]; [done| |].
  - destruct (Z.eqb_spec (Address.cluster addr) manager.SERIAL_CLUSTER); [done|].
    destruct (Z.eqb_spec (Address.cluster addr) manager.IO_CLUSTER); [done|].
    destruct (Z.eqb_spec (Address.cluster addr) manager.TX_STATUS_CLUSTER_ZB);
      done.
  - rewrite Hc. cbn [Z.eqb Pos.eqb manager.TX_STATUS_CLUSTER_ZB
                     manager.SERIAL_CLUSTER manager.IO_CLUSTER].
    unfold manager.handle_tx_status. rewrite Hdata. run_method.
    unfold TxStatusCallbacks.get_callback.
    destruct (Z.leb_spec (Address.txid addr) 0); [done|].
    destruct (Z.gtb_spec (Address.txid addr)
                (TxStatusCallbacks.max_id (manager.tx_callbacks self)));
      [done|].
    cbn [orb]. destruct Hid as [?|[?|Hnone]]; [lia|lia|].
    unfold TxStatusCallbacks.slot in Hnone. by rewrite Hnone.
Qed.

End SerialSend.

Lemma manager_init_wf cfg :
  TxStatusCallbacks.wf (manager.tx_callbacks (manager.init cfg)).
Proof. apply init_wf. lia. Qed.

Lemma send_serial_transport_failure_witness :
  exists e code self',
    manager.send_serial_listener gateway silent_serial hello_element 7%nat
      (manager.init by_tens)
    = (Return tt, self') /\
    puts (manager.out self')
    = puts (manager.out (manager.init by_tens))
      ++ [(7%nat, Immediate (VElement e))] /\
    error_id e = Some code /\
    serial_same_but_sent (manager.init by_tens) self' /\
    ((TxStatusCallbacks.full (manager.tx_callbacks (manager.init by_tens)) /\
      code = "txfull" /\
      TxStatusCallbacks._baseindex (manager.tx_callbacks self')
      = TxStatusCallbacks._baseindex
          (manager.tx_callbacks (manager.init by_tens)) /\
      sendto_calls (manager.out self')
      = sendto_calls (manager.out (manager.init by_tens))) \/
     (~ TxStatusCallbacks.full (manager.tx_callbacks (manager.init by_tens)) /\
      code = "txfailed" /\
      TxStatusCallbacks._baseindex (manager.tx_callbacks self')
      = next_cursor (manager.tx_callbacks (manager.init by_tens)))).
Proof.
  apply (send_serial_transport_failure gateway silent_serial hello_element
           7%nat (manager.init by_tens) "[00:13:A2:00:40:00:00:01]!"
           (list_byte_of_string "hello")).
  - apply manager_init_wf.
  - right. left. reflexivity.
  - reflexivity.
  - reflexivity.
Defined.

Lemma send_serial_pending_witness :
  exists txid t,
    TxStatusCallbacks.add_callback
      (manager.tx_callbacks (manager.init by_tens)) 7%nat = (Return txid, t) /\
    TxStatusCallbacks.slot t txid = Some 7%nat /\
    manager.send_serial_listener gateway ready_serial hello_element 7%nat
      (manager.init by_tens)
    = (Return tt,
       manager.Build by_tens t ∅
         (Effects [(7%nat, ResponsePending)]
            [(list_byte_of_string "hello",
              ("[00:13:A2:00:40:00:00:01]!", [232; 49413; 17; 0; txid]))]
            [])).
Proof.
  apply (send_serial_pending gateway ready_serial hello_element 7%nat
           (manager.init by_tens) "[00:13:A2:00:40:00:00:01]!"
           (list_byte_of_string "hello") 1).
  - apply manager_init_wf.
  - reflexivity.
  - reflexivity.
  - vm_compute. split; discriminate.
  - reflexivity.
  - reflexivity.
  - reflexivity.
Defined.

Lemma serial_status_resolves_witness :
  exists resp self',
    manager.handle_tx_status status_source delivered awaiting_status
    = (Return tt, self') /\
    puts (manager.out self')
    = [(7%nat, ResponsePending); (7%nat, DeferredResponse (VElement resp))] /\
    resp = Elem "response" ∅ (Some "") [] /\
    TxStatusCallbacks.slot (manager.tx_callbacks self') 1 = None.
Proof.
  destruct (serial_status_resolves status_source delivered awaiting_status
              0 0 0 7%nat)
    as (resp & self' & H1 & H2 & H3 & _ & H5 & _).
  - constructor; vm_compute; done.
  - reflexivity.
  - vm_compute. split; discriminate.
  - reflexivity.
  - exists resp, self'. split; [exact H1|]. split; [exact H2|].
    split; [by apply H3|exact H5].
Defined.

Lemma serial_frame_dropped_witness :
  manager.handle_read delivered status_source (manager.init by_tens)
  = (Return tt, manager.init by_tens).
Proof.
  apply serial_frame_dropped. right. right.
  split; [reflexivity|]. split; [by eexists|]. right. right. reflexivity.
Defined.

Section DdoSend.
Variable pf : platform.
Variable env : socket_env ddo_manager.dest.
Implicit Types (self : ddo_manager.DDOEventManager).

Lemma ddo_address_inv element n :
  ddo_address element = Some n ->
  exists a,
    attrib element !! "addr" = Some a /\ a <> "" /\
    normalize_ieee_address (PyStr a) = Return n.
Proof.
  unfold ddo_address.
  destruct (attrib element !! "addr") as [[|c a]|]; [done| |done].
  destruct (normalize_ieee_address _) as [|n'] eqn:Hn; [done|].
  intros [= <-]. by eexists.
Qed.

(** For an element whose address and pin are in order, the listener is its
    part from the check of pin 9 on. *)
Lemma digital_out_listener_valid element response self n pin :
  ddo_address element = Some n ->
  requested_pin element = Some pin ->
  ddo_manager.digital_out_listener pf env element response self
  = ddo_manager.set_pin pf env n pin (requested_value element) response self.
Proof.
  intros Haddr Hpin. apply ddo_address_inv in Haddr as (a & Ha & Hne & Hn).
  unfold ddo_manager.digital_out_listener, requested_pin, requested_value in *.
  rewrite Ha. destruct a as [|c a]; [done|].
  change (default "" (Some (String c a))) with (String c a). rewrite Hn.
  cbn [ddo_manager.attr_true rci.truthy String.eqb negb].
  destruct (attrib element !! "index") as [index|];
    destruct (attrib element !! "name") as [name|]; try done.
  - destruct index as [|ci index]; [done|].
    cbn [ddo_manager.attr_true rci.truthy String.eqb negb andb].
    replace (bool_decide (Some (String ci index) ≠ None)) with true
      by (symmetry; by apply bool_decide_eq_true).
    replace (bool_decide (None ≠ (None : option string))) with false
      by (symmetry; by apply bool_decide_eq_false; intros H).
    cbn [andb]. change (default "" (Some (String ci index))) with (String ci index).
    cbn [String.eqb] in Hpin.
    destruct (py_int (String ci index)) as [i|]; [|done].
    change (default (-1) (Some i)) with i.
    destruct ((i <? 0) || (i >? 12)); [done|]. by injection Hpin as ->.
  - destruct name as [|cn name]; [done|].
    cbn [ddo_manager.attr_true rci.truthy String.eqb negb andb].
    replace (bool_decide (None ≠ (None : option string))) with false
      by (symmetry; by apply bool_decide_eq_false; intros H).
    cbn [andb]. change (default "" (Some (String cn name))) with (String cn name).
    cbn [String.eqb] in Hpin.
    destruct (ddo_manager.BAD_NAME_MAP !! String cn name); [done|].
    by rewrite Hpin.
Qed.

Lemma ddo_attempt_send_fails payload address self :
  writable env = false \/ sendto_raises env ->
  exists e self',
    ddo_manager.attempt_send env payload address self
    = (Return (Raise e), self') /\
    described e /\
    ddo_manager.tx_callbacks self' = ddo_manager.tx_callbacks self /\
    puts (ddo_manager.out self') = puts (ddo_manager.out self) /\
    published (ddo_manager.out self') = published (ddo_manager.out self).
Proof.
  intros H. unfold ddo_manager.attempt_send, writable in *.
  destruct (poll env) as [|fd fds] eqn:Hpoll.
  { eexists _, self. split; [reflexivity|]. by repeat split. }
  destruct (existsb _ (fd :: fds)) eqn:Hw.
  - destruct H as [H|H]; [done|].
    destruct (H payload address) as (e & He & Hd). run_method. rewrite He.
    eexists e, _. split; [reflexivity|]. by repeat split.
  - eexists _, self. split; [reflexivity|]. by repeat split.
Qed.

Lemma ddo_attempt_send_ok payload address self :
  writable env = true -> sendto env payload address = None ->
  ddo_manager.attempt_send env payload address self
  = (Return (Return tt),
     ddo_manager.Build (ddo_manager.tx_callbacks self)
       (Effects (puts (ddo_manager.out self))
          (sendto_calls (ddo_manager.out self) ++ [(payload, address)])
          (published (ddo_manager.out self)))).
Proof.
  intros Hw Hs. unfold ddo_manager.attempt_send, writable in *.
  destruct (poll env) as [|fd fds]; [done|]. rewrite Hw. run_method.
  by rewrite Hs.
Qed.

Lemma ddo_reply_error_eq response code desc hint self :
  ddo_manager.errors !! code = Some desc ->
  ddo_manager.reply_error response code hint self
  = (Return tt,
     ddo_replied self response
       (error_element code desc (if rci.truthy hint then hint else None))).
Proof.
  intros Hdesc. unfold ddo_manager.reply_error. run_method.
  by rewrite (error_response_some _ _ _ _ _ Hdesc).
Qed.

(** When the transport fails under a request that is in order, the listener
    puts exactly one immediate error reply, [txfull] or [txfailed], and no
    [ResponsePending]; every slot of the table is as before. *)
Theorem set_digital_output_transport_failure element response self n pin :
  TxStatusCallbacks.wf (ddo_manager.tx_callbacks self) ->
  transport_fails env (ddo_manager.tx_callbacks self) ->
  ddo_request element n pin ->
  exists e code self',
    ddo_manager.digital_out_listener pf env element response self
    = (Return tt, self') /\
    puts (ddo_manager.out self')
    = puts (ddo_manager.out self) ++ [(response, Immediate (VElement e))] /\
    error_id e = Some code /\ (code = "txfull" \/ code = "txfailed") /\
    TxStatusCallbacks._callbacks (ddo_manager.tx_callbacks self')
    = TxStatusCallbacks._callbacks (ddo_manager.tx_callbacks self) /\
    TxStatusCallbacks.max_id (ddo_manager.tx_callbacks self')
    = TxStatusCallbacks.max_id (ddo_manager.tx_callbacks self) /\
    published (ddo_manager.out self') = published (ddo_manager.out self).
Proof.
  intros Hwf Hfail (Haddr & Hpin & H9 & Hval).
  rewrite (digital_out_listener_valid _ _ _ _ _ Haddr Hpin).
  unfold ddo_manager.set_pin.
  destruct (Z.eqb_spec pin 9); [done|].
  destruct (Z.eqb_spec (ddo_manager._parse_digital_value
                          (requested_value element)) 0); [done|].
  run_method.
  destruct (TxStatusCallbacks.add_callback (ddo_manager.tx_callbacks self)
              response) as [[ex|txid] t] eqn:Hadd.
  - rewrite (ddo_reply_error_eq _ "txfull" "Too many outstanding transmits"
               None _ eq_refl).
    eexists _, "txfull", _. split; [reflexivity|]. cbn.
    split; [reflexivity|]. split; [apply error_id_error_element|].
    split; [by left|]. by repeat split.
  - destruct Hfail as [Hfull|Hfail];
      [destruct (full_add_raises _ _ _ _ Hwf Hfull Hadd)|].
    unfold ddo_manager.set_tx_callbacks at 1. run_method.
    match goal with
    | |- context [ddo_manager.attempt_send env ?p ?a ?s] =>
        destruct (ddo_attempt_send_fails p a s Hfail)
          as (e & self2 & Hatt & Hd & Htx & Hputs & Hpub);
        rewrite Hatt
    end.
    cbn [ddo_manager.tx_callbacks] in Htx.
    destruct (add_then_remove _ _ _ _ Hwf Hadd) as (t' & Hrem & Hcbs & Hmax & _).
    rewrite Htx, Hrem. unfold ddo_manager.set_tx_callbacks. run_method.
    match goal with
    | |- context [match e with
                  | SocketUnavailable _ => _
                  | socket_error _ _ _ => _
                  | other_exception _ => _ end ?s] =>
        destruct (failure_message pf e s Hd) as [m Hm]; rewrite Hm
    end.
    rewrite (ddo_reply_error_eq _ "txfailed" "Transmit operation failed"
               (Some m) _ eq_refl).
    eexists _, "txfailed", _. split; [reflexivity|]. cbn.
    split; [by rewrite Hputs|]. split; [apply error_id_error_element|].
    split; [by right|]. by rewrite Hpub.
Qed.

(** With a request in order, an empty slot and a socket that takes the
    datagram, the listener registers the channel under a new id, sends the
    output code as four big-endian bytes to the setting of the pin with
    that id, and answers [ResponsePending]. *)
Theorem set_digital_output_pending element response self n pin i :
  TxStatusCallbacks.wf (ddo_manager.tx_callbacks self) ->
  writable env = true ->
  (forall payload address, sendto env payload address = None) ->
  1 <= i <= TxStatusCallbacks.max_id (ddo_manager.tx_callbacks self) ->
  TxStatusCallbacks.slot (ddo_manager.tx_callbacks self) i = None ->
  ddo_request element n pin ->
  exists txid t,
    TxStatusCallbacks.add_callback (ddo_manager.tx_callbacks self) response
    = (Return txid, t) /\
    TxStatusCallbacks.slot t txid = Some response /\
    ddo_manager.digital_out_listener pf env element response self
    = (Return tt,
       ddo_manager.Build t
         (Effects
            (puts (ddo_manager.out self) ++ [(response, ResponsePending)])
            (sendto_calls (ddo_manager.out self)
             ++ [(ddo_manager.pack_I
                    (ddo_manager._parse_digital_value
                       (requested_value element)),
                  (n, ddo_manager._pin_index_to_setting pin,
                   XBS_OPT_DDO_APPLY pf, txid))])
            (published (ddo_manager.out self)))).
Proof.
  intros Hwf Hw Hs Hi Hfree (Haddr & Hpin & H9 & Hval).
  rewrite (digital_out_listener_valid _ _ _ _ _ Haddr Hpin).
  destruct (add_callback_total (ddo_manager.tx_callbacks self) response i
              Hwf Hi Hfree) as (txid & t & Hadd).
  destruct (add_callback_spec _ _ _ _ Hwf Hadd) as (Hr & _ & Hnew & _).
  exists txid, t. split; [exact Hadd|]. split; [exact Hnew|].
  unfold ddo_manager.set_pin.
  destruct (Z.eqb_spec pin 9); [done|].
  destruct (Z.eqb_spec (ddo_manager._parse_digital_value
                          (requested_value element)) 0); [done|].
  run_method. rewrite Hadd.
  unfold ddo_manager.set_tx_callbacks. run_method.
  rewrite ddo_attempt_send_ok by done.
  unfold ddo_manager.put. run_method. reflexivity.
Qed.

Lemma ddo_status_known status :
  status = XBS_STAT_OK pf \/ status = XBS_STAT_ERROR pf \/
  status = XBS_STAT_BADCMD pf \/ status = XBS_STAT_BADPARAM pf \/
  status = XBS_STAT_TXFAIL pf <->
  is_Some (ddo_manager.TX_STATUSES pf !! status).
Proof.
  unfold ddo_manager.TX_STATUSES.
  rewrite !lookup_insert_is_Some, lookup_empty, <- not_eq_None_Some.
  split.
  - intros [->|[->|[->|[->| ->]]]];
      repeat match goal with
             | |- ?a = ?b \/ _ => destruct (decide (a = b)); [by left|right]
             | |- _ /\ _ => split; [done|]
             end; done.
  - intros H. repeat destruct H as [H|[_ H]]; auto. done.
Qed.

(** The DDO [status_callback] always puts exactly one [DeferredResponse]:
    the data as response for the status OK, an error otherwise. *)
Lemma ddo_status_callback_reply data address sent_cmd f2 f3 status ch self :
  exists resp,
    ddo_manager.status_callback pf data (address, sent_cmd, f2, f3, status)
      ch self
    = (Return tt,
       ddo_manager.Build (ddo_manager.tx_callbacks self)
         (Effects
            (puts (ddo_manager.out self)
             ++ [(ch, DeferredResponse (VElement resp))])
            (sendto_calls (ddo_manager.out self))
            (published (ddo_manager.out self)))) /\
    (status = XBS_STAT_OK pf ->
     resp = Elem "response" ∅ (Some (string_of_list_byte data)) []) /\
    (status <> XBS_STAT_OK pf -> is_Some (error_id resp)).
Proof.
  unfold ddo_manager.status_callback.
  destruct (ddo_manager.TX_STATUSES pf !! status) as [d|] eqn:Hl.
  - assert (Hk : is_Some (ddo_manager.TX_STATUSES pf !! status)) by by eexists.
    apply ddo_status_known in Hk. run_method.
    destruct (Z.eqb_spec status (XBS_STAT_OK pf)).
    { eexists. split; [reflexivity|]. split; [done|]. by intros []. }
    destruct (Z.eqb_spec status (XBS_STAT_TXFAIL pf)).
    { rewrite (error_response_some ddo_manager.errors "txfailed"
                 "Transmit operation failed" _ _ eq_refl).
      eexists. split; [reflexivity|]. split; [done|]. intros _.
      rewrite error_id_error_element. by eexists. }
    destruct (Z.eqb_spec status (XBS_STAT_BADCMD pf)).
    { rewrite (error_response_some ddo_manager.errors "badcmd"
                 "Invalid DDO command name" _ _ eq_refl).
      eexists. split; [reflexivity|]. split; [done|]. intros _.
      rewrite error_id_error_element. by eexists. }
    destruct (Z.eqb_spec status (XBS_STAT_BADPARAM pf)).
    { rewrite (error_response_some ddo_manager.errors "badparam"
                 "Invalid DDO command value" _ _ eq_refl).
      eexists. split; [reflexivity|]. split; [done|]. intros _.
      rewrite error_id_error_element. by eexists. }
    destruct (Z.eqb_spec status (XBS_STAT_ERROR pf)).
    { rewrite (error_response_some ddo_manager.errors "ddo_error"
                 "DDO command error" _ _ eq_refl).
      eexists. split; [reflexivity|]. split; [done|]. intros _.
      rewrite error_id_error_element. by eexists. }
    exfalso. tauto.
  - run_method.
    rewrite (error_response_some ddo_manager.errors "unexpected"
               "Unexpected/unclassified error" _ _ eq_refl).
    eexists. split; [reflexivity|]. split.
    + intros ->.
      assert (Hk : is_Some (ddo_manager.TX_STATUSES pf !! XBS_STAT_OK pf))
        by (apply ddo_status_known; by left).
      rewrite Hl in Hk. by destruct Hk.
    + intros _. rewrite error_id_error_element. by eexists.
Qed.

(** A DDO status frame for an id that holds a callback releases the id and
    puts exactly one [DeferredResponse] on the channel registered under it;
    the same frame once more changes nothing, and neither does a frame for
    an id that is out of range. *)
Theorem ddo_status_resolves data address sent_cmd f2 txid status self ch :
  TxStatusCallbacks.wf (ddo_manager.tx_callbacks self) ->
  1 <= txid <= TxStatusCallbacks.max_id (ddo_manager.tx_callbacks self) ->
  TxStatusCallbacks.slot (ddo_manager.tx_callbacks self) txid = Some ch ->
  exists resp self',
    ddo_manager.handle_read pf data (address, sent_cmd, f2, txid, status) self
    = (Return tt, self') /\
    puts (ddo_manager.out self')
    = puts (ddo_manager.out self) ++ [(ch, DeferredResponse (VElement resp))] /\
    (status = XBS_STAT_OK pf ->
     resp = Elem "response" ∅ (Some (string_of_list_byte data)) []) /\
    (status <> XBS_STAT_OK pf -> is_Some (error_id resp)) /\
    TxStatusCallbacks.slot (ddo_manager.tx_callbacks self') txid = None /\
    (forall j, j <> txid ->
               TxStatusCallbacks.slot (ddo_manager.tx_callbacks self') j
               = TxStatusCallbacks.slot (ddo_manager.tx_callbacks self) j) /\
    ddo_manager.handle_read pf data (address, sent_cmd, f2, txid, status) self'
    = (Return tt, self') /\
    ddo_manager.handle_read pf data (address, sent_cmd, f2, 0, status) self
    = (Return tt, self).
Proof.
  intros Hwf Hr Hslot. pose proof Hwf as [? Hlen ?].
  assert (Hin : (txid <=? 0)
                || (txid >? TxStatusCallbacks.max_id (ddo_manager.tx_callbacks self))
                = false) by (apply orb_false_intro; lia).
  unfold ddo_manager.handle_read, ddo_manager.handle_tx_status. run_method.
  unfold TxStatusCallbacks.get_callback, TxStatusCallbacks.remove_callback.
  rewrite Hin. fold (TxStatusCallbacks.slot (ddo_manager.tx_callbacks self) txid).
  rewrite Hslot. unfold ddo_manager.set_tx_callbacks. run_method.
  match goal with
  | |- context [ddo_manager.status_callback pf data ?a ch ?s] =>
      destruct (ddo_status_callback_reply data address sent_cmd f2 txid status
                  ch s) as (resp & Hcb & H0 & Hne); rewrite Hcb
  end.
  eexists resp, _. split; [reflexivity|]. cbn.
  split; [done|]. split; [done|]. split; [done|].
  unfold TxStatusCallbacks.slot. cbn.
  split; [by rewrite list_lookup_insert_eq by lia|].
  split.
  { intros j Hj.
    destruct (decide (Z.to_nat j = Z.to_nat txid)) as [He|Hn];
      [|by rewrite list_lookup_insert_ne].
    assert (j <= 0) by lia. replace (Z.to_nat j) with 0%nat in * by lia. lia. }
  rewrite Hin. rewrite list_lookup_insert_eq by lia. done.
Qed.



End DdoSend.

Section DigitalValue.

Lemma lower_char_idem c : lower_char (lower_char c) = lower_char c.
Proof. destruct c as [[] [] [] [] [] [] [] []]; reflexivity. Qed.

Lemma py_lower_idem s : py_lower (py_lower s) = py_lower s.
Proof.
  unfold py_lower. rewrite list_ascii_of_string_of_list_ascii, map_map.
  f_equal. apply map_ext. intros c. apply lower_char_idem.
Qed.

(** The output code of a value: 5 for [high] and the words [strtobool]
    takes as true, 4 for [low] and the words it takes as false, in any
    case of letters, and 0 for everything else. *)
Theorem parse_digital_value_codes (value : string) :
  ddo_manager._parse_digital_value value
  = (if bool_decide (py_lower value
                     ∈ ["high"; "y"; "yes"; "t"; "true"; "on"; "1"]) then 5
     else if bool_decide (py_lower value
                          ∈ ["low"; "n"; "no"; "f"; "false"; "off"; "0"])
          then 4
          else 0) /\
  ddo_manager._parse_digital_value (py_lower value)
  = ddo_manager._parse_digital_value value.
Proof.
  split.
  - unfold ddo_manager._parse_digital_value, ddo_manager.strtobool.
    set (v := py_lower value).
    destruct (String.eqb_spec v "low") as [->|Hlow]; [reflexivity|].
    destruct (String.eqb_spec v "high") as [->|Hhigh]; [reflexivity|].
    destruct (bool_decide (v ∈ ["y"; "yes"; "t"; "true"; "on"; "1"])) eqn:Ht.
    + apply bool_decide_eq_true in Ht.
      rewrite bool_decide_eq_true_2; [done|]. rewrite !elem_of_cons, elem_of_nil in *; tauto.
    + apply bool_decide_eq_false in Ht.
      rewrite (bool_decide_eq_false_2 (v ∈ ["high"; _; _; _; _; _; _]))
        by (rewrite !elem_of_cons, elem_of_nil in *; tauto).
      destruct (bool_decide (v ∈ ["n"; "no"; "f"; "false"; "off"; "0"])) eqn:Hf.
      * apply bool_decide_eq_true in Hf.
        rewrite bool_decide_eq_true_2; [done|]. rewrite !elem_of_cons, elem_of_nil in *; tauto.
      * apply bool_decide_eq_false in Hf.
        rewrite bool_decide_eq_false_2; [done|]. rewrite !elem_of_cons, elem_of_nil in *; tauto.
  - unfold ddo_manager._parse_digital_value, ddo_manager.strtobool.
    by rewrite !py_lower_idem.
Qed.

End DigitalValue.

Lemma ddo_init_wf : TxStatusCallbacks.wf (ddo_manager.tx_callbacks ddo_manager.init).
Proof. apply init_wf. lia. Qed.

Lemma pin4_high_request :
  ddo_request pin4_high "[00:13:A2:00:40:00:00:01]!" 4.
Proof.
  split; [reflexivity|]. split; [reflexivity|].
  split; [discriminate|]. vm_compute. discriminate.
Qed.

Lemma set_digital_output_transport_failure_witness :
  exists e code self',
    ddo_manager.digital_out_listener gateway silent_ddo pin4_high 7%nat
      ddo_manager.init
    = (Return tt, self') /\
    puts (ddo_manager.out self')
    = puts (ddo_manager.out ddo_manager.init)
      ++ [(7%nat, Immediate (VElement e))] /\
    error_id e = Some code /\ (code = "txfull" \/ code = "txfailed") /\
    TxStatusCallbacks._callbacks (ddo_manager.tx_callbacks self')
    = TxStatusCallbacks._callbacks (ddo_manager.tx_callbacks ddo_manager.init) /\
    TxStatusCallbacks.max_id (ddo_manager.tx_callbacks self')
    = TxStatusCallbacks.max_id (ddo_manager.tx_callbacks ddo_manager.init) /\
    published (ddo_manager.out self')
    = published (ddo_manager.out ddo_manager.init).
Proof.
  apply (set_digital_output_transport_failure gateway silent_ddo pin4_high
           7%nat ddo_manager.init "[00:13:A2:00:40:00:00:01]!" 4).
  - apply ddo_init_wf.
  - right. left. reflexivity.
  - apply pin4_high_request.
Defined.

Lemma set_digital_output_pending_witness :
  exists txid t,
    TxStatusCallbacks.add_callback (ddo_manager.tx_callbacks ddo_manager.init)
      7%nat = (Return txid, t) /\
    TxStatusCallbacks.slot t txid = Some 7%nat /\
    ddo_manager.digital_out_listener gateway ready_ddo pin4_high 7%nat
      ddo_manager.init
    = (Return tt,
       ddo_manager.Build t
         (Effects [(7%nat, ResponsePending)]
            [([x00; x00; x00; x05],
              ("[00:13:A2:00:40:00:00:01]!", "D4", 2, txid))]
            [])).
Proof.
  apply (set_digital_output_pending gateway ready_ddo pin4_high 7%nat
           ddo_manager.init "[00:13:A2:00:40:00:00:01]!" 4 1).
  - apply ddo_init_wf.
  - reflexivity.
  - reflexivity.
  - vm_compute. split; discriminate.
  - reflexivity.
  - apply pin4_high_request.
Defined.

Lemma ddo_status_resolves_witness :
  exists resp self',
    ddo_manager.handle_read gateway []
      ("[00:13:A2:00:40:00:00:01]!", "D4", 0, 1, 0) awaiting_ddo_status
    = (Return tt, self') /\
    puts (ddo_manager.out self')
    = [(7%nat, ResponsePending); (7%nat, DeferredResponse (VElement resp))] /\
    resp = Elem "response" ∅ (Some "") [] /\
    TxStatusCallbacks.slot (ddo_manager.tx_callbacks self') 1 = None.
Proof.
  destruct (ddo_status_resolves gateway [] "[00:13:A2:00:40:00:00:01]!" "D4"
              0 1 0 awaiting_ddo_status 7%nat)
    as (resp & self' & H1 & H2 & H3 & _ & H5 & _).
  - constructor; vm_compute; done.
  - vm_compute. split; discriminate.
  - reflexivity.
  - exists resp, self'. split; [exact H1|]. split; [exact H2|].
    split; [by apply H3|exact H5].
Defined.


Lemma pin_9_rejected_witness :
  exists e code,
    ddo_manager.digital_out_listener gateway ready_ddo pin9_by_index 7%nat
      ddo_manager.init
    = (Return tt, ddo_replied ddo_manager.init 7%nat e) /\
    error_id e = Some code /\
    In code ["missingattr"; "address"; "toomanyattrs"; "invalidattr"] /\
    (well_addressed pin9_by_index -> code = "invalidattr").
Proof.
  apply (pin_9_rejected gateway ready_ddo pin9_by_index 7%nat ddo_manager.init).
  left. exists " 9". split; reflexivity.
Defined.

Section RouterExtras.
Variable sendMessage : string -> Element -> list reply.
Variable later : list (Z * reply).

Lemma replies_of_tagged (taken : list reply) :
  Forall (fun c => tag c = "response") (rci.replies_of taken).
Proof.
  induction taken as [|r taken IH]; [constructor|].
  unfold rci.replies_of in *. cbn [flat_map].
  destruct r as [|v|v]; [exact IH| |]; constructor; done.
Qed.

(** The router always answers, with a [responses] element that carries the
    tag of the command and whose children are all [response] elements. *)
Theorem process_command_shape (command_element : Element) :
  exists resp st,
    rci.process_command sendMessage later command_element = Return (resp, st) /\
    tag resp = "responses" /\
    attrib resp = {[ "command" := tag command_element ]} /\
    text resp = None /\
    Forall (fun c => tag c = "response") (children resp).
Proof.
  unfold rci.process_command.
  set (arr := rci.channel_contents _ _ _).
  assert (exists first,
            (if rci.queue_empty 0 arr
             then response ← rci.ErrorResponse "command.unknown" rci.errors
                               (Some (tag command_element));
                  Return (append (Elem "responses"
                                    {[ "command" := tag command_element ]}
                                    None []) response)
             else Return (Elem "responses"
                            {[ "command" := tag command_element ]} None []))
            = (Return (Elem "responses"
                         {[ "command" := tag command_element ]} None first)
               : result rci.exn Element) /\
            Forall (fun c => tag c = "response") first) as (first & -> & Hfirst).
  { destruct (rci.queue_empty 0 arr); [|by eexists].
    unfold rci.ErrorResponse.
    change (rci.errors !! "command.unknown") with (Some "Command not handled").
    cbn. eexists. split; [reflexivity|]. by repeat constructor. }
  cbn [mbind result_bind children tag attrib text].
  set (st0 := rci.Collecting 0 first [] 0 []).
  assert (Hinv0 : rci.collect_inv first st0)
    by (split; cbn; [done|by rewrite app_nil_r]).
  destruct (collect_end (tag command_element) first arr st0 Hinv0)
    as [[_ Hc] _].
  set (st := rci.collect _ arr st0) in *.
  rewrite mapM_timeouts.
  assert (Hch : Forall (fun c => tag c = "response") (rci.resp_children st)).
  { rewrite Hc. apply Forall_app. split; [done|apply replies_of_tagged]. }
  destruct (rci.deferred st >? 0); cbn; eexists _, _;
    (split; [reflexivity|]); repeat split; try done.
  - apply Forall_app. split; [done|]. by apply Forall_replicate.
  - by rewrite app_nil_r.
Qed.



(** A deferred answer that comes after the bound is lost: the router has
    given up, and the reply holds the [command.timeout] error alone. *)
Theorem late_deferred_is_lost (command_element : Element) (t : Z)
    (v : reply_value) :
  rci.channel_contents sendMessage later command_element
  = [(0, ResponsePending); (t, DeferredResponse v)] ->
  rci.BLOCKING_LIMIT <= t ->
  exists st,
    rci.process_command sendMessage later command_element
    = Return (Elem "responses" {[ "command" := tag command_element ]} None
                [timeout_error], st) /\
    rci.taken st = [ResponsePending] /\
    rci.now st = rci.BLOCKING_LIMIT /\
    length (rci.log st) = 1%nat.
Proof.
  intros Hc Ht. unfold rci.process_command. rewrite Hc.
  cbn -[rci.BLOCKING_LIMIT Z.ltb Z.leb].
  unfold rci.BLOCKING_LIMIT in *.
  destruct (Z.leb_spec t 0); [lia|].
  destruct (Z.ltb_spec t (0 + 30)); [lia|].
  cbn. eexists. split; [reflexivity|done].
Qed.

End RouterExtras.


Lemma late_deferred_is_lost_witness :
  exists st,
    rci.process_command one_pending [(45, DeferredResponse (VObject "late"))]
      test_element
    = Return (Elem "responses" {[ "command" := "test" ]} None
                [timeout_error], st) /\
    rci.taken st = [ResponsePending] /\
    rci.now st = rci.BLOCKING_LIMIT /\
    length (rci.log st) = 1%nat.
Proof.
  apply (late_deferred_is_lost one_pending
           [(45, DeferredResponse (VObject "late"))] test_element 45
           (VObject "late")).
  - reflexivity.
  - vm_compute. discriminate.
Defined.

Section AddressExtras.

Lemma hexdigit_value c :
  char_in c hexdigits = true -> 0 <= digit_value c < 16.
Proof.
  destruct c as [[] [] [] [] [] [] [] []]; cbv; intros H;
    first [discriminate H | split; [intros H'; discriminate H' | reflexivity]].
Qed.

Lemma lower_char_hexdigit c :
  char_in (lower_char c) hexdigits = char_in c hexdigits.
Proof. destruct c as [[] [] [] [] [] [] [] []]; reflexivity. Qed.

Lemma lower_char_digit_value c :
  char_in c hexdigits = true -> digit_value (lower_char c) = digit_value c.
Proof.
  destruct c as [[] [] [] [] [] [] [] []]; cbv; intros H;
    first [discriminate H | reflexivity].
Qed.

Lemma digits_value_acc (l : list ascii) acc :
  Forall (fun c => 0 <= digit_value c < 16) l -> 0 <= acc ->
  0 <= fold_left (fun acc c => acc * 16 + digit_value c) l acc
    < (acc + 1) * 16 ^ Z.of_nat (length l).
Proof.
  intros Hl. revert acc. induction Hl as [|c l Hc Hl IH]; intros acc Hacc.
  { cbn. lia. }
  cbn [fold_left length]. rewrite Nat2Z.inj_succ, Z.pow_succ_r by lia.
  specialize (IH (acc * 16 + digit_value c) ltac:(lia)).
  split; [lia|].
  eapply Z.lt_le_trans; [apply IH|].
  assert (0 < 16 ^ Z.of_nat (length l)) by (apply Z.pow_pos_nonneg; lia).
  nia.
Qed.

Lemma hexonly_digits s :
  Forall (fun c => char_in c hexdigits = true)
    (list_ascii_of_string (hexonly s)).
Proof.
  unfold hexonly, keep_chars. rewrite list_ascii_roundtrip.
  apply List.Forall_forall. intros c Hc. by apply List.filter_In in Hc as [_ Hc].
Qed.

Lemma String_length_list s :
  String.length s = length (list_ascii_of_string s).
Proof. induction s as [|c s IH]; [done|]. cbn. by rewrite IH. Qed.

Lemma address_value_bound s :
  (String.length (hexonly s) <= 16)%nat -> 0 <= address_value s < 2 ^ 64.
Proof.
  intros Hlen. unfold address_value, digits_value.
  pose proof (hexonly_digits s) as Hd.
  eapply Forall_impl in Hd; [|apply hexdigit_value].
  apply digits_value_acc with (acc := 0) in Hd; [|lia].
  rewrite String_length_list in Hlen.
  change (0 + 1) with 1 in Hd. rewrite Z.mul_1_l in Hd.
  split; [lia|]. eapply Z.lt_le_trans; [apply Hd|].
  change (2 ^ 64) with (16 ^ 16).
  apply Z.pow_le_mono_r; lia.
Qed.

(** The address a string normalises to stands for the number its
    hexadecimal digits spell: no digit is lost or changed. *)
Theorem normalize_keeps_value (s a : string) :
  normalize_ieee_address (PyStr s) = Return a ->
  (1 <= String.length (hexonly s) <= 16)%nat /\
  a = format_mac (address_value s) /\
  address_value a = address_value s.
Proof.
  unfold normalize_ieee_address. change (keep_chars _ s) with (hexonly s).
  destruct (Nat.ltb_spec 0 (String.length (hexonly s))) as [H0|H0];
    destruct (Nat.leb_spec (String.length (hexonly s)) 16) as [H1|H1];
    cbn [andb]; try (destruct (_ <? _)%nat; discriminate).
  cbn [mbind result_bind]. intros [= <-].
  split; [lia|]. split; [done|].
  rewrite address_value_format_mac. apply Z.mod_small.
  by apply address_value_bound.
Qed.

Lemma filter_map_lower l :
  List.filter (fun c => char_in c hexdigits) (map lower_char l)
  = map lower_char (List.filter (fun c => char_in c hexdigits) l).
Proof.
  induction l as [|c l IH]; [done|]. cbn [map List.filter].
  rewrite lower_char_hexdigit, IH. by destruct (char_in c hexdigits).
Qed.

Lemma hexonly_lower s : hexonly (py_lower s) = py_lower (hexonly s).
Proof.
  unfold hexonly, keep_chars, py_lower. rewrite !list_ascii_roundtrip.
  by rewrite filter_map_lower.
Qed.

Lemma py_lower_length s : String.length (py_lower s) = String.length s.
Proof.
  unfold py_lower. rewrite !String_length_list, list_ascii_roundtrip.
  apply length_map.
Qed.

Lemma digits_value_lower l acc :
  Forall (fun c => char_in c hexdigits = true) l ->
  fold_left (fun acc c => acc * 16 + digit_value c) (map lower_char l) acc
  = fold_left (fun acc c => acc * 16 + digit_value c) l acc.
Proof.
  intros Hl. revert acc. induction Hl as [|c l Hc Hl IH]; intros acc; [done|].
  cbn [map fold_left]. by rewrite lower_char_digit_value, IH.
Qed.

(** The case of the letters of an address does not matter: the string in
    lower case normalises as the string itself does, to the same address or
    to the same error. *)
Theorem normalize_ignores_case (s : string) :
  normalize_ieee_address (PyStr (py_lower s))
  = normalize_ieee_address (PyStr s).
Proof.
  unfold normalize_ieee_address.
  change (keep_chars _ (py_lower s)) with (hexonly (py_lower s)).
  change (keep_chars _ s) with (hexonly s).
  rewrite hexonly_lower, py_lower_length.
  unfold py_lower at 1. rewrite list_ascii_roundtrip.
  unfold digits_value. rewrite digits_value_lower by apply hexonly_digits.
  reflexivity.
Qed.

End AddressExtras.

Lemma normalize_keeps_value_witness :
  (1 <= String.length (hexonly "00:13:a2:00:40:52:db:ae") <= 16)%nat /\
  "[00:13:A2:00:40:52:DB:AE]!"
  = format_mac (address_value "00:13:a2:00:40:52:db:ae") /\
  address_value "[00:13:A2:00:40:52:DB:AE]!"
  = address_value "00:13:a2:00:40:52:db:ae".
Proof.
  apply (normalize_keeps_value "00:13:a2:00:40:52:db:ae"
           "[00:13:A2:00:40:52:DB:AE]!").
  vm_compute. reflexivity.
Defined.

Section SampleFacts.

Ltac take_word :=
  repeat match goal with
    | |- context [take ?n (?x :: ?l)] =>
        let r := eval cbv [firstn] in (take n (x :: l)) in
        change (take n (x :: l)) with r
    | |- context [drop ?n (?x :: ?l)] =>
        let r := eval cbv [skipn] in (drop n (x :: l)) in
        change (drop n (x :: l)) with r
    end;
  cbn [io_sample.unpack_H io_sample.unpack_BH io_sample.unpack_BHB
       mbind result_bind].

Lemma land_1_testbit a : negb (Z.land a 1 =? 0) = Z.testbit a 0.
Proof.
  change 1 with (Z.ones 1) at 1. rewrite Z.land_ones by lia.
  change (2 ^ 1) with 2. rewrite <- Z.bit0_mod.
  by destruct (Z.testbit a 0).
Qed.

Lemma bit_length_shiftr a :
  0 < a -> io_sample.bit_length a = S (io_sample.bit_length (Z.shiftr a 1)).
Proof. destruct a as [|[p|p|]|]; try lia; reflexivity. Qed.

Lemma bit_length_0 a : 0 <= a -> io_sample.bit_length a = 0%nat -> a = 0.
Proof. destruct a as [|[p|p|]|]; try done; lia. Qed.

Lemma filter_map_length {A B} (p : B -> bool) (f : A -> B) l :
  length (List.filter p (map f l)) = length (List.filter (fun x => p (f x)) l).
Proof.
  induction l as [|x l IH]; [done|]. cbn [map List.filter].
  destruct (p (f x)); cbn [length]; by rewrite IH.
Qed.

Lemma set_bits_below_S a k :
  set_bits_below a (S k)
  = ((if Z.testbit a 0 then 1 else 0) + set_bits_below (Z.shiftr a 1) k)%nat.
Proof.
  unfold set_bits_below. cbn [seq List.filter]. rewrite <- seq_shift.
  change (Z.of_nat 0) with 0.
  assert (Hrest : length (List.filter (fun k0 => Z.testbit a (Z.of_nat k0))
                            (map S (seq 0 k)))
                  = length (List.filter
                              (fun k0 => Z.testbit (Z.shiftr a 1) (Z.of_nat k0))
                              (seq 0 k))).
  { rewrite filter_map_length. f_equal. apply List.filter_ext. intros j.
    rewrite Z.shiftr_spec by lia. f_equal. lia. }
  destruct (Z.testbit a 0); cbn [length]; rewrite Hrest; reflexivity.
Qed.

Lemma set_bits_shiftr a :
  0 < a ->
  set_bits a
  = ((if Z.testbit a 0 then 1 else 0) + set_bits (Z.shiftr a 1))%nat.
Proof.
  intros Ha. unfold set_bits. rewrite (bit_length_shiftr a Ha).
  apply set_bits_below_S.
Qed.

Lemma dio_key_inj i j : dio_key i = dio_key j -> i = j.
Proof. intros H. injection H as H. by apply pretty_Z_inj in H. Qed.

Lemma ad_key_inj i j : ad_key i = ad_key j -> i = j.
Proof. intros H. injection H as H. by apply pretty_Z_inj in H. Qed.

Lemma dio_key_ad_key i j : dio_key i <> ad_key j.
Proof. intros H. discriminate H. Qed.

Lemma digital_loop_lookup fuel :
  forall datamask datavals currentDI retdir i,
    0 <= datamask -> (io_sample.bit_length datamask <= fuel)%nat ->
    0 <= i ->
    io_sample.digital_loop fuel datamask datavals currentDI retdir
      !! dio_key i
    = if (currentDI <=? i) && Z.testbit datamask (i - currentDI)
      then Some (VBool (Z.testbit datavals (i - currentDI)))
      else retdir !! dio_key i.
Proof.
  induction fuel as [|fuel IH]; intros dm dv cur ret i Hdm Hfuel Hi.
  { rewrite (bit_length_0 dm) by lia. cbn [io_sample.digital_loop].
    rewrite Z.bits_0. by rewrite andb_false_r. }
  cbn [io_sample.digital_loop].
  destruct (Z.eqb_spec dm 0) as [->|Hne].
  { rewrite Z.bits_0. by rewrite andb_false_r. }
  assert (0 < dm) as Hpos by lia.
  rewrite IH; [|by apply Z.shiftr_nonneg
               |rewrite (bit_length_shiftr dm Hpos) in Hfuel; lia|done].
  rewrite !land_1_testbit.
  change ("DIO" +:+ format_d cur) with (dio_key cur).
  destruct (Z.leb_spec (cur + 1) i) as [Hlt|Hge]; cbn [andb].
  - destruct (Z.leb_spec cur i); [|lia]. cbn [andb].
    rewrite !Z.shiftr_spec by lia.
    replace (i - (cur + 1) + 1) with (i - cur) by lia.
    destruct (Z.testbit dm (i - cur)); [done|].
    destruct (Z.testbit dm 0); [|done].
    rewrite lookup_insert_ne; [done|]. intros Hk%dio_key_inj. lia.
  - destruct (Z.leb_spec cur i) as [Hle|Hgt]; cbn [andb].
    + assert (i = cur) as -> by lia. rewrite Z.sub_diag.
      destruct (Z.testbit dm 0); [|done]. by rewrite lookup_insert_eq.
    + destruct (Z.testbit dm 0); [|done].
      rewrite lookup_insert_ne; [done|]. intros Hk%dio_key_inj. lia.
Qed.

Lemma digital_loop_other fuel :
  forall datamask datavals currentDI retdir key,
    (forall i, currentDI <= i -> key <> dio_key i) ->
    io_sample.digital_loop fuel datamask datavals currentDI retdir !! key
    = retdir !! key.
Proof.
  induction fuel as [|fuel IH]; intros dm dv cur ret key Hkey; [done|].
  cbn [io_sample.digital_loop]. destruct (dm =? 0); [done|].
  rewrite IH by (intros i Hi; apply Hkey; lia).
  destruct (negb _); [|done].
  rewrite lookup_insert_ne; [done|]. intros H. apply (Hkey cur); [lia|done].
Qed.

Lemma analog_loop_returns fuel :
  forall analogmask currentAI data retdir,
    0 <= analogmask -> (io_sample.bit_length analogmask <= fuel)%nat ->
    (exists out,
       io_sample.analog_loop fuel analogmask currentAI data retdir
       = Return out)
    <-> (2 * set_bits analogmask <= length data)%nat.
Proof.
  induction fuel as [|fuel IH]; intros am cur data ret Ham Hfuel.
  { rewrite (bit_length_0 am) by lia. cbn. split; [lia|by eexists]. }
  cbn [io_sample.analog_loop].
  destruct (Z.eqb_spec am 0) as [->|Hne].
  { cbn. split; [lia|by eexists]. }
  assert (0 < am) as Hpos by lia.
  assert (0 <= Z.shiftr am 1) as Hsh by (by apply Z.shiftr_nonneg).
  assert (io_sample.bit_length (Z.shiftr am 1) <= fuel)%nat as Hf
    by (rewrite (bit_length_shiftr am Hpos) in Hfuel; lia).
  rewrite (set_bits_shiftr am Hpos), land_1_testbit.
  destruct (Z.testbit am 0).
  - destruct data as [|hi [|lo data]].
    + cbn. split; [by intros [out H]|lia].
    + cbn. split; [by intros [out H]|lia].
    + take_word.
      rewrite IH by done. cbn [length]. lia.
  - cbn [mbind result_bind]. rewrite IH by done. lia.
Qed.

Lemma word_at_skip hi lo data n :
  word_at (hi :: lo :: data) (2 + n) = word_at data n.
Proof. reflexivity. Qed.

Lemma analog_loop_lookup fuel :
  forall analogmask currentAI data retdir out i,
    0 <= analogmask -> (io_sample.bit_length analogmask <= fuel)%nat ->
    0 <= i ->
    io_sample.analog_loop fuel analogmask currentAI data retdir = Return out ->
    out !! ad_key i
    = if (currentAI <=? i) && Z.testbit analogmask (i - currentAI)
      then Some (VInt (word_at data
                         (2 * set_bits_below analogmask
                                (Z.to_nat (i - currentAI)))))
      else retdir !! ad_key i.
Proof.
  induction fuel as [|fuel IH]; intros am cur data ret out i Ham Hfuel Hi.
  { rewrite (bit_length_0 am) by lia. cbn [io_sample.analog_loop].
    intros [= <-]. rewrite Z.bits_0. by rewrite andb_false_r. }
  cbn [io_sample.analog_loop].
  destruct (Z.eqb_spec am 0) as [->|Hne].
  { intros [= <-]. rewrite Z.bits_0. by rewrite andb_false_r. }
  assert (0 < am) as Hpos by lia.
  assert (0 <= Z.shiftr am 1) as Hsh by (by apply Z.shiftr_nonneg).
  assert (io_sample.bit_length (Z.shiftr am 1) <= fuel)%nat as Hf
    by (rewrite (bit_length_shiftr am Hpos) in Hfuel; lia).
  rewrite land_1_testbit.
  change ("AD" +:+ format_d cur) with (ad_key cur).
  assert (Hbits : cur < i ->
            Z.testbit (Z.shiftr am 1) (i - (cur + 1))
            = Z.testbit am (i - cur)).
  { intros. rewrite Z.shiftr_spec by lia. f_equal. lia. }
  assert (Hrank : cur < i ->
            set_bits_below am (Z.to_nat (i - cur))
            = ((if Z.testbit am 0 then 1 else 0)
               + set_bits_below (Z.shiftr am 1) (Z.to_nat (i - (cur + 1))))%nat).
  { intros. replace (Z.to_nat (i - cur)) with (S (Z.to_nat (i - (cur + 1))))
      by lia. apply set_bits_below_S. }
  destruct (Z.testbit am 0) eqn:Hb0.
  - destruct data as [|hi [|lo data]]; [done|done|].
    take_word.
    intros Hout. rewrite (IH _ _ _ _ _ i Hsh Hf Hi Hout).
    destruct (Z.leb_spec (cur + 1) i) as [Hlt|Hge]; cbn [andb].
    + destruct (Z.leb_spec cur i); [|lia]. cbn [andb].
      rewrite Hbits, Hrank by lia.
      destruct (Z.testbit am (i - cur)).
      * do 2 f_equal.
        replace (2 * (1 + set_bits_below (Z.shiftr am 1)
                            (Z.to_nat (i - (cur + 1)))))%nat
          with (2 + 2 * set_bits_below (Z.shiftr am 1)
                          (Z.to_nat (i - (cur + 1))))%nat by lia.
        by rewrite word_at_skip.
      * rewrite lookup_insert_ne; [done|]. intros Hk%ad_key_inj. lia.
    + destruct (Z.leb_spec cur i) as [Hle|Hgt]; cbn [andb].
      * assert (i = cur) as -> by lia. rewrite Z.sub_diag, Hb0.
        by rewrite lookup_insert_eq.
      * rewrite lookup_insert_ne; [done|]. intros Hk%ad_key_inj. lia.
  - cbn [mbind result_bind].
    intros Hout. rewrite (IH _ _ _ _ _ i Hsh Hf Hi Hout).
    destruct (Z.leb_spec (cur + 1) i) as [Hlt|Hge]; cbn [andb].
    + destruct (Z.leb_spec cur i); [|lia]. cbn [andb].
      rewrite Hbits, Hrank by lia. reflexivity.
    + destruct (Z.leb_spec cur i) as [Hle|Hgt]; cbn [andb]; [|done].
      assert (i = cur) as -> by lia. by rewrite Z.sub_diag, Hb0.
Qed.

Lemma analog_loop_other fuel :
  forall analogmask currentAI data retdir out key,
    (forall i, currentAI <= i -> key <> ad_key i) ->
    io_sample.analog_loop fuel analogmask currentAI data retdir = Return out ->
    out !! key = retdir !! key.
Proof.
  induction fuel as [|fuel IH]; intros am cur data ret out key Hkey.
  { by intros [= <-]. }
  assert (Hnext : forall i, cur + 1 <= i -> key <> ad_key i)
    by (intros i Hi; apply Hkey; lia).
  cbn [io_sample.analog_loop]. destruct (am =? 0); [by intros [= <-]|].
  destruct (negb _).
  - destruct data as [|hi [|lo data]]; [done|done|].
    take_word.
    intros Hout. rewrite (IH _ _ _ _ _ key Hnext Hout).
    rewrite lookup_insert_ne; [done|]. intros H. apply (Hkey cur); [lia|done].
  - cbn [mbind result_bind]. intros Hout.
    by rewrite (IH _ _ _ _ _ key Hnext Hout).
Qed.

Lemma word16_nonneg hi lo : 0 <= io_sample.word16 hi lo.
Proof.
  unfold io_sample.word16, io_sample.byte_val.
  apply Z.lor_nonneg. split; [apply Z.shiftl_nonneg|]; apply N2Z.is_nonneg.
Qed.

(** The part of [parse_is] after the header, on the rest of the buffer. *)
Lemma parse_channels datamask analogmask (body : list byte) :
  0 <= datamask -> 0 <= analogmask ->
  let r :=
    '(data, retdir) ←
      (if negb (datamask =? 0)
       then
         datavals ← io_sample.unpack_H (take 2 body);
         Return (drop 2 body,
                 io_sample.digital_loop (io_sample.bit_length datamask)
                   datamask datavals 0 ∅)
       else Return (body, ∅));
    io_sample.analog_loop (io_sample.bit_length analogmask) analogmask 0
      data retdir in
  ((channels_size datamask analogmask <= length body)%nat ->
   exists retdir,
     r = Return retdir /\ sample_reads datamask analogmask body retdir) /\
  ((length body < channels_size datamask analogmask)%nat ->
   r = Raise io_sample.StructError).
Proof.
  intros Hdm Ham r. subst r. unfold channels_size, sample_reads, digital_size.
  destruct (Z.eqb_spec datamask 0) as [->|Hne]; cbn [negb].
  - cbn [mbind result_bind].
    pose proof (analog_loop_returns (io_sample.bit_length analogmask)
                  analogmask 0 body ∅ Ham (Nat.le_refl _)) as Hret.
    change (0 =? 0) with true. cbv iota.
    split.
    + intros Hlen. destruct (proj2 Hret) as [out Hout]; [lia|].
      exists out. split; [done|]. split; [|split].
      * intros i Hi. rewrite Z.bits_0.
        rewrite (analog_loop_other _ _ _ _ _ _ (dio_key i)
                   ltac:(intros j _; apply dio_key_ad_key) Hout).
        apply lookup_empty.
      * intros i Hi.
        rewrite (analog_loop_lookup _ _ _ _ _ _ i Ham (Nat.le_refl _) Hi Hout).
        destruct (Z.leb_spec 0 i); [|lia]. cbn [andb].
        rewrite Z.sub_0_r, lookup_empty. reflexivity.
      * intros key Hkey.
        rewrite (analog_loop_other _ _ _ _ _ _ key
                   ltac:(intros j Hj; by apply Hkey) Hout).
        apply lookup_empty.
    + intros Hlen.
      destruct (io_sample.analog_loop _ _ _ _ _) as [[]|out] eqn:E; [done|].
      assert (2 * set_bits analogmask <= length body)%nat
        by (apply Hret; by eexists). lia.
  - destruct body as [|hi [|lo body]].
    + cbn. split; [lia|done].
    + cbn. split; [lia|done].
    + take_word; cbn [length].
      set (ret0 := io_sample.digital_loop _ _ _ _ _).
      pose proof (analog_loop_returns (io_sample.bit_length analogmask)
                    analogmask 0 body ret0 Ham (Nat.le_refl _)) as Hret.
      destruct (Z.eqb_spec datamask 0) as [|_]; [done|].
      split.
      * intros Hlen. destruct (proj2 Hret) as [out Hout]; [lia|].
        exists out. split; [done|]. split; [|split].
        -- intros i Hi.
           rewrite (analog_loop_other _ _ _ _ _ _ (dio_key i)
                      ltac:(intros j _; apply dio_key_ad_key) Hout).
           subst ret0.
           rewrite digital_loop_lookup by (done || lia).
           destruct (Z.leb_spec 0 i); [|lia]. cbn [andb].
           rewrite Z.sub_0_r, lookup_empty. reflexivity.
        -- intros i Hi.
           rewrite (analog_loop_lookup _ _ _ _ _ _ i Ham (Nat.le_refl _) Hi Hout).
           destruct (Z.leb_spec 0 i); [|lia]. cbn [andb].
           rewrite Z.sub_0_r. rewrite word_at_skip.
           destruct (Z.testbit analogmask i); [done|].
           subst ret0. rewrite digital_loop_other; [apply lookup_empty|].
           intros j _ Hk. by apply (dio_key_ad_key j i).
        -- intros key Hkey.
           rewrite (analog_loop_other _ _ _ _ _ _ key
                      ltac:(intros j Hj; by apply Hkey) Hout).
           subst ret0. rewrite digital_loop_other; [apply lookup_empty|].
           intros j Hj. by apply Hkey.
      * intros Hlen.
        destruct (io_sample.analog_loop _ _ _ _ _) as [[]|out] eqn:E; [done|].
        assert (2 * set_bits analogmask <= length body)%nat
          by (apply Hret; by eexists). lia.
Qed.

Lemma length_plus_even {A} (l : list A) k :
  (length l mod 2 = 0)%nat -> ((2 * k + length l) mod 2 =? 0)%nat = true.
Proof.
  intros H. apply Nat.eqb_eq.
  rewrite Nat.add_comm, Nat.mul_comm, Nat.Div0.mod_add. exact H.
Qed.

Lemma length_plus_odd {A} (l : list A) k :
  (length l mod 2 = 0)%nat -> ((2 * k + 1 + length l) mod 2 =? 0)%nat = false.
Proof.
  intros H. apply Nat.eqb_neq.
  replace (2 * k + 1 + length l)%nat with (1 + length l + k * 2)%nat by lia.
  rewrite Nat.Div0.mod_add.
  rewrite <- Nat.Div0.add_mod_idemp_r, H. cbn. lia.
Qed.

(** A series 2 sample (an even number of bytes: a byte, the 16-bit mask of
    the digital channels, the mask of the analog channels, then the
    values) decodes exactly when the values are all there, to the bit of
    the digital word for each enabled DIO and the following words for the
    enabled AD; a shorter one raises [struct.error]. *)
Theorem parse_is_series_2 (b0 hi lo am : byte) (body : list byte) :
  (length body mod 2 = 0)%nat ->
  let datamask := io_sample.word16 hi lo in
  let analogmask := io_sample.byte_val am in
  ((channels_size datamask analogmask <= length body)%nat ->
   exists retdir,
     io_sample.parse_is (b0 :: hi :: lo :: am :: body) = Return retdir /\
     sample_reads datamask analogmask body retdir) /\
  ((length body < channels_size datamask analogmask)%nat ->
   io_sample.parse_is (b0 :: hi :: lo :: am :: body)
   = Raise io_sample.StructError).
Proof.
  intros Heven datamask analogmask. unfold io_sample.parse_is.
  change (length (b0 :: hi :: lo :: am :: body))
    with (2 * 2 + length body)%nat.
  rewrite (length_plus_even body 2 Heven).
  take_word.
  apply parse_channels; [apply word16_nonneg|apply N2Z.is_nonneg].
Qed.

(** A series 1 sample (an odd number of bytes: a byte, a 16-bit mask whose
    low nine bits enable the digital channels and whose high seven bits the
    analog ones, then the values) decodes in the same way. *)
Theorem parse_is_series_1 (b0 hi lo : byte) (body : list byte) :
  (length body mod 2 = 0)%nat ->
  let datamask := io_sample.word16 hi lo mod 512 in
  let analogmask := Z.shiftr (io_sample.word16 hi lo) 9 in
  ((channels_size datamask analogmask <= length body)%nat ->
   exists retdir,
     io_sample.parse_is (b0 :: hi :: lo :: body) = Return retdir /\
     sample_reads datamask analogmask body retdir) /\
  ((length body < channels_size datamask analogmask)%nat ->
   io_sample.parse_is (b0 :: hi :: lo :: body)
   = Raise io_sample.StructError).
Proof.
  intros Heven datamask analogmask. unfold io_sample.parse_is.
  change (length (b0 :: hi :: lo :: body))
    with (2 * 1 + 1 + length body)%nat.
  rewrite (length_plus_odd body 1 Heven).
  take_word.
  apply parse_channels.
  - apply Z.mod_pos_bound. lia.
  - apply Z.shiftr_nonneg, word16_nonneg.
Qed.

(** A buffer of fewer than three bytes has no header: [parse_is] raises
    [struct.error]. *)
Theorem parse_is_no_header (data : list byte) :
  (length data < 3)%nat ->
  io_sample.parse_is data = Raise io_sample.StructError.
Proof.
  destruct data as [|a [|b [|c data]]]; cbn [length]; intros H;
    [reflexivity|reflexivity|reflexivity|lia].
Qed.

End SampleFacts.

Lemma parse_is_series_2_witness :
  ((channels_size (io_sample.word16 xff xf0) (io_sample.byte_val x0f)
    <= length (drop 4 test_sample))%nat ->
   exists retdir,
     io_sample.parse_is (x01 :: xff :: xf0 :: x0f :: drop 4 test_sample)
     = Return retdir /\
     sample_reads (io_sample.word16 xff xf0) (io_sample.byte_val x0f)
       (drop 4 test_sample) retdir) /\
  ((length (drop 4 test_sample)
    < channels_size (io_sample.word16 xff xf0) (io_sample.byte_val x0f))%nat ->
   io_sample.parse_is (x01 :: xff :: xf0 :: x0f :: drop 4 test_sample)
   = Raise io_sample.StructError).
Proof.
  apply (parse_is_series_2 x01 xff xf0 x0f (drop 4 test_sample)).
  reflexivity.
Defined.

Lemma parse_is_series_1_witness :
  ((channels_size (io_sample.word16 x04 x09 mod 512)
      (Z.shiftr (io_sample.word16 x04 x09) 9)
    <= length (drop 3 series_1_sample))%nat ->
   exists retdir,
     io_sample.parse_is (x01 :: x04 :: x09 :: drop 3 series_1_sample)
     = Return retdir /\
     sample_reads (io_sample.word16 x04 x09 mod 512)
       (Z.shiftr (io_sample.word16 x04 x09) 9)
       (drop 3 series_1_sample) retdir) /\
  ((length (drop 3 series_1_sample)
    < channels_size (io_sample.word16 x04 x09 mod 512)
        (Z.shiftr (io_sample.word16 x04 x09) 9))%nat ->
   io_sample.parse_is (x01 :: x04 :: x09 :: drop 3 series_1_sample)
   = Raise io_sample.StructError).
Proof.
  apply (parse_is_series_1 x01 x04 x09 (drop 3 series_1_sample)).
  reflexivity.
Defined.

Lemma parse_is_no_header_witness :
  io_sample.parse_is [x01; xff] = Raise io_sample.StructError.
Proof. apply (parse_is_no_header [x01; xff]). cbn. lia. Defined.

(** The series 1 sample read by the decoder. *)
Lemma parse_is_series_1_sample :
  io_sample.parse_is series_1_sample
  = Return (list_to_map
      [ ("DIO0", VBool false); ("DIO3", VBool true); ("AD1", VInt 0x029a) ]).
Proof. vm_compute. reflexivity. Qed.

Section SampleReports.
Implicit Types (self : manager.XBeeEventManager) (addr : Address.t).

Lemma append_cancel (s a b : string) : s +:+ a = s +:+ b -> a = b.
Proof.
  induction s as [|c s IH]; [done|]. intros H. injection H as H. by apply IH.
Qed.

Lemma filter_key_inj addr k1 k2 : filter_key addr k1 = filter_key addr k2 -> k1 = k2.
Proof.
  unfold filter_key. intros H%append_cancel. by apply (append_cancel " - ").
Qed.

(** One item of the loop: dropped, or published and recorded. *)
Lemma process_item_eq addr item self :
  manager.process_item addr item self
  = if drops self addr item
    then (Return tt, self)
    else (Return tt,
          manager.Build (manager.get_setting self) (manager.tx_callbacks self)
            (<[filter_key addr item.1 := item.2]> (manager._last_report self))
            (Effects (puts (manager.out self))
               (sendto_calls (manager.out self))
               (published (manager.out self) ++ [report_message addr item]))).
Proof.
  destruct item as [key v]. unfold manager.process_item, drops, report_message.
  cbn [fst snd].
  destruct (String.prefix "AD" key).
  { rewrite process_analog_eq. reflexivity. }
  destruct (String.prefix "DIO" key); [|reflexivity].
  rewrite process_digital_eq. reflexivity.
Qed.

Lemma drops_same addr item self self' :
  manager.get_setting self' = manager.get_setting self ->
  manager._last_report self' !! filter_key addr item.1
  = manager._last_report self !! filter_key addr item.1 ->
  drops self' addr item = drops self addr item.
Proof. intros Hs Hc. unfold drops. by rewrite Hs, Hc. Qed.

(** The loop returns; it keeps the settings, the table and what was put
    and sent, and touches the cache at the keys of its items only. *)
Lemma process_items_frame addr items :
  forall self, exists self',
    manager.process_items addr items self = (Return tt, self') /\
    manager.get_setting self' = manager.get_setting self /\
    manager.tx_callbacks self' = manager.tx_callbacks self /\
    puts (manager.out self') = puts (manager.out self) /\
    sendto_calls (manager.out self') = sendto_calls (manager.out self) /\
    (forall key, key ∉ items.*1 ->
       manager._last_report self' !! filter_key addr key
       = manager._last_report self !! filter_key addr key).
Proof.
  induction items as [|item items IH]; intros self.
  { exists self. by repeat split. }
  cbn [manager.process_items]. unfold mbind, M_bind, bind.
  rewrite process_item_eq.
  destruct (drops self addr item).
  - destruct (IH self) as (self' & -> & Hs & Ht & Hp & Hq & Hc).
    exists self'. repeat split; try done.
    intros key Hkey. apply Hc. intros Hin. apply Hkey.
    rewrite fmap_cons. apply elem_of_cons; by right.
  - destruct (IH (manager.Build (manager.get_setting self)
                    (manager.tx_callbacks self)
                    (<[filter_key addr item.1 := item.2]>
                       (manager._last_report self))
                    (Effects (puts (manager.out self))
                       (sendto_calls (manager.out self))
                       (published (manager.out self)
                        ++ [report_message addr item]))))
      as (self' & -> & Hs & Ht & Hp & Hq & Hc).
    exists self'. repeat split; try done.
    intros key Hkey. rewrite fmap_cons in Hkey.
    apply not_elem_of_cons in Hkey as [Hne Hkey].
    rewrite (Hc key Hkey). cbn [manager._last_report].
    apply lookup_insert_ne. intros Heq%filter_key_inj. done.
Qed.

(** A reading that has just gone through the loop is dropped when it
    comes again. *)
Lemma drops_after_item addr item self :
  filters_on (manager.get_setting self) ->
  drops (manager.process_item addr item self).2 addr item = true.
Proof.
  intros (Ha & Hd & Hmin). rewrite process_item_eq.
  destruct (drops self addr item) eqn:E; cbn [snd]; [exact E|].
  unfold drops. cbn [manager.get_setting manager._last_report].
  rewrite lookup_insert_eq, Ha, Hd.
  rewrite Z.sub_diag, Z.eqb_refl. change (Z.abs 0) with 0. cbn [andb].
  destruct (Z.ltb_spec 0 (manager.minimum_analog_change
                            (manager.get_setting self))); [|lia].
  by repeat destruct (String.prefix _ _).
Qed.

Lemma process_item_setting addr item self :
  manager.get_setting (manager.process_item addr item self).2
  = manager.get_setting self.
Proof. rewrite process_item_eq. by destruct (drops self addr item). Qed.

Lemma process_items_settle addr items :
  forall self self',
    NoDup items.*1 ->
    filters_on (manager.get_setting self) ->
    manager.process_items addr items self = (Return tt, self') ->
    Forall (fun item => drops self' addr item = true) items.
Proof.
  induction items as [|item items IH]; intros self self' Hnd Hon Hrun;
    [constructor|].
  rewrite fmap_cons in Hnd. apply NoDup_cons in Hnd as [Hnotin Hnd].
  cbn [manager.process_items] in Hrun. unfold mbind, M_bind, bind in Hrun.
  pose proof (drops_after_item addr item self Hon) as Hdrop.
  pose proof (process_item_setting addr item self) as Hset.
  destruct (manager.process_item addr item self) as [[e|[]] self1] eqn:E.
  { rewrite process_item_eq in E. by destruct (drops self addr item). }
  cbn [snd] in Hdrop, Hset.
  assert (Hon1 : filters_on (manager.get_setting self1)) by (by rewrite Hset).
  constructor; [|by eapply IH].
  destruct (process_items_frame addr items self1)
    as (self2 & Hrun2 & Hs & _ & _ & _ & Hc).
  rewrite Hrun in Hrun2. injection Hrun2 as <-.
  rewrite <- Hdrop. apply drops_same; [done|]. by apply Hc.
Qed.

Lemma process_items_silent addr items self :
  Forall (fun item => drops self addr item = true) items ->
  manager.process_items addr items self = (Return tt, self).
Proof.
  induction 1 as [|item items Hd _ IH]; [done|].
  cbn [manager.process_items]. unfold mbind, M_bind, bind.
  by rewrite process_item_eq, Hd.
Qed.

(** With both filters on, a sample that comes a second time publishes
    nothing: [handle_io] leaves the manager as the first pass left it. *)
Theorem repeated_sample_is_silent addr (data : list byte) self self' :
  filters_on (manager.get_setting self) ->
  manager.handle_io addr data self = (Return tt, self') ->
  manager.handle_io addr data self' = (Return tt, self').
Proof.
  intros Hon. unfold manager.handle_io.
  destruct (io_sample.parse_is data) as [e|iodata]; [done|].
  intros Hrun. apply process_items_silent.
  eapply process_items_settle; [|exact Hon|exact Hrun].
  apply NoDup_fst_map_to_list.
Qed.

Lemma prefix_append (s t : string) : String.prefix s (s +:+ t) = true.
Proof.
  induction s as [|c s IH]; [by destruct t|].
  change (String c s +:+ t) with (String c (s +:+ t)).
  cbn [String.prefix]. destruct (ascii_dec c c); [exact IH|done].
Qed.

Lemma digital_loop_prefix fuel :
  forall datamask datavals currentDI retdir key,
    String.prefix "DIO" key = false ->
    io_sample.digital_loop fuel datamask datavals currentDI retdir !! key
    = retdir !! key.
Proof.
  induction fuel as [|fuel IH]; intros dm dv cur ret key Hkey; [done|].
  cbn [io_sample.digital_loop]. destruct (dm =? 0); [done|].
  rewrite IH by done. destruct (negb _); [|done].
  apply lookup_insert_ne. intros <-.
  by rewrite (prefix_append "DIO") in Hkey.
Qed.

Lemma analog_loop_prefix fuel :
  forall analogmask currentAI data retdir out key,
    String.prefix "AD" key = false ->
    io_sample.analog_loop fuel analogmask currentAI data retdir = Return out ->
    out !! key = retdir !! key.
Proof.
  induction fuel as [|fuel IH]; intros am cur data ret out key Hkey.
  { by intros [= <-]. }
  cbn [io_sample.analog_loop]. destruct (am =? 0); [by intros [= <-]|].
  destruct (negb _).
  - destruct (io_sample.unpack_H (take 2 data)) as [e|aval]; [done|].
    cbn [mbind result_bind]. intros Hout.
    rewrite (IH _ _ _ _ _ key Hkey Hout).
    apply lookup_insert_ne. intros <-.
    by rewrite (prefix_append "AD") in Hkey.
  - cbn [mbind result_bind]. intros Hout.
    by rewrite (IH _ _ _ _ _ key Hkey Hout).
Qed.

(** Every key of a decoded sample starts with AD or with DIO. *)
Lemma parse_is_keys (data : list byte) iodata key :
  io_sample.parse_is data = Return iodata ->
  is_Some (iodata !! key) ->
  String.prefix "AD" key = true \/ String.prefix "DIO" key = true.
Proof.
  intros Hparse Hkey.
  destruct (String.prefix "AD" key) eqn:Ha; [by left|].
  destruct (String.prefix "DIO" key) eqn:Hd; [by right|].
  exfalso. revert Hparse. unfold io_sample.parse_is.
  set (header := if (length data mod 2 =? 0)%nat then _ else _).
  destruct header as [e|[[datamask analogmask] rest]]; [done|].
  cbn [mbind result_bind].
  destruct (negb (datamask =? 0)).
  - destruct (io_sample.unpack_H (take 2 rest)) as [e|datavals]; [done|].
    cbn [mbind result_bind]. intros Hout.
    rewrite (analog_loop_prefix _ _ _ _ _ _ key Ha Hout) in Hkey.
    rewrite digital_loop_prefix in Hkey by done.
    rewrite lookup_empty in Hkey. by destruct Hkey.
  - cbn [mbind result_bind]. intros Hout.
    rewrite (analog_loop_prefix _ _ _ _ _ _ key Ha Hout) in Hkey.
    rewrite lookup_empty in Hkey. by destruct Hkey.
Qed.

Lemma process_items_first addr items :
  forall self,
    NoDup items.*1 ->
    Forall (fun item => String.prefix "AD" item.1 = true \/
                        String.prefix "DIO" item.1 = true) items ->
    (forall key, key ∈ items.*1 ->
       manager._last_report self !! filter_key addr key = None) ->
    exists self',
      manager.process_items addr items self = (Return tt, self') /\
      published (manager.out self')
      = published (manager.out self) ++ map (report_message addr) items /\
      (forall item, item ∈ items ->
         manager._last_report self' !! filter_key addr item.1 = Some item.2).
Proof.
  induction items as [|item items IH]; intros self Hnd Hpre Hnone.
  { exists self. split; [done|]. split; [by rewrite app_nil_r|].
    intros item Hin. by apply elem_of_nil in Hin. }
  rewrite fmap_cons in Hnd. apply NoDup_cons in Hnd as [Hnotin Hnd].
  apply Forall_cons in Hpre as [Hitem Hpre].
  cbn [manager.process_items]. unfold mbind, M_bind, bind.
  rewrite process_item_eq.
  assert (Hdrop : drops self addr item = false).
  { unfold drops. cbv zeta.
    rewrite (Hnone item.1) by (rewrite fmap_cons; apply elem_of_cons; by left).
    rewrite !andb_false_r. by destruct Hitem as [-> | ->];
      [|destruct (String.prefix "AD" item.1)]. }
  rewrite Hdrop.
  set (self1 := manager.Build _ _ _ _).
  destruct (IH self1 Hnd Hpre) as (self' & Hrun & Hpub & Hcache).
  { intros key Hin. subst self1. cbn [manager._last_report].
    rewrite lookup_insert_ne.
    - apply Hnone. rewrite fmap_cons. apply elem_of_cons; by right.
    - intros Heq%filter_key_inj. by subst key. }
  exists self'. split; [exact Hrun|]. split.
  { rewrite Hpub. subst self1. cbn [manager.out published map].
    by rewrite <- app_assoc. }
  intros it [->|Hin]%elem_of_cons; [|by apply Hcache].
  destruct (process_items_frame addr items self1)
    as (self2 & Hrun2 & _ & _ & _ & _ & Hc).
  rewrite Hrun in Hrun2. injection Hrun2 as <-.
  rewrite (Hc item.1 Hnotin). subst self1. cbn [manager._last_report].
  apply lookup_insert_eq.
Qed.

(** A sample of channels none of which has been reported yet is published
    in full, in whatever order its items are walked: the loop of
    [handle_io] sends one message for each channel of the sample, analog
    channels on [xbee.analog] and digital ones on [xbee.digitalIn], in the
    order of the walk, records each value as the last report of its
    channel, and puts or sends nothing.  So the messages [handle_io]
    publishes are those of the sample up to their order. *)
Theorem first_sample_published addr (data : list byte) iodata self :
  io_sample.parse_is data = Return iodata ->
  (forall key, is_Some (iodata !! key) ->
     manager._last_report self !! filter_key addr key = None) ->
  (forall items, items ≡ₚ map_to_list iodata ->
     exists self',
       manager.process_items addr items self = (Return tt, self') /\
       published (manager.out self')
       = published (manager.out self) ++ map (report_message addr) items /\
       (forall key v, iodata !! key = Some v ->
          manager._last_report self' !! filter_key addr key = Some v) /\
       puts (manager.out self') = puts (manager.out self) /\
       sendto_calls (manager.out self') = sendto_calls (manager.out self)) /\
  (exists self' new,
     manager.handle_io addr data self = (Return tt, self') /\
     published (manager.out self') = published (manager.out self) ++ new /\
     new ≡ₚ map (report_message addr) (map_to_list iodata) /\
     (forall key v, iodata !! key = Some v ->
        manager._last_report self' !! filter_key addr key = Some v) /\
     puts (manager.out self') = puts (manager.out self) /\
     sendto_calls (manager.out self') = sendto_calls (manager.out self)).
Proof.
  intros Hparse Hnone.
  assert (Hany : forall items, items ≡ₚ map_to_list iodata ->
            exists self',
              manager.process_items addr items self = (Return tt, self') /\
              published (manager.out self')
              = published (manager.out self)
                ++ map (report_message addr) items /\
              (forall key v, iodata !! key = Some v ->
                 manager._last_report self' !! filter_key addr key = Some v) /\
              puts (manager.out self') = puts (manager.out self) /\
              sendto_calls (manager.out self')
              = sendto_calls (manager.out self)).
  { intros items Hperm.
    destruct (process_items_first addr items self)
      as (self' & Hrun & Hpub & Hcache).
    - rewrite Hperm. apply NoDup_fst_map_to_list.
    - apply Forall_forall. intros [key v] Hin. rewrite Hperm in Hin.
      apply elem_of_map_to_list in Hin.
      apply (parse_is_keys data iodata key Hparse). by eexists.
    - intros key ([k v] & -> & Hin)%list_elem_of_fmap.
      rewrite Hperm in Hin. apply elem_of_map_to_list in Hin.
      apply Hnone. by eexists.
    - destruct (process_items_frame addr items self)
        as (self2 & Hrun2 & _ & _ & Hp & Hq & _).
      rewrite Hrun in Hrun2. injection Hrun2 as <-.
      exists self'. split; [exact Hrun|]. split; [exact Hpub|].
      split; [|by split].
      intros key v Hkv. apply (Hcache (key, v)). rewrite Hperm.
      by apply elem_of_map_to_list. }
  split; [exact Hany|].
  destruct (Hany (map_to_list iodata) ltac:(reflexivity))
    as (self' & Hrun & Hpub & Hcache & Hp & Hq).
  exists self', (map (report_message addr) (map_to_list iodata)).
  unfold manager.handle_io. rewrite Hparse.
  split; [exact Hrun|]. split; [exact Hpub|]. split; [reflexivity|].
  split; [exact Hcache|]. by split.
Qed.

End SampleReports.

Lemma repeated_sample_is_silent_witness :
  manager.handle_io node counting_sample sampled_once
  = (Return tt, sampled_once).
Proof.
  apply (repeated_sample_is_silent node counting_sample
           (manager.init by_tens) sampled_once).
  - vm_compute. repeat split; discriminate.
  - unfold sampled_once.
    destruct (manager.handle_io node counting_sample (manager.init by_tens))
      as [[e|[]] s] eqn:E; [|reflexivity].
    vm_compute in E. discriminate E.
Defined.

Lemma first_sample_published_witness :
  (forall items, items ≡ₚ map_to_list counting_readings ->
     exists self',
       manager.process_items node items (manager.init by_tens)
       = (Return tt, self') /\
       published (manager.out self')
       = published (manager.out (manager.init by_tens))
         ++ map (report_message node) items /\
       (forall key v, counting_readings !! key = Some v ->
          manager._last_report self' !! filter_key node key = Some v) /\
       puts (manager.out self') = puts (manager.out (manager.init by_tens)) /\
       sendto_calls (manager.out self')
       = sendto_calls (manager.out (manager.init by_tens))) /\
  (exists self' new,
     manager.handle_io node counting_sample (manager.init by_tens)
     = (Return tt, self') /\
     published (manager.out self')
     = published (manager.out (manager.init by_tens)) ++ new /\
     new ≡ₚ map (report_message node) (map_to_list counting_readings) /\
     (forall key v, counting_readings !! key = Some v ->
        manager._last_report self' !! filter_key node key = Some v) /\
     puts (manager.out self') = puts (manager.out (manager.init by_tens)) /\
     sendto_calls (manager.out self')
     = sendto_calls (manager.out (manager.init by_tens))).
Proof.
  apply (first_sample_published node counting_sample counting_readings
           (manager.init by_tens)).
  - vm_compute. reflexivity.
  - intros key _. apply lookup_empty.
Defined.

Section SerialRejected.
Variable pf : platform.
Variable env : socket_env manager.dest.

Lemma serial_reply_error response code desc hint self :
  manager.errors !! code = Some desc ->
  (e ← error_response code manager.errors hint;
   manager.put response (Immediate (VElement e))) self
  = (Return tt,
     serial_replied self response
       (error_element code desc (if rci.truthy hint then hint else None))).
Proof.
  intros Hdesc. run_method.
  by rewrite (error_response_some _ _ _ _ _ Hdesc).
Qed.

(** A [send_serial] request that is turned down (no address or one that
    does not normalise, text that is not base64, an unknown encoding) gets
    exactly one immediate error reply; the listener takes no id, sends
    nothing and publishes nothing. *)
Theorem send_serial_rejected element response self :
  serial_turned_down pf element ->
  exists e code,
    manager.send_serial_listener pf env element response self
    = (Return tt, serial_replied self response e) /\
    error_id e = Some code /\
    In code ["missingattr"; "address"; "base64"; "encoding"].
Proof.
  unfold serial_turned_down, serial_address, serial_payload,
    manager.send_serial_listener.
  intros Hbad.
  destruct (attrib element !! "addr") as [[|c addr]|] eqn:Haddr.
  - eexists _, _. split; [by apply serial_reply_error|].
    split; [apply error_id_error_element|]. cbn. tauto.
  - set (a := if String.eqb (String c addr) "broadcast" then _ else _) in *.
    destruct (normalize_ieee_address (PyStr a)) as [[m|m]|n] eqn:Hn.
    + eexists _, _. split; [by apply serial_reply_error|].
      split; [apply error_id_error_element|]. cbn. tauto.
    + unfold normalize_ieee_address in Hn. cbn [mbind result_bind] in Hn.
      repeat destruct (_ && _)%bool in Hn; try discriminate Hn.
      destruct (_ <? _)%nat in Hn; discriminate Hn.
    + destruct Hbad as [Hbad|[Hpay Henc]]; [discriminate Hbad|].
      destruct (String.eqb _ "base64").
      * rewrite Hpay. eexists _, _. split; [by apply serial_reply_error|].
        split; [apply error_id_error_element|]. cbn. tauto.
      * destruct (String.eqb_spec
                    (default "base64" (attrib element !! "encoding")) "utf-8")
          as [Heq|_]; [done|].
        eexists _, _. split; [by apply serial_reply_error|].
        split; [apply error_id_error_element|]. cbn. tauto.
  - eexists _, _. split; [by apply serial_reply_error|].
    split; [apply error_id_error_element|]. cbn. tauto.
Qed.

End SerialRejected.

Lemma send_serial_rejected_witness :
  exists e code,
    manager.send_serial_listener gateway ready_serial rot13_element 7%nat
      (manager.init by_tens)
    = (Return tt, serial_replied (manager.init by_tens) 7%nat e) /\
    error_id e = Some code /\
    In code ["missingattr"; "address"; "base64"; "encoding"].
Proof.
  apply (send_serial_rejected gateway ready_serial rot13_element 7%nat
           (manager.init by_tens)).
  right. split; [reflexivity|]. vm_compute. discriminate.
Defined.

Section RoundRobin.
Context {A : Type}.
Implicit Types (l : list (option A)) (self : TxStatusCallbacks.t A).

Lemma index_of_None_before l p q :
  index_of_None l = Some p -> (q < p)%nat -> exists x, l !! q = Some (Some x).
Proof.
  revert p q. induction l as [|[x|] l IH]; intros p q; cbn; [done| |].
  - destruct (index_of_None l) as [p'|] eqn:Hp; [|done].
    intros [= <-] Hq. destruct q as [|q]; [by eexists|].
    cbn. apply (IH p'); [done|lia].
  - intros [= <-] Hq. lia.
Qed.

(** The id found is the one at the position of the first empty entry of
    the list scanned, and that position is its distance from the cursor. *)
Lemma next_index_position self i :
  TxStatusCallbacks.wf self ->
  TxStatusCallbacks._next_index self = i -> i <> 0 ->
  exists p,
    index_of_None
      (drop (Z.to_nat (TxStatusCallbacks._baseindex self))
         (TxStatusCallbacks._callbacks self)
       ++ py_slice (TxStatusCallbacks._callbacks self) 1
            (Z.to_nat (TxStatusCallbacks._baseindex self))) = Some p /\
    Z.of_nat p = steps_from_cursor self i.
Proof.
  intros Hwf. pose proof Hwf as [Hmax Hlen Hbase].
  unfold TxStatusCallbacks._next_index, steps_from_cursor.
  rewrite (wf_start _ Hwf).
  set (cbs := TxStatusCallbacks._callbacks self) in *.
  set (b := TxStatusCallbacks._baseindex self) in *.
  set (n := TxStatusCallbacks.max_id self) in *.
  destruct (index_of_None _) as [p|] eqn:Hp; [|by intros <-].
  pose proof (index_of_None_lookup _ _ Hp) as Hl.
  apply lookup_lt_Some in Hl. rewrite scan_list_length in Hl by lia.
  rewrite scan_list_length by lia.
  replace (Z.of_nat (length cbs - 1)) with n by lia.
  destruct (Z.gtb_spec (Z.of_nat p + b) n) as [Hgt|Hle]; intros <- _;
    exists p; (split; [done|]).
  - replace ((Z.of_nat p + b) mod n) with (Z.of_nat p + b - n)
      by (apply (Z.mod_unique_pos _ _ 1); lia).
    apply (Z.mod_unique_pos _ _ (-1)); lia.
  - replace (Z.of_nat p + b - b) with (Z.of_nat p) by lia.
    symmetry. apply Z.mod_small. lia.
Qed.

(** An empty slot sits at its distance from the cursor in the list
    scanned. *)
Lemma scan_list_steps self j :
  TxStatusCallbacks.wf self ->
  1 <= j <= TxStatusCallbacks.max_id self ->
  (drop (Z.to_nat (TxStatusCallbacks._baseindex self))
     (TxStatusCallbacks._callbacks self)
   ++ py_slice (TxStatusCallbacks._callbacks self) 1
        (Z.to_nat (TxStatusCallbacks._baseindex self)))
    !! Z.to_nat (steps_from_cursor self j)
  = Some (TxStatusCallbacks.slot self j).
Proof.
  intros Hwf Hj. pose proof Hwf as [Hmax Hlen Hbase].
  rewrite <- (slot_lookup self j Hwf) by lia.
  unfold steps_from_cursor.
  set (cbs := TxStatusCallbacks._callbacks self) in *.
  set (b := TxStatusCallbacks._baseindex self) in *.
  set (n := TxStatusCallbacks.max_id self) in *.
  destruct (Z_le_gt_dec b j) as [Hbj|Hbj].
  - rewrite Z.mod_small by lia. rewrite scan_list_front by lia.
    f_equal. lia.
  - replace ((j - b) mod n) with (j - b + n)
      by (apply (Z.mod_unique_pos _ _ (-1)); lia).
    replace (Z.to_nat (j - b + n))
      with (length cbs - Z.to_nat b + (Z.to_nat j - 1))%nat by lia.
    rewrite scan_list_back by lia. f_equal. lia.
Qed.

(** The policy: the id allocated is the empty slot met first from the
    cursor. *)
Lemma add_callback_nearest self listener txid t j :
  TxStatusCallbacks.wf self ->
  TxStatusCallbacks.add_callback self listener = (Return txid, t) ->
  1 <= j <= TxStatusCallbacks.max_id self ->
  TxStatusCallbacks.slot self j = None ->
  steps_from_cursor self txid <= steps_from_cursor self j.
Proof.
  intros Hwf Hadd Hj Hfree. pose proof Hwf as [Hmax Hlen Hbase].
  unfold TxStatusCallbacks.add_callback in Hadd.
  destruct (Z.eqb_spec (TxStatusCallbacks._next_index self) 0) as [|Hnz];
    [done|].
  injection Hadd as <- _.
  destruct (next_index_position self _ Hwf eq_refl Hnz) as (p & Hp & <-).
  pose proof (scan_list_steps self j Hwf Hj) as Hl. rewrite Hfree in Hl.
  assert (0 <= steps_from_cursor self j)
    by (apply Z.mod_pos_bound; lia).
  destruct (Z_le_gt_dec (Z.of_nat p) (steps_from_cursor self j)); [done|].
  destruct (index_of_None_before _ p (Z.to_nat (steps_from_cursor self j)) Hp)
    as [x Hx]; [lia|]. rewrite Hx in Hl. discriminate Hl.
Qed.

Lemma steps_from_cursor_inj self a b :
  TxStatusCallbacks.wf self ->
  1 <= a <= TxStatusCallbacks.max_id self ->
  1 <= b <= TxStatusCallbacks.max_id self ->
  steps_from_cursor self a = steps_from_cursor self b -> a = b.
Proof.
  intros [Hmax _ Hbase] Ha Hb. unfold steps_from_cursor.
  set (c := TxStatusCallbacks._baseindex self) in *.
  set (n := TxStatusCallbacks.max_id self) in *.
  intros H.
  assert (Hmod : forall i, 1 <= i <= n ->
            (i - c) mod n = if Z_le_gt_dec c i then i - c else i - c + n).
  { intros i Hi. destruct (Z_le_gt_dec c i).
    - apply Z.mod_small. lia.
    - symmetry. apply (Z.mod_unique_pos _ _ (-1)); lia. }
  rewrite !Hmod in H by done.
  destruct (Z_le_gt_dec c a), (Z_le_gt_dec c b); lia.
Qed.

Lemma remove_callback_ok self k :
  TxStatusCallbacks.wf self -> 1 <= k <= TxStatusCallbacks.max_id self ->
  let t := snd (TxStatusCallbacks.remove_callback self k) in
  TxStatusCallbacks.wf t /\
  TxStatusCallbacks.max_id t = TxStatusCallbacks.max_id self /\
  TxStatusCallbacks._baseindex t = TxStatusCallbacks._baseindex self /\
  TxStatusCallbacks.slot t k = None /\
  (forall j, j <> k -> 1 <= j ->
     TxStatusCallbacks.slot t j = TxStatusCallbacks.slot self j).
Proof.
  intros Hwf Hk. pose proof Hwf as [Hmax Hlen Hbase].
  unfold TxStatusCallbacks.remove_callback.
  replace ((k <=? 0) || (k >? TxStatusCallbacks.max_id self)) with false
    by (symmetry; apply orb_false_intro; lia).
  cbn [snd]. split; [|split; [done|split; [done|split]]].
  - constructor; cbn; [done|by rewrite length_insert|done].
  - unfold TxStatusCallbacks.slot. cbn.
    by rewrite list_lookup_insert_eq by lia.
  - intros j Hne Hj. unfold TxStatusCallbacks.slot. cbn.
    rewrite list_lookup_insert_ne by lia. done.
Qed.

(** From a table whose only empty slots are [a] and [b], the two next
    allocations return the one met first from the cursor and then the
    other. *)
Lemma two_free_in_scan_order self a b (l1 l2 : A) :
  TxStatusCallbacks.wf self ->
  1 <= a <= TxStatusCallbacks.max_id self ->
  1 <= b <= TxStatusCallbacks.max_id self ->
  TxStatusCallbacks.slot self a = None ->
  TxStatusCallbacks.slot self b = None ->
  (forall j, 1 <= j <= TxStatusCallbacks.max_id self -> j <> a -> j <> b ->
     is_Some (TxStatusCallbacks.slot self j)) ->
  steps_from_cursor self a < steps_from_cursor self b ->
  let r1 := TxStatusCallbacks.add_callback self l1 in
  let r2 := TxStatusCallbacks.add_callback (snd r1) l2 in
  fst r1 = Return a /\ fst r2 = Return b.
Proof.
  intros Hwf Ha Hb Hfa Hfb Hrest Hlt.
  destruct (add_callback_total self l1 a Hwf Ha Hfa) as (x & t & Hadd).
  destruct (add_callback_spec self l1 x t Hwf Hadd)
    as (Hx & Hfx & Hnew & Hothers & Hmax & _ & Hwft).
  pose proof (add_callback_nearest self l1 x t a Hwf Hadd Ha Hfa) as Hnear.
  assert (x = a) as ->.
  { destruct (decide (x = a)) as [|Hna]; [done|].
    destruct (decide (x = b)) as [->|Hnb]; [lia|].
    destruct (Hrest x Hx Hna Hnb) as [y Hy]. rewrite Hy in Hfx. done. }
  assert (a <> b) as Hab by (intros ->; lia).
  cbn zeta. rewrite Hadd. cbn [fst snd]. split; [done|].
  assert (Hfb' : TxStatusCallbacks.slot t b = None)
    by (rewrite Hothers by done; exact Hfb).
  destruct (add_callback_total t l2 b Hwft ltac:(lia) Hfb') as (y & t2 & Hadd2).
  destruct (add_callback_spec t l2 y t2 Hwft Hadd2) as (Hy & Hfy & _).
  rewrite Hadd2. cbn [fst]. f_equal.
  destruct (decide (y = b)) as [|Hnb]; [done|].
  destruct (decide (y = a)) as [->|Hna].
  { rewrite Hnew in Hfy. done. }
  rewrite Hothers in Hfy by done.
  destruct (Hrest y ltac:(lia) Hna Hnb) as [z Hz]. rewrite Hz in Hfy. done.
Qed.

(** The release of two slots of a full table, in either order. *)
Lemma released_two self a b :
  TxStatusCallbacks.wf self -> TxStatusCallbacks.full self ->
  1 <= a <= TxStatusCallbacks.max_id self ->
  1 <= b <= TxStatusCallbacks.max_id self ->
  let t := released self a b in
  TxStatusCallbacks.wf t /\
  TxStatusCallbacks.max_id t = TxStatusCallbacks.max_id self /\
  TxStatusCallbacks._baseindex t = TxStatusCallbacks._baseindex self /\
  TxStatusCallbacks.slot t a = None /\
  TxStatusCallbacks.slot t b = None /\
  (forall j, 1 <= j <= TxStatusCallbacks.max_id self -> j <> a -> j <> b ->
     is_Some (TxStatusCallbacks.slot t j)).
Proof.
  intros Hwf Hfull Ha Hb. unfold released.
  destruct (remove_callback_ok self a Hwf Ha) as (Hwf1 & Hm1 & Hb1 & Hs1 & Ho1).
  set (s1 := snd (TxStatusCallbacks.remove_callback self a)) in *.
  destruct (remove_callback_ok s1 b Hwf1 ltac:(lia))
    as (Hwf2 & Hm2 & Hb2 & Hs2 & Ho2).
  cbn zeta. split; [done|]. split; [congruence|]. split; [congruence|].
  split; [|split; [done|]].
  - destruct (decide (a = b)) as [->|Hne]; [done|].
    rewrite Ho2 by lia. done.
  - intros j Hj Hja Hjb. rewrite Ho2, Ho1 by lia. by apply Hfull.
Qed.

(** Allocations in a row from a table whose slots above [k] are empty
    and whose cursor is at [k + 1]: they fill the slots up to
    [k + length listeners] and leave the cursor after the last of them. *)
Lemma fill_in_order (listeners : list A) :
  forall self k,
    TxStatusCallbacks.wf self -> 0 <= k ->
    k + Z.of_nat (length listeners) <= TxStatusCallbacks.max_id self ->
    TxStatusCallbacks._baseindex self
    = k mod TxStatusCallbacks.max_id self + 1 ->
    (forall j, k < j <= TxStatusCallbacks.max_id self ->
       TxStatusCallbacks.slot self j = None) ->
    let t := fold_left (fun t cb => snd (TxStatusCallbacks.add_callback t cb))
               listeners self in
    TxStatusCallbacks.wf t /\
    TxStatusCallbacks.max_id t = TxStatusCallbacks.max_id self /\
    TxStatusCallbacks._baseindex t
    = (k + Z.of_nat (length listeners)) mod TxStatusCallbacks.max_id self + 1 /\
    (forall j, k < j <= k + Z.of_nat (length listeners) ->
       is_Some (TxStatusCallbacks.slot t j)) /\
    (forall j, 1 <= j <= k ->
       TxStatusCallbacks.slot t j = TxStatusCallbacks.slot self j).
Proof.
  induction listeners as [|x rest IH]; intros self k Hwf Hk Hlen Hcur Hfree.
  { cbn. rewrite Z.add_0_r. split; [done|]. split; [done|]. split; [done|].
    split; [intros j Hj; lia|done]. }
  cbn [length] in Hlen. pose proof Hwf as [Hmax _ _].
  assert (Hkn : k mod TxStatusCallbacks.max_id self = k)
    by (apply Z.mod_small; lia).
  rewrite Hkn in Hcur.
  pose proof (add_callback_cursor self x Hwf) as Hat.
  rewrite Hcur in Hat. specialize (Hat (Hfree (k + 1) ltac:(lia))).
  cbn [fold_left].
  destruct (TxStatusCallbacks.add_callback self x) as [r t0] eqn:Hadd.
  cbn [fst snd] in *. subst r.
  destruct (add_callback_spec self x _ t0 Hwf Hadd)
    as (_ & _ & Hnew & Hothers & Hmax0 & Hbase0 & Hwf0).
  assert (Hcur0 : TxStatusCallbacks._baseindex t0
                  = (k + 1) mod TxStatusCallbacks.max_id t0 + 1).
  { rewrite Hbase0, Hcur, Hmax0.
    destruct (Z.gtb_spec (k + 1 + 1) (TxStatusCallbacks.max_id self)).
    - replace (k + 1) with (TxStatusCallbacks.max_id self) by lia.
      by rewrite Z.mod_same by lia.
    - rewrite Z.mod_small by lia. done. }
  destruct (IH t0 (k + 1) Hwf0 ltac:(lia) ltac:(lia) Hcur0)
    as (Hwf' & Hmax' & Hbase' & Hfilled & Hsame).
  { intros j Hj. rewrite Hothers by lia. apply Hfree. lia. }
  cbn zeta. split; [done|]. split; [congruence|]. split.
  { rewrite Hbase', Hmax0. cbn [length].
    replace (k + Z.of_nat (S (length rest)))
      with (k + 1 + Z.of_nat (length rest)) by lia. done. }
  split.
  - intros j Hj. cbn [length] in Hj.
    destruct (decide (j = k + 1)) as [->|Hne].
    + rewrite Hsame by lia. rewrite Hnew. by eexists.
    + apply Hfilled. lia.
  - intros j Hj. rewrite Hsame by lia. apply Hothers. lia.
Qed.

(** A fresh table that was filled is full, and its cursor is back at 1. *)
Lemma filled_full (n : Z) (listeners : list A) :
  1 <= n -> Z.of_nat (length listeners) = n ->
  TxStatusCallbacks.wf (filled n listeners) /\
  TxStatusCallbacks.full (filled n listeners) /\
  TxStatusCallbacks.max_id (filled n listeners) = n /\
  TxStatusCallbacks._baseindex (filled n listeners) = 1.
Proof.
  intros Hn Hlen. unfold filled.
  destruct (fill_in_order listeners (TxStatusCallbacks.init n) 0)
    as (Hwf & Hmax & Hbase & Hfilled & _).
  - by apply init_wf.
  - done.
  - cbn. lia.
  - cbn. by rewrite Z.mod_0_l by lia.
  - intros j Hj. unfold TxStatusCallbacks.slot, TxStatusCallbacks.init. cbn.
    rewrite lookup_replicate_2 by (cbn in Hj; lia). done.
  - cbn [TxStatusCallbacks.max_id TxStatusCallbacks.init] in *.
    split; [done|]. split; [|split; [done|]].
    + intros j Hj. apply Hfilled. lia.
    + rewrite Hbase, Z.add_0_l, Hlen, Z.mod_same by lia. done.
Qed.

(** C1 (amended): allocation is round-robin from the cursor.  An
    allocation returns the empty slot met first going up from the cursor
    and wrapping from [max_id] to 1, whenever there is an empty slot, and
    moves the cursor on by one.  So from a full table the release of slot
    [k] followed by an allocation returns [k], and the table is full
    again; and when two slots are released before anything is allocated,
    the next two allocations return them in the order they are met from
    the cursor, whatever the order of their release.  After a fresh table
    of at least two ids was filled the cursor is back at 1, so that the
    release of 2 and then of 1 is followed by 1 and then 2. *)
Theorem round_robin_from_cursor self (l1 l2 : A) :
  TxStatusCallbacks.wf self ->
  (forall txid t,
     TxStatusCallbacks.add_callback self l1 = (Return txid, t) ->
     1 <= txid <= TxStatusCallbacks.max_id self /\
     TxStatusCallbacks.slot self txid = None /\
     TxStatusCallbacks.slot t txid = Some l1 /\
     (forall j, 1 <= j <= TxStatusCallbacks.max_id self ->
        TxStatusCallbacks.slot self j = None ->
        steps_from_cursor self txid <= steps_from_cursor self j) /\
     TxStatusCallbacks._baseindex t = next_cursor self) /\
  ((exists j, 1 <= j <= TxStatusCallbacks.max_id self /\
              TxStatusCallbacks.slot self j = None) ->
   exists txid t, TxStatusCallbacks.add_callback self l1 = (Return txid, t)) /\
  (TxStatusCallbacks.full self ->
   forall k, 1 <= k <= TxStatusCallbacks.max_id self ->
     exists t,
       TxStatusCallbacks.add_callback
         (snd (TxStatusCallbacks.remove_callback self k)) l1 = (Return k, t) /\
       TxStatusCallbacks.wf t /\ TxStatusCallbacks.full t) /\
  (TxStatusCallbacks.full self ->
   forall a b s,
     1 <= a <= TxStatusCallbacks.max_id self ->
     1 <= b <= TxStatusCallbacks.max_id self ->
     steps_from_cursor self a < steps_from_cursor self b ->
     s = released self a b \/ s = released self b a ->
     let r1 := TxStatusCallbacks.add_callback s l1 in
     let r2 := TxStatusCallbacks.add_callback (snd r1) l2 in
     fst r1 = Return a /\ fst r2 = Return b) /\
  (forall listeners,
     2 <= TxStatusCallbacks.max_id self ->
     Z.of_nat (length listeners) = TxStatusCallbacks.max_id self ->
     self = filled (TxStatusCallbacks.max_id self) listeners ->
     TxStatusCallbacks.full self /\
     TxStatusCallbacks._baseindex self = 1 /\
     let r1 := TxStatusCallbacks.add_callback (released self 2 1) l1 in
     let r2 := TxStatusCallbacks.add_callback (snd r1) l2 in
     fst r1 = Return 1 /\ fst r2 = Return 2).
Proof.
  intros Hwf. pose proof Hwf as [Hmax Hlen Hbase].
  assert (Htwo : TxStatusCallbacks.full self ->
            forall a b s,
              1 <= a <= TxStatusCallbacks.max_id self ->
              1 <= b <= TxStatusCallbacks.max_id self ->
              steps_from_cursor self a < steps_from_cursor self b ->
              s = released self a b \/ s = released self b a ->
              let r1 := TxStatusCallbacks.add_callback s l1 in
              let r2 := TxStatusCallbacks.add_callback (snd r1) l2 in
              fst r1 = Return a /\ fst r2 = Return b).
  { intros Hfull a b s Ha Hb Hlt Hs.
    assert (Hs' : TxStatusCallbacks.wf s /\
              TxStatusCallbacks.max_id s = TxStatusCallbacks.max_id self /\
              TxStatusCallbacks._baseindex s = TxStatusCallbacks._baseindex self /\
              TxStatusCallbacks.slot s a = None /\
              TxStatusCallbacks.slot s b = None /\
              (forall j, 1 <= j <= TxStatusCallbacks.max_id self ->
                 j <> a -> j <> b -> is_Some (TxStatusCallbacks.slot s j))).
    { destruct Hs as [-> | ->].
      - apply released_two; done.
      - destruct (released_two self b a Hwf Hfull Hb Ha)
          as (H1 & H2 & H3 & H4 & H5 & H6).
        do 5 (split; [done|]). intros j Hj Hja Hjb. by apply H6. }
    destruct Hs' as (Hwfs & Hms & Hbs & Hsa & Hsb & Hrest).
    apply two_free_in_scan_order; try done; try lia.
    - intros j Hj. apply Hrest. lia.
    - unfold steps_from_cursor in *. by rewrite Hms, Hbs. }
  split; [|split; [|split; [|split]]].
  - intros txid t Hadd.
    destruct (add_callback_spec self l1 txid t Hwf Hadd)
      as (Hr & Hfree & Hnew & _ & _ & Hcur & _).
    split; [done|]. split; [done|]. split; [done|]. split; [|exact Hcur].
    intros j Hj Hfj. by eapply add_callback_nearest.
  - intros (j & Hj & Hfj). by eapply add_callback_total.
  - intros Hfull k Hk.
    destruct (release_allocate self k l1 Hwf Hfull Hk)
      as (s1 & s2 & Hrem & _ & Hadd & _ & Hwf2 & Hfull2).
    rewrite Hrem. cbn [snd]. by exists s2.
  - exact Htwo.
  - intros listeners Hn Hlen' Hself.
    destruct (filled_full (TxStatusCallbacks.max_id self) listeners
                ltac:(lia) Hlen') as (_ & Hfull & _ & Hcur).
    rewrite <- Hself in Hfull, Hcur.
    split; [done|]. split; [done|].
    apply (Htwo Hfull 1 2); [lia|lia| |by right].
    unfold steps_from_cursor. rewrite Hcur.
    rewrite Z.sub_diag, Z.mod_0_l by lia.
    replace (2 - 1) with 1 by lia. rewrite Z.mod_small by lia. lia.
Qed.

End RoundRobin.

Lemma five_full_filled : five_full = filled 5 (seq 1 5).
Proof. reflexivity. Qed.

Lemma round_robin_from_cursor_witness :
  (exists t,
     TxStatusCallbacks.add_callback
       (snd (TxStatusCallbacks.remove_callback five_full 2)) 6%nat
     = (Return 2, t) /\
     TxStatusCallbacks.wf t /\ TxStatusCallbacks.full t) /\
  (TxStatusCallbacks.full five_full /\
   TxStatusCallbacks._baseindex five_full = 1 /\
   let r1 := TxStatusCallbacks.add_callback (released five_full 2 1) 6%nat in
   let r2 := TxStatusCallbacks.add_callback (snd r1) 7%nat in
   fst r1 = Return 1 /\ fst r2 = Return 2).
Proof.
  destruct (round_robin_from_cursor five_full 6%nat 7%nat five_full_wf)
    as (_ & _ & Hone & _ & Hfilled).
  split.
  - apply (Hone five_full_full 2). vm_compute. split; discriminate.
  - apply (Hfilled (seq 1 5)).
    + vm_compute. discriminate.
    + reflexivity.
    + reflexivity.
Defined.

(** With the cursor at 2 the same two releases are followed by 2 and then
    1: the order follows the cursor, not the releases. *)
Lemma release_2_1_cursor_at_2 :
  TxStatusCallbacks._baseindex five_full_at_2 = 2 /\
  let r1 := TxStatusCallbacks.add_callback (released five_full_at_2 2 1) 6%nat in
  let r2 := TxStatusCallbacks.add_callback (snd r1) 7%nat in
  (fst r1, fst r2) = (Return 2, Return 1).
Proof. vm_compute. done. Qed.
